(* ===== verification/_CoqProject ===== *)
-Q . S2P
Prelude.v
SpecFile.v
Json.v
Range.v
Template.v
Clock.v
World.v
Changes.v
Download.v
Obs.v
Registry.v
GenPkg.v
Invariants.v
Cli.v
