(* ===== verification/Prelude.v ===== *)
(** * A verification development for npmspec.py

    npmspec (src/npmspec.py) keeps an openSUSE RPM spec file of a node
    package in step with the npm registry.  The program is one Python 2
    script; its parts and the files that model them are:

    - Prelude.v (this file): the Python exceptions the script can raise
      ([exn]), a result type with its bind notation, and the Python [str]
      library functions the script calls on Python 2 byte strings
      ([str.startswith], slicing [s[n:]] and [s[:-1]], [str.lstrip],
      [re.match(r'\s*', s)], [str.capitalize], [file.readlines],
      ['\n'.join]), with the lemmas the components share (among them
      [ends_with]: paths that end in different characters differ) and
      the hint databases [pystr] (rewriting) and [npm] (resolution).
    - SpecFile.v, [Module SpecFile]: class [Spec] (lines 34-63), the
      "very simple spec file parser": its state is the list of lines, the
      operations are [_read]/[__init__], [settag], [gettag] and
      [__str__].  The theorems show that a lookup and an update stop at
      the first [%package ] or [%description] line, that an update keeps
      the whitespace between the colon and the value, that it replaces
      every matching preamble line (not only the first one) and that
      [gettag] after [settag] returns the new value, and they relate
      [__str__] and [_read] (round trip up to the final newline).  The
      reference definitions [gettag_ref]/[settag_ref] (first match in the
      preamble, through stdpp's [list_find]) are shown equal to the
      loops, and an update survives the write and the re-read
      ([settag_reread]) when a [%package ]/[%description] line follows
      the preamble.  The type invariant [spec_wf] (no line holds a
      newline) holds of every [Spec] the program builds and is kept by
      [settag] ([spec_wf_preserved]).
    - Json.v, [Module Json]: the parsed registry document as a JSON
      value; Python [dict] indexing ([KeyError]), membership, item
      assignment and [items()], as an association list in document
      order, with lookup after assignment and key uniqueness; [py_str]
      is Python 2's [str()] of a parsed value (the [repr] of strings,
      lists and dicts included), what ['%s' % data['version']] (line
      181) and [str.format] in [settag] print.
    - Range.v, [Module Range]: the dependency-range translation inside
      [get_templatedata] (lines 259-274): strip ['='], strip ['v'],
      require ['^'] or ['~'], emit ["name >= bound"].  An inductive
      relation [range_form] of the supported forms is the abstract
      specification; [translate_range_refines] and the completeness
      lemma show the code computes exactly it; the loop over the
      dependencies is all-or-nothing ([requires_loop_ok_iff],
      [requires_loop_error]).
    - Template.v, [Module Template]: [get_templatedata] (lines 248-277)
      in full; the renderer of [genspec]/[genservice] is the class
      [Renderer], since jinja2 and the templates are not under src/.
    - Clock.v, [Module Clock]: [datetime.utcnow()] as a field of the
      world and [strftime('%a %b %d %H:%M:%S UTC %Y')] computed as
      Python's [datetime] does (weekday from the proleptic Gregorian
      ordinal); the timestamp has a fixed width of 28 characters for
      four-digit years.
    - World.v, [Module World]: the file system (a [gmap] from paths to
      text or saved JSON, and a [gset] of directories), the home
      directory, the clock and the network, with a trace of every file
      operation and request; the transport is the class [Transport]
      whose instances are the registry, OBS and the tarball server.
      Paths are resolved as [open], [os.path.exists] and [os.rename]
      resolve them: [normpath] removes a leading ['./'], so the spec
      found as ['nodejs-foo.spec'] and opened as ['./nodejs-foo.spec']
      is one file; the primitives key the file map by the resolved path
      and the statements name files by it ([normpath p]).  An
      operation of the script is a state-and-exception monad [IO]
      ([world -> result A * world]); file operations are replayed by
      [run_op]/[run_ops] so that crash consistency is a statement about
      every prefix ([take n]) of a list of operations.  [keeps P m] says
      that [m] keeps a property [P] of the files whatever it returns or
      raises (the [has_post] of interaction trees for this monad), with
      a proof rule per primitive and for the bind, the tactic
      [keeps_steps], and [unchanged p b], the frame of one path.  Each
      component file proves the footprint of its operation as a [keeps]
      lemma ([write_changes_file_keeps], [download_keeps],
      [check_dln_exists_keeps], [fetch_registry_keeps],
      [do_genpkg_keeps]).
    - Changes.v, [Module Changes]: [write_changes_file] (lines 168-184):
      prepend a new entry through [<fn>.new] and [os.rename].  Theorems:
      its exact effect and trace, atomicity over every prefix of its
      writes, the partial [.new] file on a missing version.
    - Download.v, [Module Download]: [download] (lines 205-215) and the
      chunks of [iter_content(4096)].  [iter_content] recurses with the
      length of the body as fuel: each chunk removes at least one byte,
      so the fuel never runs out first ([iter_content_cat] shows the
      chunks rebuild the whole body).
    - Obs.v, [Module Obs]: [check_dln_exists] (lines 186-203), the two
      OBS requests and the [<version>] element of the fileinfo XML.
    - Registry.v, [Module Registry]: [fetch_registry] (lines 217-246),
      the conditional GET through the ETag cache: a 304 keeps the cache,
      any other success rewrites it; an error raises; with a server
      that answers 304 to the stored ETag a second call is idempotent.
    - GenPkg.v, [Module GenPkg]: [do_genpkg] (lines 107-166), the
      orchestrator.  The abstract decision of the spec ([decision]:
      create, no-op or update) is computed by [decide_sync] from the
      presence of the spec and the two versions; the refinement theorems
      ([do_genpkg_noop], [do_genpkg_update], [do_genpkg_detect_only],
      [do_genpkg_create]) show that each branch of the code performs
      exactly that decision's file operations and requests, in the
      code's order, and nothing else (an update without [-u] only
      detects); [do_genpkg_tracked] shows that a package that OBS
      already tracks is left alone; [locate_spec_checked] shows that
      the existence flag of [locate_spec] is the truth about the spec
      path it returns, in the current directory as in the package
      directory.
    - Invariants.v, [Module Invariants]: properties of whole runs,
      proved from the footprints: every run keeps every JSON document of
      the file system a cache document with a string ['_etag']
      ([do_genpkg_json_wf], what line 230 relies on), and an update
      settles: after a run has rewritten the spec, the next run against
      the same registry entry does nothing, even when the download of
      the first run failed ([do_genpkg_update_settles]).
    - Cli.v, [Module Cli]: the command line ([get_optparser],
      [postoptparse], the subcommands and [do_genspec], lines 74-107 and
      290-292); the text [genspec] prints is the spec file [genpkg]
      creates ([genspec_is_created_spec]).

    The properties C1-C40 of the manifest are, in order of importance:
    the refinement of [do_genpkg] (C1-C6), the properties of whole runs
    (C7, C8), the location of the spec (C9), the error paths of
    [do_genpkg] (C10, C11), the spec-file editor (C12-C15, C25, C32,
    C33, C39, C40) and its well-formedness type invariant (C16), the
    range translation and the template data (C17, C18, C28-C30), the
    agreement of [genspec] and [genpkg] (C31), the changes file (C19,
    C20, C34), the registry cache (C21-C24, C37), the download (C26,
    C27, C38) and OBS (C35, C36).  Every theorem with hypotheses has a
    witness lemma evaluating the definitions on a concrete world.

    Not modelled: [BoilderPlate.__init__] (the jinja2 environment and
    [osc.conf.get_config]) and the argument parsing of [cmdln], logging
    and [print] (no effect on the files), [osc.core.createPackageDir] (modelled as the
    [os.mkdir] of the other branch: the [.osc] metadata it writes is
    not read by the script), the parent-directory checks of [open], the
    jinja2 templates themselves, and the JSON text (de)serialisation of
    [json.load]/[json.dumps]/[r.json()], which are library code: a parsed
    document is a [json] value.  Path resolution is [normpath]: the
    code builds no other aliases (no ['..'], no doubled ['/'], no
    symbolic links), so no other rule of the operating system is
    modelled.  The [cmdln] argument parsing and dispatch of [main] are
    library code: [run_command] starts from the parsed command.

    Python 2 [str] is a byte string: a character is an [ascii] (8 bits),
    and the whitespace of [str.lstrip] and of [\s] in a byte pattern is
    the six characters space, tab, LF, VT, FF and CR. *)

From stdpp Require Import base list strings.
From Stdlib Require Import Ascii.

Declare Scope py_scope.
Delimit Scope py_scope with py.

(** ** Python exceptions and results *)

(** The exceptions the script raises or lets escape. *)
Inductive exn :=
| KeyError (key : string)          (** [d[k]] on a missing key *)
| TypeError (what : string)        (** a value of the wrong JSON type *)
| IndexError                       (** [v[0]] on an empty string *)
| ValueError (what : string)       (** [r.json()] on a body that is not JSON *)
| HTTPError (status : nat)         (** [r.raise_for_status()] *)
| ConnectionError (url : string)   (** [requests.get] fails *)
| IOError (path : string)          (** [open(path, 'r')] of a missing file *)
| OSError (path : string)          (** [os.rename] of a missing file *)
| ParseError                       (** [ET.parse] of a body that is not XML *)
| Exception (msg : string).        (** [raise Exception(...)] *)

#[export] Instance exn_eq_dec : EqDecision exn.
Proof. solve_decision. Defined.

Inductive result (A : Type) :=
| Ok (a : A)
| Err (e : exn).
Arguments Ok {A} a.
Arguments Err {A} e.

#[export] Instance result_eq_dec {A} `{EqDecision A} : EqDecision (result A).
Proof. solve_decision. Defined.

Definition rbind {A B} (r : result A) (k : A -> result B) : result B :=
  match r with
  | Ok a => k a
  | Err e => Err e
  end.

Notation "x <- c ;; k" := (rbind c (fun x => k))
  (at level 100, c at next level, right associativity) : py_scope.
Open Scope py_scope.

(** stdpp makes [String.append] [simpl never]; the string functions of this
    development compute by [simpl] on concrete and symbolic prefixes. *)
#[global] Arguments String.append : simpl nomatch.

(** ** Python 2 [str] operations *)

Definition is_space (c : ascii) : bool :=
  let n := nat_of_ascii c in (n =? 32) || ((9 <=? n) && (n <=? 13)).

Abbreviation newline := "010"%char (only parsing).

(** [s.lstrip()] *)
Fixpoint lstrip (s : string) : string :=
  match s with
  | EmptyString => EmptyString
  | String c s' => if is_space c then lstrip s' else s
  end.

(** [re.match(r'\s*', s).group()]: the longest whitespace prefix. *)
Fixpoint leading_ws (s : string) : string :=
  match s with
  | EmptyString => EmptyString
  | String c s' => if is_space c then String c (leading_ws s') else EmptyString
  end.

(** [s.startswith(p)] *)
Fixpoint startswith (p s : string) : bool :=
  match p, s with
  | EmptyString, _ => true
  | String c p', String d s' => Ascii.eqb c d && startswith p' s'
  | String _ _, EmptyString => false
  end.

(** [s[n:]] *)
Fixpoint str_drop (n : nat) (s : string) : string :=
  match n, s with
  | 0, _ => s
  | S n', String _ s' => str_drop n' s'
  | S _, EmptyString => EmptyString
  end.

(** [s[:-1]] *)
Fixpoint chop_last (s : string) : string :=
  match s with
  | EmptyString => EmptyString
  | String _ EmptyString => EmptyString
  | String c s' => String c (chop_last s')
  end.

Definition ascii_upper (c : ascii) : ascii :=
  let n := nat_of_ascii c in
  if (97 <=? n) && (n <=? 122) then ascii_of_nat (n - 32) else c.

Definition ascii_lower (c : ascii) : ascii :=
  let n := nat_of_ascii c in
  if (65 <=? n) && (n <=? 90) then ascii_of_nat (n + 32) else c.

Fixpoint str_map (f : ascii -> ascii) (s : string) : string :=
  match s with
  | EmptyString => EmptyString
  | String c s' => String (f c) (str_map f s')
  end.

(** [s.capitalize()]: first character upper case, the rest lower case. *)
Definition capitalize (s : string) : string :=
  match s with
  | EmptyString => EmptyString
  | String c s' => String (ascii_upper c) (str_map ascii_lower s')
  end.

(** [fh.readlines()]: the lines of a file, each with its ['\n'] except a
    last line that has none. *)
Fixpoint readlines (s : string) : list string :=
  match s with
  | EmptyString => []
  | String c s' =>
      if Ascii.eqb c newline then String c EmptyString :: readlines s'
      else match readlines s' with
           | [] => [String c EmptyString]
           | l :: ls => String c l :: ls
           end
  end.

(** ['\n'.join(ls)] *)
Definition join_lines (ls : list string) : string :=
  String.concat (String newline EmptyString) ls.

(** ['sep'.join(ls)] with the empty separator. *)
Definition str_concat (ls : list string) : string := String.concat EmptyString ls.

(** [c * n] for a one-character string [c] *)
Fixpoint str_repeat (c : ascii) (n : nat) : string :=
  match n with
  | 0 => EmptyString
  | S n' => String c (str_repeat c n')
  end.

(** [s.split('\n')[0]]: the text before the first newline. *)
Fixpoint first_line (s : string) : string :=
  match s with
  | EmptyString => EmptyString
  | String c s' => if Ascii.eqb c newline then EmptyString else String c (first_line s')
  end.

Fixpoint all_space (s : string) : bool :=
  match s with
  | EmptyString => true
  | String c s' => is_space c && all_space s'
  end.

Fixpoint has_newline (s : string) : bool :=
  match s with
  | EmptyString => false
  | String c s' => Ascii.eqb c newline || has_newline s'
  end.

Create Rewrite HintDb pystr.
Create HintDb npm discriminated.

(** ** The result monad *)

Lemma rbind_Ok {A B} (r : result A) (k : A -> result B) (x : B) :
  rbind r k = Ok x <-> exists a, r = Ok a /\ k a = Ok x.
Proof.
  destruct r as [a|e]; simpl; split; [eauto | by intros (? & [= ->] & ?) | done |].
  by intros (? & ? & _).
Qed.

Lemma rbind_Err {A B} (r : result A) (k : A -> result B) (e : exn) :
  r = Err e -> rbind r k = Err e.
Proof. by intros ->. Qed.

(** Split a successful chain of binds [x <- c ;; k] in hypothesis [H]
    into the successful steps. *)
Ltac inv_ok H :=
  repeat match type of H with
  | rbind _ _ = Ok _ =>
      let Hs := fresh "Hstep" in apply rbind_Ok in H as (? & Hs & H)
  end.
(** ** Shared lemmas on strings *)

Lemma append_nil_r (s : string) : s +:+ EmptyString = s.
Proof. induction s as [|c s IH]; simpl; [done | by rewrite IH]. Qed.

Lemma append_assoc (a b c : string) : (a +:+ b) +:+ c = a +:+ (b +:+ c).
Proof. induction a as [|x a IH]; simpl; [done | by rewrite IH]. Qed.

Lemma startswith_append (p s : string) : startswith p (p +:+ s) = true.
Proof.
  induction p as [|c p IH]; simpl; [by destruct s|].
  by rewrite Ascii.eqb_refl, IH.
Qed.

Lemma startswith_split (p s : string) :
  startswith p s = true -> s = p +:+ str_drop (String.length p) s.
Proof.
  revert s. induction p as [|c p IH]; intros s H; simpl; [done|].
  destruct s as [|d s]; simpl in H; [done|].
  apply andb_prop in H as [->%Ascii.eqb_eq H]. by rewrite <-IH.
Qed.

Lemma str_drop_append (p s : string) : str_drop (String.length p) (p +:+ s) = s.
Proof. induction p; simpl; done. Qed.

Lemma startswith_append_l (p q s : string) :
  startswith p s = true -> startswith p (s +:+ q) = true.
Proof.
  revert s. induction p as [|c p IH]; intros s H; simpl; [done|].
  destruct s as [|d s]; simpl in *; [done|].
  apply andb_prop in H as [-> H]. by apply IH.
Qed.

Lemma leading_ws_lstrip (s : string) : leading_ws s +:+ lstrip s = s.
Proof.
  induction s as [|c s IH]; simpl; [done|].
  destruct (is_space c); simpl; [by rewrite IH | done].
Qed.

Lemma all_space_leading_ws (s : string) : all_space (leading_ws s) = true.
Proof.
  induction s as [|c s IH]; simpl; [done|].
  destruct (is_space c) eqn:E; simpl; [by rewrite E, IH | done].
Qed.

Lemma lstrip_app_space (w s : string) :
  all_space w = true -> lstrip (w +:+ s) = lstrip s.
Proof.
  induction w as [|c w IH]; simpl; [done|].
  intros [-> Hw]%andb_prop. by apply IH.
Qed.

Lemma leading_ws_app_space (w s : string) :
  all_space w = true -> leading_ws (w +:+ s) = w +:+ leading_ws s.
Proof.
  induction w as [|c w IH]; simpl; [done|].
  intros [-> Hw]%andb_prop. by rewrite IH.
Qed.

(** A string whose first character is not whitespace has no leading
    whitespace and is its own [lstrip]. *)
Definition starts_nonspace (s : string) : bool :=
  match s with
  | EmptyString => true
  | String c _ => negb (is_space c)
  end.

Lemma leading_ws_nonspace (s : string) :
  starts_nonspace s = true -> leading_ws s = EmptyString.
Proof. destruct s as [|c s]; simpl; [done|]. by destruct (is_space c). Qed.

Lemma lstrip_nonspace (s : string) :
  starts_nonspace s = true -> lstrip s = s.
Proof. destruct s as [|c s]; simpl; [done|]. by destruct (is_space c). Qed.

Lemma lstrip_idem (s : string) : lstrip (lstrip s) = lstrip s.
Proof.
  induction s as [|c s IH]; simpl; [done|].
  destruct (is_space c) eqn:E; [done|]. simpl. by rewrite E.
Qed.

Lemma starts_nonspace_lstrip (s : string) : starts_nonspace (lstrip s) = true.
Proof.
  induction s as [|c s IH]; simpl; [done|].
  destruct (is_space c) eqn:E; [done|]. simpl. by rewrite E.
Qed.

Lemma readlines_cons_char (c : ascii) (s : string) :
  str_concat (readlines (String c s)) = String c (str_concat (readlines s)).
Proof.
  unfold str_concat. simpl. destruct (Ascii.eqb c newline); simpl.
  - by destruct (readlines s).
  - destruct (readlines s) as [|l [|l' ls]]; simpl; try done.
Qed.

(** [''.join(fh.readlines())] is the file contents. *)
Lemma str_concat_readlines (s : string) : str_concat (readlines s) = s.
Proof.
  induction s as [|c s IH]; [done|]. by rewrite readlines_cons_char, IH.
Qed.

(** [s] ends with the character [c]: paths that end differently are
    different files. *)
Definition ends_with (s : string) (c : ascii) : Prop :=
  exists p, s = p +:+ String c EmptyString.

Lemma ends_with_app (s t : string) (c : ascii) : ends_with t c -> ends_with (s +:+ t) c.
Proof. intros [p ->]. exists (s +:+ p). by rewrite append_assoc. Qed.

Lemma ends_with_char (p : string) (c : ascii) : ends_with (p +:+ String c EmptyString) c.
Proof. by exists p. Qed.

Lemma ends_with_unique (s : string) (c d : ascii) : ends_with s c -> ends_with s d -> c = d.
Proof.
  intros [p ->] [q Hq]. revert q Hq. induction p as [|x p IH]; intros [|y q] H; simpl in H.
  - by injection H.
  - injection H as -> H. by destruct q.
  - injection H as -> H. by destruct p.
  - injection H as -> H. by apply (IH q).
Qed.

Lemma ends_with_ne (s t : string) (c d : ascii) :
  ends_with s c -> ends_with t d -> c <> d -> s <> t.
Proof. intros Hs Ht Hcd ->. by apply Hcd, (ends_with_unique t). Qed.

Lemma has_newline_app (a b : string) :
  has_newline (a +:+ b) = has_newline a || has_newline b.
Proof. induction a as [|c a IH]; simpl; [done|]. by rewrite IH, orb_assoc. Qed.

Lemma string_length_append (a b : string) :
  String.length (a +:+ b) = String.length a + String.length b.
Proof. induction a; simpl; lia. Qed.

#[export] Hint Rewrite append_nil_r append_assoc str_drop_append
  leading_ws_lstrip lstrip_idem : pystr.
#[export] Hint Resolve startswith_append all_space_leading_ws
  starts_nonspace_lstrip : npm.

(** Characters are decided by [ascii_dec]; the goals that compare two
    concrete characters are closed by [decide_chars]. *)
Ltac decide_chars :=
  repeat match goal with
  | |- context [ascii_dec ?a ?b] => destruct (ascii_dec a b); try congruence
  end.
