(* ===== verification/SpecFile.v ===== *)
(** * SpecFile: the spec-file editor, class [Spec] of src/npmspec.py

    The state of a [Spec] object is its list of lines ([self.lines]).
    [spec_read] is [_read] (the lines of the file, each cut by [l[:-1]]),
    [gettag]/[settag] scan the lines from the top and stop at the first
    [%package ] or [%description] line, and [spec_str] is [__str__].
    The theorems give the exact effect of [settag] (every matching line of
    the preamble is rewritten, nothing else changes), the whitespace it
    keeps, [gettag] after [settag], the boundary, the case of the tag and
    the round trip between [_read] and [__str__].  [gettag_ref] and
    [settag_ref] are the reference definitions (the first match in the
    preamble, by stdpp's [list_find]) that the loops are shown to
    compute. *)

From stdpp Require Import base list strings.
From Stdlib Require Import Ascii.
From S2P Require Import Prelude.

Module SpecFile.

(** The state of a [Spec]: [self.lines]. *)
Record Spec := mkSpec { lines : list string }.

(** [Spec()] with no file name: no lines. *)
Definition spec_empty : Spec := mkSpec [].

(** [_read(fn)]: [[l[:-1] for l in fh.readlines()]] of the file contents. *)
Definition spec_read (contents : string) : list string :=
  map chop_last (readlines contents).

(** [Spec(fn)] *)
Definition spec_of_file (contents : string) : Spec :=
  mkSpec (spec_read contents).

(** [line.startswith('%package ') or line.startswith('%description')] *)
Definition is_boundary (line : string) : bool :=
  startswith "%package " line || startswith "%description" line.

(** [tag+':'] *)
Definition tag_colon (tag : string) : string := tag +:+ ":".

(** [line[len(tag)+1:]] *)
Definition tag_rest (tag line : string) : string :=
  str_drop (String.length tag + 1) line.

(** The line [settag] writes for a matching line:
    [spaces = re.match(r'\s*', line[len(tag)+1:]).group()] and
    ["{}:{}{}".format(tag, spaces, value)]. *)
Definition retag (tag value line : string) : string :=
  tag +:+ ":" +:+ leading_ws (tag_rest tag line) +:+ value.

(** The loop of [settag] over [enumerate(self.lines)], with the tag
    already capitalized: it does not stop at a match. *)
Fixpoint settag_loop (tag value : string) (ls : list string) : list string :=
  match ls with
  | [] => []
  | line :: rest =>
      if is_boundary line then ls
      else if startswith (tag_colon tag) line
           then retag tag value line :: settag_loop tag value rest
           else line :: settag_loop tag value rest
  end.

(** [settag(tag, value)] *)
Definition settag (tag value : string) (s : Spec) : Spec :=
  mkSpec (settag_loop (capitalize tag) value (lines s)).

(** The loop of [gettag], with the tag already capitalized. *)
Fixpoint gettag_loop (tag : string) (ls : list string) : option string :=
  match ls with
  | [] => None
  | line :: rest =>
      if is_boundary line then None
      else if startswith (tag_colon tag) line
           then Some (lstrip (tag_rest tag line))
           else gettag_loop tag rest
  end.

(** [gettag(tag)] *)
Definition gettag (tag : string) (s : Spec) : option string :=
  gettag_loop (capitalize tag) (lines s).

(** [__str__]: ['\n'.join(self.lines)] *)
Definition spec_str (s : Spec) : string := join_lines (lines s).

(** ** Lemmas *)

(** The line [settag] makes for a matching line, when no boundary starts
    the preamble: each preamble line is kept or retagged. *)
Definition retag_if (tag value line : string) : string :=
  if startswith (tag_colon tag) line then retag tag value line else line.

(** ** A reference specification of [gettag] and [settag]

    Declaratively, with stdpp's [list_find]: the preamble is the prefix of
    the lines before the first [%package ] or [%description] line;
    [gettag] reads the first preamble line that starts with the tag and a
    colon; [settag] retags every such preamble line and keeps the rest. *)

Definition preamble (ls : list string) : list string :=
  match list_find (fun l => is_boundary l = true) ls with
  | Some (i, _) => take i ls
  | None => ls
  end.

Definition gettag_ref (tag : string) (s : Spec) : option string :=
  let T := capitalize tag in
  (fun il => lstrip (tag_rest T il.2)) <$>
    list_find (fun l => startswith (tag_colon T) l = true) (preamble (lines s)).

Definition settag_ref (tag value : string) (s : Spec) : Spec :=
  let T := capitalize tag in
  let pre := preamble (lines s) in
  mkSpec (map (retag_if T value) pre ++ drop (length pre) (lines s)).

Lemma settag_loop_preamble (tag value : string) (pre : list string) :
  Forall (fun l => is_boundary l = false) pre ->
  settag_loop tag value pre = map (retag_if tag value) pre.
Proof.
  induction 1 as [|l pre Hl _ IH]; simpl; [done|].
  rewrite Hl, IH. unfold retag_if. by destruct (startswith _ l).
Qed.

Lemma settag_loop_boundary (tag value b : string) (pre post : list string) :
  is_boundary b = true ->
  settag_loop tag value (pre ++ b :: post) = settag_loop tag value pre ++ b :: post.
Proof.
  intros Hb. induction pre as [|l pre IH]; simpl; [by rewrite Hb|].
  destruct (is_boundary l); [done|].
  by destruct (startswith _ l); rewrite IH.
Qed.

Lemma gettag_loop_boundary (tag b : string) (pre post : list string) :
  is_boundary b = true ->
  gettag_loop tag (pre ++ b :: post) = gettag_loop tag pre.
Proof.
  intros Hb. induction pre as [|l pre IH]; simpl; [by rewrite Hb|].
  destruct (is_boundary l); [done|].
  by destruct (startswith _ l).
Qed.

(** A string with no [':'] is a prefix of [q ++ ":" ++ x] independently
    of [x]: the boundary markers cannot reach past the colon of a tag. *)
Fixpoint colon_free (p : string) : bool :=
  match p with
  | EmptyString => true
  | String c p' => negb (Ascii.eqb c ":"%char) && colon_free p'
  end.

Lemma startswith_colon_indep (p q x y : string) :
  colon_free p = true ->
  startswith p (q +:+ ":" +:+ x) = startswith p (q +:+ ":" +:+ y).
Proof.
  revert p. induction q as [|d q IH]; intros [|c p] Hp; simpl in *; try done.
  - apply andb_prop in Hp as [Hc _]. by destruct (Ascii.eqb c ":"%char).
  - apply andb_prop in Hp as [_ Hp]. by rewrite (IH p Hp).
Qed.

Lemma is_boundary_colon_indep (q x y : string) :
  is_boundary (q +:+ ":" +:+ x) = is_boundary (q +:+ ":" +:+ y).
Proof.
  unfold is_boundary.
  rewrite (startswith_colon_indep "%package " q x y),
    (startswith_colon_indep "%description" q x y); done.
Qed.

Lemma tag_rest_colon (tag r : string) : tag_rest tag (tag +:+ ":" +:+ r) = r.
Proof. unfold tag_rest. by induction tag. Qed.

Lemma tag_match_split (tag line : string) :
  startswith (tag_colon tag) line = true ->
  line = tag +:+ ":" +:+ tag_rest tag line.
Proof.
  unfold tag_colon, tag_rest. revert line.
  induction tag as [|c tag IH]; intros [|d line] H;
    cbn [startswith String.append str_drop String.length Nat.add] in *; try done.
  - by apply andb_prop in H as [->%Ascii.eqb_eq _].
  - apply andb_prop in H as [->%Ascii.eqb_eq H]. by rewrite <-IH.
Qed.

Lemma tag_match_colon (tag r : string) :
  startswith (tag_colon tag) (tag +:+ ":" +:+ r) = true.
Proof. unfold tag_colon. rewrite <-append_assoc. apply startswith_append. Qed.

Lemma retag_rest (tag value line : string) :
  tag_rest tag (retag tag value line) = leading_ws (tag_rest tag line) +:+ value.
Proof. apply tag_rest_colon. Qed.

Lemma retag_matches (tag value line : string) :
  startswith (tag_colon tag) (retag tag value line) = true.
Proof. apply tag_match_colon. Qed.

Lemma retag_boundary (tag value line : string) :
  startswith (tag_colon tag) line = true ->
  is_boundary (retag tag value line) = is_boundary line.
Proof.
  intros H%tag_match_split. rewrite H at 2. apply is_boundary_colon_indep.
Qed.

#[export] Hint Rewrite tag_rest_colon retag_rest retag_matches : pystr.

Lemma retag_idem (tag value line : string) :
  starts_nonspace value = true ->
  retag tag value (retag tag value line) = retag tag value line.
Proof.
  intros Hv. unfold retag at 1. rewrite retag_rest.
  rewrite leading_ws_app_space by apply all_space_leading_ws.
  by rewrite (leading_ws_nonspace value Hv), append_nil_r.
Qed.

Lemma settag_loop_absent (tag value : string) (ls : list string) :
  gettag_loop tag ls = None -> settag_loop tag value ls = ls.
Proof.
  induction ls as [|l ls IH]; simpl; [done|].
  destruct (is_boundary l); [done|].
  destruct (startswith (tag_colon tag) l); [done|]. intros H. by rewrite IH.
Qed.

(** The file contents whose lines are [L], each ended by a newline. *)
Fixpoint unlines (L : list string) : string :=
  match L with
  | [] => EmptyString
  | l :: L' => l +:+ String newline (unlines L')
  end.

Definition no_newline (l : string) : Prop := has_newline l = false.

Lemma readlines_line (l rest : string) :
  has_newline l = false ->
  readlines (l +:+ String newline rest)
  = (l +:+ String newline EmptyString) :: readlines rest.
Proof.
  induction l as [|c l IH]; simpl; intros H; [done|].
  apply orb_false_iff in H as [Hc Hl]. by rewrite Hc, IH.
Qed.

Lemma readlines_unlines (L : list string) (r : string) :
  Forall no_newline L ->
  readlines (unlines L +:+ r)
  = map (fun l => l +:+ String newline EmptyString) L ++ readlines r.
Proof.
  induction 1 as [|l L Hl _ IH]; simpl; [done|].
  rewrite append_assoc. simpl. by rewrite readlines_line, IH.
Qed.

Lemma readlines_last (l : string) :
  l <> EmptyString -> has_newline l = false -> readlines l = [l].
Proof.
  induction l as [|c l IH]; simpl; intros Hne H; [done|].
  apply orb_false_iff in H as [Hc Hl]. rewrite Hc.
  destruct l as [|d l]; [done|]. by rewrite IH.
Qed.

Lemma chop_last_snoc (s : string) (c : ascii) :
  chop_last (s +:+ String c EmptyString) = s.
Proof.
  induction s as [|d s IH]; [done|].
  destruct s as [|e s]; [done|]. simpl in *. by rewrite IH.
Qed.

Lemma join_lines_cons (l : string) (L : list string) :
  L <> [] -> join_lines (l :: L) = l +:+ String newline (join_lines L).
Proof. by destruct L. Qed.

Lemma join_lines_unlines (L : list string) :
  L <> [] -> join_lines L +:+ String newline EmptyString = unlines L.
Proof.
  induction L as [|l [|l2 L] IH]; intros Hne; [done|done|].
  rewrite join_lines_cons by done. rewrite append_assoc. simpl.
  by rewrite IH.
Qed.

Lemma join_lines_snoc (L : list string) (l : string) :
  join_lines (L ++ [l]) = unlines L +:+ l.
Proof.
  induction L as [|x L IH]; [done|].
  rewrite <-app_comm_cons, join_lines_cons by (by destruct L).
  rewrite IH. simpl. by rewrite append_assoc.
Qed.

(** Reading a file made of the newline-terminated lines [L] followed by
    [r] gives [L] and then the lines of [r]. *)
Lemma spec_read_app (L : list string) (r : string) :
  Forall no_newline L -> spec_read (unlines L +:+ r) = L ++ spec_read r.
Proof.
  intros HL. unfold spec_read. rewrite readlines_unlines by done.
  rewrite map_app, map_map. f_equal. rewrite <-(map_id L) at 2.
  apply map_ext. intros x. apply chop_last_snoc.
Qed.

Lemma spec_read_line (l : string) :
  l <> EmptyString -> has_newline l = false -> spec_read l = [chop_last l].
Proof. intros Hne Hl. unfold spec_read. by rewrite readlines_last. Qed.

(** [post] is empty or begins with a [%package ] or [%description] line. *)
Definition starts_block (post : list string) : bool :=
  match post with
  | [] => true
  | b :: _ => is_boundary b
  end.

Lemma preamble_cons (l : string) (ls : list string) :
  preamble (l :: ls) = if is_boundary l then [] else l :: preamble ls.
Proof.
  unfold preamble. cbn [list_find]. destruct (is_boundary l); simpl; [done|].
  by destruct (list_find _ ls) as [[i x]|].
Qed.

(** The first match of [gettag] is the line [settag] retags: the lookup
    after the update returns the new value. *)
Lemma gettag_loop_settag_loop (T value : string) (ls : list string) :
  gettag_loop T ls <> None ->
  gettag_loop T (settag_loop T value ls) = Some (lstrip value).
Proof.
  induction ls as [|l ls IH]; simpl; [done|].
  destruct (is_boundary l) eqn:Hb; [done|].
  destruct (startswith (tag_colon T) l) eqn:Hm; intros H; simpl.
  - rewrite retag_boundary, Hb, retag_matches, retag_rest by done.
    by rewrite lstrip_app_space by apply all_space_leading_ws.
  - rewrite Hb, Hm. by apply IH.
Qed.

Lemma gettag_loop_app (T v : string) (L R : list string) :
  gettag_loop T L = Some v -> gettag_loop T (L ++ R) = Some v.
Proof.
  induction L as [|l L IH]; simpl; [done|].
  destruct (is_boundary l); [done|]. by destruct (startswith _ l).
Qed.

Lemma join_lines_app (L M : list string) :
  M <> [] -> join_lines (L ++ M) = unlines L +:+ join_lines M.
Proof.
  intros HM. induction L as [|x L IH]; [done|].
  rewrite <-app_comm_cons, join_lines_cons by (destruct L, M; done).
  rewrite IH. simpl. by rewrite append_assoc.
Qed.

(** Writing a spec and reading it back keeps every line before the last
    one: whatever [_read] truncates lies in the last line. *)
Lemma spec_reread_prefix (L M : list string) :
  Forall no_newline L -> M <> [] ->
  spec_read (spec_str (mkSpec (L ++ M))) = L ++ spec_read (join_lines M).
Proof. intros HL HM. unfold spec_str; simpl. rewrite join_lines_app by done. by apply spec_read_app. Qed.

Lemma no_newline_leading_ws (s : string) : no_newline s -> no_newline (leading_ws s).
Proof.
  unfold no_newline. intros H. rewrite <-(leading_ws_lstrip s), has_newline_app in H.
  by apply orb_false_iff in H as [? _].
Qed.

Lemma no_newline_retag_if (T value line : string) :
  no_newline value -> no_newline line -> no_newline (retag_if T value line).
Proof.
  unfold retag_if. destruct (startswith (tag_colon T) line) eqn:Hm; [|done].
  intros Hv Hl. pose proof (no_newline_leading_ws (tag_rest T line)) as Hw.
  unfold no_newline, retag in *. rewrite (tag_match_split _ _ Hm), !has_newline_app in Hl.
  rewrite !has_newline_app. apply orb_false_iff in Hl as [HT Hl].
  apply orb_false_iff in Hl as [Hc Hr]. by rewrite HT, Hc, Hw, Hv.
Qed.

(** ** Well-formedness of a [Spec]

    A well-formed [Spec] holds lines, none of which contains a newline:
    what [_read] makes of any file, and what [settag] keeps. *)
Definition spec_wf (s : Spec) : Prop := Forall no_newline (lines s).

#[export] Instance no_newline_dec (l : string) : Decision (no_newline l).
Proof. unfold no_newline. apply _. Defined.

#[export] Instance spec_wf_dec (s : Spec) : Decision (spec_wf s).
Proof. unfold spec_wf. apply _. Defined.

(** Every line of [readlines] is non-empty and has its only newline, if
    any, at its end. *)
Lemma readlines_lines (c : string) :
  Forall (fun l => l <> EmptyString /\ no_newline (chop_last l)) (readlines c).
Proof.
  induction c as [|x c IH]; simpl; [constructor|].
  destruct (Ascii.eqb x newline) eqn:E; [by constructor|].
  destruct (readlines c) as [|l ls]; constructor; [done | done | |].
  - inversion IH as [|? ? [Hne Hl] _]; subst. split; [done|].
    destruct l as [|y l]; [done|]. unfold no_newline in *. simpl in *. by rewrite E.
  - by inversion IH.
Qed.

Lemma spec_read_wf (c : string) : Forall no_newline (spec_read c).
Proof.
  unfold spec_read. apply Forall_map. eapply Forall_impl; [apply readlines_lines|].
  by intros l [_ H].
Qed.

Lemma settag_loop_wf (T value : string) (ls : list string) :
  no_newline value -> Forall no_newline ls -> Forall no_newline (settag_loop T value ls).
Proof.
  intros Hv. induction 1 as [|l ls Hl Hls IH]; simpl; [constructor|].
  destruct (is_boundary l); [by constructor|].
  destruct (startswith (tag_colon T) l) eqn:Hm; constructor; try done.
  pose proof (no_newline_retag_if T value l Hv Hl) as H. unfold retag_if in H. by rewrite Hm in H.
Qed.

(** ** Properties of [Spec] *)

(** C12: [gettag] after [settag] on a tag that the preamble defines returns
    the new value, with its leading whitespace removed by [lstrip]. *)
Theorem gettag_settag (tag value : string) (s : Spec) :
  gettag tag s <> None ->
  gettag tag (settag tag value s) = Some (lstrip value).
Proof.
  unfold gettag, settag; simpl. apply gettag_loop_settag_loop.
Qed.

(** C13: [settag] rewrites every line of the preamble that starts with the
    capitalized tag and a colon (all of them, not only the first), and
    leaves the [%package ]/[%description] line and everything after it
    unchanged. *)
Theorem settag_preamble (tag value : string) (pre post : list string) :
  Forall (fun l => is_boundary l = false) pre ->
  starts_block post = true ->
  settag tag value (mkSpec (pre ++ post))
  = mkSpec (map (retag_if (capitalize tag) value) pre ++ post).
Proof.
  unfold settag; simpl. intros Hpre Hpost. f_equal.
  destruct post as [|b post]; simpl in Hpost.
  - rewrite !app_nil_r. by apply settag_loop_preamble.
  - rewrite settag_loop_boundary by done. by rewrite settag_loop_preamble.
Qed.

(** [gettag] never looks at or past the first [%package ] or
    [%description] line, even if the tag occurs there. *)
Theorem gettag_stops_at_boundary (tag b : string) (pre post : list string) :
  is_boundary b = true ->
  gettag tag (mkSpec (pre ++ b :: post)) = gettag tag (mkSpec pre).
Proof. intros Hb. apply gettag_loop_boundary, Hb. Qed.

(** C33: [settag] of a tag that [gettag] does not find changes nothing: the
    field is not added. *)
Theorem settag_absent (tag value : string) (s : Spec) :
  gettag tag s = None -> settag tag value s = s.
Proof.
  destruct s as [ls]. unfold gettag, settag; simpl. intros H.
  by rewrite settag_loop_absent.
Qed.

(** C25: the rewritten line keeps the whitespace that followed the colon:
    [Tag:<ws>old] becomes [Tag:<ws>value]. *)
Theorem retag_keeps_whitespace (tag value ws old : string) :
  all_space ws = true -> starts_nonspace old = true ->
  retag tag value (tag +:+ ":" +:+ ws +:+ old) = tag +:+ ":" +:+ ws +:+ value.
Proof.
  intros Hws Hold. unfold retag. rewrite tag_rest_colon.
  by rewrite leading_ws_app_space, leading_ws_nonspace, append_nil_r.
Qed.

(** Setting the same value twice is setting it once, when the value
    does not start with whitespace. *)
Theorem settag_idempotent (tag value : string) (s : Spec) :
  starts_nonspace value = true ->
  settag tag value (settag tag value s) = settag tag value s.
Proof.
  destruct s as [ls]. unfold settag; simpl. intros Hv. f_equal.
  generalize (capitalize tag) as T. intros T.
  induction ls as [|l ls IH]; simpl; [done|].
  destruct (is_boundary l) eqn:Hb; [simpl; by rewrite Hb|].
  destruct (startswith (tag_colon T) l) eqn:Hm; simpl.
  - by rewrite retag_boundary, Hb, retag_matches, retag_idem, IH.
  - by rewrite ?Hb, ?Hm, IH.
Qed.

(** [_read] of a file whose lines all end with a newline gives back
    its lines. *)
Theorem spec_read_unlines (L : list string) :
  Forall no_newline L -> spec_read (unlines L) = L.
Proof.
  intros HL. rewrite <-(append_nil_r (unlines L)), spec_read_app by done.
  apply app_nil_r.
Qed.

(** C39: writing back an unchanged spec ([str(Spec(fn))]) reproduces the
    file except its final newline, which [__str__] does not write. *)
Theorem spec_str_of_file (L : list string) :
  L <> [] -> Forall no_newline L ->
  spec_str (spec_of_file (unlines L)) +:+ String newline EmptyString = unlines L.
Proof.
  intros Hne HL. unfold spec_str, spec_of_file; simpl.
  replace (spec_read (unlines L)) with L; [by apply join_lines_unlines|].
  by rewrite <-(append_nil_r (unlines L)), spec_read_app, app_nil_r.
Qed.

(** C40: when the file does not end with a newline, [l[:-1]] cuts the
    last character of its last line. *)
Theorem spec_read_last_line (L : list string) (l : string) :
  Forall no_newline L -> l <> EmptyString -> has_newline l = false ->
  spec_read (unlines L +:+ l) = L ++ [chop_last l].
Proof.
  intros HL Hne Hl. by rewrite spec_read_app, spec_read_line.
Qed.

(** C32: reading back a spec written by [__str__] loses the last
    character of its last line, because [__str__] writes no final newline
    and [_read] cuts the last character of every line. *)
Theorem spec_write_read_truncates (L : list string) (l : string) :
  Forall no_newline L -> l <> EmptyString -> has_newline l = false ->
  spec_read (spec_str (mkSpec (L ++ [l]))) = L ++ [chop_last l].
Proof.
  intros HL Hne Hl. unfold spec_str; simpl. rewrite join_lines_snoc.
  by rewrite spec_read_app, spec_read_line.
Qed.

(** C14: the loop of [gettag] computes the reference: the value
    of the first line of the preamble that starts with the capitalized
    tag and a colon, with its leading whitespace stripped, and [None]
    when the preamble has no such line. *)
Theorem gettag_equiv (tag : string) (s : Spec) : gettag tag s = gettag_ref tag s.
Proof.
  unfold gettag, gettag_ref. generalize (capitalize tag) as T. intros T.
  induction (lines s) as [|l ls IH]; [done|].
  rewrite preamble_cons. simpl. destruct (is_boundary l); [done|].
  cbn [list_find]. rewrite IH. case_decide as Hm; [by rewrite Hm|].
  apply not_true_is_false in Hm. rewrite Hm.
  by destruct (list_find _ (preamble ls)) as [[i x]|].
Qed.

(** the loop of [settag] computes the reference: every line
    of the preamble that starts with the capitalized tag and a colon is
    retagged, and the lines from the first [%package ]/[%description]
    line on are kept as they are. *)
Theorem settag_equiv (tag value : string) (s : Spec) :
  settag tag value s = settag_ref tag value s.
Proof.
  unfold settag, settag_ref. f_equal. generalize (capitalize tag) as T. intros T.
  induction (lines s) as [|l ls IH]; [done|].
  rewrite preamble_cons. simpl. destruct (is_boundary l); [done|].
  simpl. rewrite IH. unfold retag_if. by destruct (startswith (tag_colon T) l).
Qed.

(** The round trip of an update through the file, for [settag_reread]
    and the convergence of the sync. *)
Lemma gettag_reread_settag (tag value b : string) (pre post : list string) :
  Forall (fun l => is_boundary l = false) pre -> is_boundary b = true ->
  Forall no_newline pre -> no_newline value -> starts_nonspace value = true ->
  gettag tag (mkSpec pre) <> None ->
  gettag tag (spec_of_file (spec_str (settag tag value (mkSpec (pre ++ b :: post)))))
  = Some value.
Proof.
  intros Hpre Hb Hnl Hv Hs Hfound. unfold settag, spec_of_file; simpl.
  rewrite settag_loop_boundary by done.
  rewrite spec_reread_prefix by
    (try done; rewrite settag_loop_preamble by done; apply Forall_map;
     by eapply Forall_impl; [|intros x; apply no_newline_retag_if]).
  unfold gettag; simpl. apply gettag_loop_app.
  rewrite gettag_loop_settag_loop by done. by rewrite lstrip_nonspace.
Qed.

(** C15: an update survives the round trip through the file:
    after [settag], [__str__] and [_read], [gettag] returns the new value,
    for a value without newline or leading whitespace, provided the
    preamble is followed by a [%package ] or [%description] line (so that
    the last line, which [_read] truncates, is not in the preamble). *)
Theorem settag_reread (tag value b : string) (pre post : list string) :
  Forall (fun l => is_boundary l = false) pre -> is_boundary b = true ->
  Forall no_newline pre -> no_newline value -> starts_nonspace value = true ->
  gettag tag (mkSpec pre) <> None ->
  gettag tag (spec_of_file (spec_str (settag tag value (mkSpec (pre ++ b :: post)))))
  = Some value.
Proof. apply gettag_reread_settag. Qed.

(** C16: [Spec] is well-formed by construction: the empty [Spec] and
    every [Spec] read from a file (whatever its bytes) hold no newline
    inside a line, and [settag] with a value without newline keeps the
    [Spec] well-formed. *)
Theorem spec_wf_preserved (contents tag value : string) (s : Spec) :
  spec_wf spec_empty /\ spec_wf (spec_of_file contents) /\
  (no_newline value -> spec_wf s -> spec_wf (settag tag value s)).
Proof.
  split; [constructor|]. split; [apply spec_read_wf|].
  intros Hv Hs. by apply settag_loop_wf.
Qed.

(** ** Witnesses on a concrete spec file *)

Definition ex_lines : list string :=
  ["Name:           nodejs-foo"; "Version:        1.0.0"; "Release:        0";
   "%description"; "Version: 9"].

Definition ex_spec : Spec := spec_of_file (unlines ex_lines).

Lemma gettag_settag_witness :
  gettag "version" ex_spec <> None /\
  gettag "version" (settag "version" "1.1.0" ex_spec) = Some "1.1.0".
Proof.
  split; [vm_compute; discriminate|].
  apply (gettag_settag "version" "1.1.0" ex_spec). vm_compute. discriminate.
Defined.

Lemma settag_preamble_witness :
  Forall (fun l => is_boundary l = false) ["Version: 1.0"; "Name: x"; "Version:   2.0"] /\
  starts_block ["%package -n sub"; "Version: 1.0"] = true /\
  settag "version" "3.0"
    (mkSpec (["Version: 1.0"; "Name: x"; "Version:   2.0"] ++ ["%package -n sub"; "Version: 1.0"]))
  = mkSpec ["Version: 3.0"; "Name: x"; "Version:   3.0"; "%package -n sub"; "Version: 1.0"].
Proof.
  split; [repeat constructor|]. split; [reflexivity|].
  rewrite settag_preamble; [reflexivity | repeat constructor | reflexivity].
Defined.

Lemma gettag_stops_at_boundary_witness :
  is_boundary "%description" = true /\
  gettag "version" (mkSpec (["Name: x"] ++ "%description" :: ["Version: 2"])) = None.
Proof.
  split; [reflexivity|].
  rewrite (gettag_stops_at_boundary "version" "%description" ["Name: x"] ["Version: 2"]);
    reflexivity.
Defined.

Lemma settag_absent_witness :
  gettag "license" ex_spec = None /\ settag "license" "MIT" ex_spec = ex_spec.
Proof.
  split; [vm_compute; reflexivity|].
  apply settag_absent. vm_compute. reflexivity.
Defined.

Lemma retag_keeps_whitespace_witness :
  all_space "    " = true /\ starts_nonspace "1.0.0" = true /\
  retag "Version" "1.1.0" ("Version" +:+ ":" +:+ "    " +:+ "1.0.0") = "Version:    1.1.0".
Proof.
  split; [reflexivity|]. split; [reflexivity|].
  apply retag_keeps_whitespace; reflexivity.
Defined.

Lemma settag_idempotent_witness :
  starts_nonspace "1.1.0" = true /\
  settag "version" "1.1.0" (settag "version" "1.1.0" ex_spec)
  = settag "version" "1.1.0" ex_spec.
Proof. split; [reflexivity|]. apply settag_idempotent. reflexivity. Defined.

Lemma spec_read_unlines_witness :
  Forall no_newline ex_lines /\ spec_read (unlines ex_lines) = ex_lines.
Proof.
  split; [repeat constructor|]. apply spec_read_unlines. repeat constructor.
Defined.

Lemma spec_str_of_file_witness :
  ex_lines <> [] /\ Forall no_newline ex_lines /\
  spec_str (spec_of_file (unlines ex_lines)) +:+ String newline EmptyString
  = unlines ex_lines.
Proof.
  split; [discriminate|]. split; [repeat constructor|].
  apply spec_str_of_file; [discriminate | repeat constructor].
Defined.

Lemma spec_read_last_line_witness :
  Forall no_newline ["Name: x"] /\ "Version: 1.0" <> EmptyString /\
  has_newline "Version: 1.0" = false /\
  spec_read (unlines ["Name: x"] +:+ "Version: 1.0") = ["Name: x"; "Version: 1."].
Proof.
  split; [repeat constructor|]. split; [discriminate|]. split; [reflexivity|].
  apply (spec_read_last_line ["Name: x"] "Version: 1.0");
    [repeat constructor | discriminate | reflexivity].
Defined.

Lemma spec_write_read_truncates_witness :
  Forall no_newline ["Name: x"; "Version: 1.1.0"] /\ "%changelog" <> EmptyString /\
  has_newline "%changelog" = false /\
  spec_read (spec_str (mkSpec (["Name: x"; "Version: 1.1.0"] ++ ["%changelog"])))
  = ["Name: x"; "Version: 1.1.0"; "%changelo"].
Proof.
  split; [repeat constructor|]. split; [discriminate|]. split; [reflexivity|].
  apply (spec_write_read_truncates ["Name: x"; "Version: 1.1.0"] "%changelog");
    [repeat constructor | discriminate | reflexivity].
Defined.

(** The preamble of [ex_lines], the [%description] line, and what follows. *)
Definition ex_pre : list string := ["Name:           nodejs-foo"; "Version:        1.0.0"].

Lemma settag_reread_witness :
  Forall (fun l => is_boundary l = false) ex_pre /\ is_boundary "%description" = true /\
  Forall no_newline ex_pre /\ no_newline "1.1.0" /\ starts_nonspace "1.1.0" = true /\
  gettag "version" (mkSpec ex_pre) <> None /\
  gettag "version" (spec_of_file (spec_str (settag "version" "1.1.0"
    (mkSpec (ex_pre ++ "%description" :: ["Foo."]))))) = Some "1.1.0".
Proof.
  split; [repeat constructor|]. split; [reflexivity|].
  split; [repeat constructor|]. split; [reflexivity|]. split; [reflexivity|].
  split; [vm_compute; discriminate|].
  apply settag_reread; [repeat constructor | reflexivity | repeat constructor
    | reflexivity | reflexivity | vm_compute; discriminate].
Defined.

Lemma spec_wf_preserved_witness :
  no_newline "1.1.0" /\ spec_wf ex_spec /\
  spec_wf spec_empty /\ spec_wf (spec_of_file (unlines ex_lines)) /\
  spec_wf (settag "version" "1.1.0" ex_spec).
Proof.
  destruct (spec_wf_preserved (unlines ex_lines) "version" "1.1.0" ex_spec) as (H1 & H2 & H3).
  split; [reflexivity|]. split; [exact H2|]. split; [exact H1|]. split; [exact H2|].
  apply H3; [reflexivity | exact H2].
Defined.

End SpecFile.
