(* ===== verification/Json.v ===== *)
(** * Json: the parsed registry document and the Python [dict] operations

    [r.json()] and [json.load] give the script nested Python dicts, lists,
    strings and numbers.  A document is a [json] value; a Python [dict] is
    an association list in insertion order (the invariant [wf_json] says
    its keys are distinct, as in a dict).  [dict_get] is [d[k]] (with
    [KeyError], and [TypeError] on a value that is not a dict),
    [dict_has] is [k in d], [dict_set] is [d[k] = v] (replace in place or
    append), [dict_items] is [d.items()] and [as_str] is the use of a
    value as a [str]; [py_str] is Python 2's [str()] of a parsed value,
    what ['%s' % v] and ['{}'.format(v)] print (numbers are integers:
    the registry fields the script formats hold no floats). *)

From stdpp Require Import base list strings pretty.
From Stdlib Require Import ZArith Ascii.
From S2P Require Import Prelude.

Module Json.

#[warnings="-register-all"]
Inductive json :=
| JNull
| JBool (b : bool)
| JNum (n : Z)
| JStr (s : string)
| JArr (l : list json)
| JObj (kvs : list (string * json)).

(** Lookup in an association list: the first binding of [k]. *)
Fixpoint assoc (k : string) (kvs : list (string * json)) : option json :=
  match kvs with
  | [] => None
  | (k', v) :: rest => if String.eqb k k' then Some v else assoc k rest
  end.

(** [d[k] = v] on the bindings: replace the value in place, or append. *)
Fixpoint assoc_set (k : string) (v : json) (kvs : list (string * json))
  : list (string * json) :=
  match kvs with
  | [] => [(k, v)]
  | (k', v') :: rest =>
      if String.eqb k k' then (k', v) :: rest else (k', v') :: assoc_set k v rest
  end.

(** [d[k]] *)
Definition dict_get (k : string) (d : json) : result json :=
  match d with
  | JObj kvs =>
      match assoc k kvs with
      | Some v => Ok v
      | None => Err (KeyError k)
      end
  | _ => Err (TypeError "not a dict")
  end.

(** [k in d] *)
Definition dict_has (k : string) (d : json) : result bool :=
  match d with
  | JObj kvs => Ok (bool_decide (is_Some (assoc k kvs)))
  | _ => Err (TypeError "not a dict")
  end.

(** [d[k] = v] *)
Definition dict_set (k : string) (v : json) (d : json) : result json :=
  match d with
  | JObj kvs => Ok (JObj (assoc_set k v kvs))
  | _ => Err (TypeError "not a dict")
  end.

(** [d.items()] *)
Definition dict_items (d : json) : result (list (string * json)) :=
  match d with
  | JObj kvs => Ok kvs
  | _ => Err (TypeError "not a dict")
  end.

(** A value used with [str] methods or as a dict key ([v[0]],
    [latest] in [data['versions'][latest]]): the registry schema makes
    these strings. *)
Definition as_str (v : json) : result string :=
  match v with
  | JStr s => Ok s
  | _ => Err (TypeError "not a str")
  end.

(** ** [str()] and [repr()] of a parsed value *)

(** A lower-case hexadecimal digit. *)
Definition hex_digit (n : nat) : ascii := ascii_of_nat (if n <? 10 then 48 + n else 87 + n).

(** One character inside [repr(u'...')] quoted with [q]: the quote and
    the backslash escaped, tab, newline and carriage return as
    backslash-t, -n and -r, and backslash-x and two hex digits for the
    other characters below [' '] or from [0x7f] on. *)
Definition repr_char (q c : ascii) : string :=
  let n := nat_of_ascii c in
  if Ascii.eqb c q || Ascii.eqb c "\"%char then String "\"%char (String c EmptyString)
  else if Ascii.eqb c "009"%char then "\t"
  else if Ascii.eqb c "010"%char then "\n"
  else if Ascii.eqb c "013"%char then "\r"
  else if (n <? 32) || (127 <=? n)
  then String "\"%char (String "x"%char
         (String (hex_digit (n / 16)) (String (hex_digit (n mod 16)) EmptyString)))
  else String c EmptyString.

Fixpoint repr_chars (q : ascii) (s : string) : string :=
  match s with
  | EmptyString => EmptyString
  | String c r => repr_char q c +:+ repr_chars q r
  end.

Fixpoint str_has (c : ascii) (s : string) : bool :=
  match s with
  | EmptyString => false
  | String d r => Ascii.eqb c d || str_has c r
  end.

(** [repr] of a [unicode] string (what [json] gives for strings): single
    quotes, or double quotes when the text has a single quote and no
    double quote. *)
Definition repr_unicode (s : string) : string :=
  let q := if str_has "'"%char s && negb (str_has "034"%char s) then "034"%char else "'"%char in
  String "u"%char (String q (repr_chars q s +:+ String q EmptyString)).

(** [repr] of an integer: a [long] (beyond the 64-bit [int]) has the
    suffix [L]. *)
Definition repr_int (n : Z) : string :=
  if (- 2 ^ 63 <=? n)%Z && (n <? 2 ^ 63)%Z then pretty n else pretty n +:+ "L".

(** [repr(v)]: [str] of a list or a dict shows the [repr] of the
    elements, in the order of the document. *)
Fixpoint py_repr (v : json) : string :=
  match v with
  | JNull => "None"
  | JBool b => if b then "True" else "False"
  | JNum n => repr_int n
  | JStr s => repr_unicode s
  | JArr l => "[" +:+ String.concat ", " (map py_repr l) +:+ "]"
  | JObj kvs =>
      "{" +:+ String.concat ", " (map (fun kv => repr_unicode kv.1 +:+ ": " +:+ py_repr kv.2) kvs)
      +:+ "}"
  end.

(** [str(v)]: a string is its text, a number its decimal digits, any
    other value its [repr]. *)
Definition py_str (v : json) : string :=
  match v with
  | JStr s => s
  | JNum n => pretty n
  | _ => py_repr v
  end.

(** The keys of a dict are distinct. *)
Definition keys_nodup (kvs : list (string * json)) : Prop := NoDup (map fst kvs).

(** ** Lemmas *)

Lemma assoc_set_eq (k : string) (v : json) (kvs : list (string * json)) :
  assoc k (assoc_set k v kvs) = Some v.
Proof.
  induction kvs as [|[k' v'] kvs IH]; simpl.
  - by rewrite String.eqb_refl.
  - destruct (String.eqb k k') eqn:E; simpl; rewrite E; done.
Qed.

Lemma assoc_set_ne (k k2 : string) (v : json) (kvs : list (string * json)) :
  k <> k2 -> assoc k2 (assoc_set k v kvs) = assoc k2 kvs.
Proof.
  intros Hne. induction kvs as [|[k' v'] kvs IH]; simpl.
  - destruct (String.eqb_spec k2 k); congruence.
  - destruct (String.eqb_spec k k') as [->|]; simpl.
    + destruct (String.eqb_spec k2 k'); congruence.
    + by rewrite IH.
Qed.

Lemma assoc_set_keys (k : string) (v : json) (kvs : list (string * json)) :
  map fst (assoc_set k v kvs)
  = if bool_decide (k ∈ map fst kvs) then map fst kvs else map fst kvs ++ [k].
Proof.
  induction kvs as [|[k' v'] kvs IH]; simpl; [done|].
  destruct (String.eqb_spec k k') as [->|Hne]; simpl.
  - rewrite bool_decide_true; [done | by left].
  - rewrite IH. case_bool_decide as Hin.
    + rewrite bool_decide_true; [done | by right].
    + rewrite bool_decide_false; [done|]. by intros [?|?]%elem_of_cons.
Qed.

Lemma dict_get_has (k : string) (d v : json) :
  dict_get k d = Ok v -> dict_has k d = Ok true.
Proof.
  destruct d as [| | | | |kvs]; simpl; try discriminate.
  destruct (assoc k kvs); [|discriminate]. intros _. by rewrite bool_decide_true.
Qed.

Lemma dict_get_is_dict (k k' : string) (d v : json) :
  dict_get k d = Ok v -> exists b, dict_has k' d = Ok b.
Proof. destruct d; simpl; try discriminate. eauto. Qed.

Lemma dict_set_get_eq (k : string) (v d d' : json) :
  dict_set k v d = Ok d' -> dict_get k d' = Ok v.
Proof.
  destruct d as [| | | | |kvs]; simpl; try discriminate.
  intros [= <-]. simpl. by rewrite assoc_set_eq.
Qed.

(** ** Properties of the dict operations *)

(** [d[k] = v] followed by [d[k]] gives [v] back; the other keys are
    unchanged. *)
Theorem dict_get_set (k k2 : string) (v d d' : json) :
  dict_set k v d = Ok d' ->
  dict_get k2 d' = if String.eqb k2 k then Ok v else dict_get k2 d.
Proof.
  destruct d as [| | | | |kvs]; simpl; try discriminate.
  intros [= <-]. simpl. destruct (String.eqb_spec k2 k) as [->|Hne].
  - by rewrite assoc_set_eq.
  - by rewrite assoc_set_ne by congruence.
Qed.

(** [d[k] = v] keeps the keys of a dict distinct: an existing key keeps
    its place, a new key is appended. *)
Theorem dict_set_keys_nodup (k : string) (v : json) (kvs : list (string * json)) :
  keys_nodup kvs -> keys_nodup (assoc_set k v kvs).
Proof.
  unfold keys_nodup. rewrite assoc_set_keys. case_bool_decide as Hin; [done|].
  intros Hnd. apply NoDup_app. split; [done|]. split; [|by apply NoDup_singleton].
  by intros x ? ->%list_elem_of_singleton.
Qed.

Lemma dict_get_set_witness :
  dict_set "_etag" (JStr "W/1") (JObj [("name", JStr "foo")])
    = Ok (JObj [("name", JStr "foo"); ("_etag", JStr "W/1")]) /\
  dict_get "_etag" (JObj [("name", JStr "foo"); ("_etag", JStr "W/1")]) = Ok (JStr "W/1").
Proof.
  split; [reflexivity|].
  rewrite (dict_get_set "_etag" "_etag" (JStr "W/1") (JObj [("name", JStr "foo")])); reflexivity.
Defined.

Lemma dict_set_keys_nodup_witness :
  keys_nodup [("name", JStr "foo"); ("version", JStr "1.0.0")] /\
  keys_nodup (assoc_set "version" (JStr "1.1.0") [("name", JStr "foo"); ("version", JStr "1.0.0")]).
Proof.
  assert (H : keys_nodup [("name", JStr "foo"); ("version", JStr "1.0.0")])
    by (apply (bool_decide_unpack _); vm_compute; reflexivity).
  split; [exact H | apply dict_set_keys_nodup, H].
Defined.

End Json.
