(* ===== verification/Range.v ===== *)
(** * Range: the dependency-range translation of [get_templatedata]

    Lines 259-274 of src/npmspec.py turn each entry [(k, v)] of the
    registry's [dependencies] into an RPM requirement: strip one leading
    ['='], then one leading ['v'], then require ['^'] or ['~'], strip it
    and emit ["k >= rest"]; anything else raises [Exception], and [v[0]]
    on an empty string raises [IndexError].  [translate_range] is that
    loop body on a string, [require_item] adds the use of the JSON value
    as a string, and [requires_loop] is the [for] loop, which stops at the
    first exception.  [range_form] is the abstract description of the
    supported forms ([[=][v](^|~)bound]); the refinement theorem says the
    translation succeeds exactly on them, with ["k >= bound"]. *)

From stdpp Require Import base list strings.
From Stdlib Require Import Ascii.
From S2P Require Import Prelude Json.
Import Json.

Module Range.

(** [if v[0] == c: v = v[1:]] *)
Definition strip_first (c : ascii) (v : string) : result string :=
  match v with
  | EmptyString => Err IndexError
  | String d rest => Ok (if Ascii.eqb d c then rest else v)
  end.

(** The body of the loop for one dependency, on the range string. *)
Definition translate_range (k v : string) : result string :=
  v1 <- strip_first "=" v ;;
  v2 <- strip_first "v" v1 ;;
  match v2 with
  | EmptyString => Err IndexError
  | String c rest =>
      if Ascii.eqb c "^" || Ascii.eqb c "~"
      then Ok (k +:+ " >= " +:+ rest)
      else Err (Exception ("unsupported version specification " +:+ String c EmptyString))
  end.

(** The body of the loop for one [(k, v)] of [data['dependencies'].items()]. *)
Definition require_item (kv : string * json) : result string :=
  s <- as_str kv.2 ;; translate_range kv.1 s.

(** [for (k, v) in data['dependencies'].items(): ... requires.append(...)] *)
Fixpoint requires_loop (deps : list (string * json)) : result (list string) :=
  match deps with
  | [] => Ok []
  | kv :: rest =>
      r <- require_item kv ;;
      rs <- requires_loop rest ;;
      Ok (r :: rs)
  end.

(** ** The supported range forms *)

Inductive op_form : string -> string -> Prop :=
| op_caret b : op_form (String "^" b) b
| op_tilde b : op_form (String "~" b) b.

Inductive v_form : string -> string -> Prop :=
| v_bare r b : op_form r b -> v_form r b
| v_prefixed r b : op_form r b -> v_form (String "v" r) b.

(** [range_form v b]: [v] is [[=][v](^|~)b]. *)
Inductive range_form : string -> string -> Prop :=
| range_bare r b : v_form r b -> range_form r b
| range_pinned r b : v_form r b -> range_form (String "=" r) b.

#[export] Hint Constructors op_form v_form range_form : npm.

(** Case analysis on the characters [translate_range] tests: the first
    characters of the string and the [Ascii.eqb] tests on them. *)
Ltac range_cases H :=
  unfold rbind, strip_first in H;
  repeat (simpl in H;
    match type of H with
    | context [Ascii.eqb ?a ?b] => destruct (Ascii.eqb_spec a b) as [->|?]
    | context [match ?s with EmptyString => _ | String _ _ => _ end] =>
        is_var s; destruct s
    end).

(** [r] is [Ok] *)
Definition is_ok {A} (r : result A) : bool :=
  match r with Ok _ => true | Err _ => false end.

Lemma translate_range_sound (k v out : string) :
  translate_range k v = Ok out ->
  exists b, range_form v b /\ out = k +:+ " >= " +:+ b.
Proof.
  unfold translate_range. intros H. range_cases H; simplify_eq/=;
    eauto 6 with npm.
Qed.

Lemma translate_range_complete (k v b : string) :
  range_form v b -> translate_range k v = Ok (k +:+ " >= " +:+ b).
Proof.
  intros Hf. inversion Hf as [r b' Hv|r b' Hv]; subst;
    inversion Hv as [r' b'' Ho|r' b'' Ho]; subst; inversion Ho; subst; reflexivity.
Qed.

Lemma requires_loop_cons (kv : string * json) (rest : list (string * json)) :
  requires_loop (kv :: rest) =
  (r <- require_item kv ;; rs <- requires_loop rest ;; Ok (r :: rs)).
Proof. reflexivity. Qed.

(** ** Properties of the translation *)

(** C17: the translation refines the supported forms: it succeeds exactly
    on [[=][v](^|~)bound], and then emits ["k >= bound"], a lower bound
    only (no upper bound is ever emitted). *)
Theorem translate_range_refines (k v out : string) :
  translate_range k v = Ok out <-> exists b, range_form v b /\ out = k +:+ " >= " +:+ b.
Proof.
  split; [apply translate_range_sound|].
  intros (b & Hf & ->). by apply translate_range_complete.
Qed.

(** C28: a range in no supported form makes the translation raise, and
    the exception is [IndexError] (a string exhausted by the stripping) or
    the [Exception] naming the offending first character. *)
Theorem translate_range_unsupported (k v : string) :
  (forall b, ~ range_form v b) ->
  translate_range k v = Err IndexError \/
  exists c, translate_range k v
            = Err (Exception ("unsupported version specification " +:+ String c EmptyString)).
Proof.
  intros Hno. destruct (translate_range k v) as [out|e] eqn:H.
  - apply translate_range_sound in H as (b & Hb & _). by destruct (Hno b).
  - clear Hno. unfold translate_range in H. range_cases H; simplify_eq/=; eauto.
Qed.

(** The loop over the dependencies succeeds exactly when every entry is
    a string in a supported form, and then yields one ["k >= bound"] per
    entry, in order. *)
Lemma requires_loop_ok_iff (deps : list (string * json)) (rs : list string) :
  requires_loop deps = Ok rs <->
  Forall2 (fun kv r => exists s b, kv.2 = JStr s /\ range_form s b /\ r = kv.1 +:+ " >= " +:+ b)
    deps rs.
Proof.
  revert rs. induction deps as [|[k v] deps IH]; intros rs; simpl.
  - split; [intros [= <-]; constructor | by inversion 1].
  - unfold require_item; simpl. split.
    + destruct v as [| | |s| |]; simpl; try discriminate.
      destruct (translate_range k s) as [r|] eqn:Hr; simpl; [|discriminate].
      destruct (requires_loop deps) as [rs'|] eqn:Hrs; simpl; [|discriminate].
      intros [= <-]. apply translate_range_sound in Hr as (b & Hb & ->).
      constructor; [eauto | by apply IH].
    + inversion 1 as [|kv r deps' rs' (s & b & Hs & Hb & ->) Hrest]; subst; simpl in *.
      rewrite Hs. simpl. rewrite (translate_range_complete _ _ b Hb). simpl.
      by rewrite (proj2 (IH rs') Hrest).
Qed.

(** C18: the loop is all or nothing: it raises the exception of the first
    entry that fails, after entries that all succeed, and returns no
    partial list. *)
Theorem requires_loop_error (deps : list (string * json)) (e : exn) :
  requires_loop deps = Err e <->
  exists pre kv post, deps = pre ++ kv :: post /\
    Forall (fun kv => is_ok (require_item kv) = true) pre /\ require_item kv = Err e.
Proof.
  induction deps as [|kv deps IH]; simpl.
  - split; [discriminate|]. intros (pre & ? & ? & Hd & _). by destruct pre.
  - destruct (require_item kv) as [r|e'] eqn:Hkv; simpl.
    + destruct (requires_loop deps) as [rs|e''] eqn:Hrs; simpl.
      * split; [discriminate|]. intros ([|kv' pre] & kv'' & post & Hd & Hpre & He);
          simplify_eq/=; [congruence|].
        inversion Hpre; subst.
        assert (Ok rs = Err e) by (apply IH; by exists pre, kv'', post). discriminate.
      * rewrite IH. split.
        -- intros (pre & kv' & post & -> & Hpre & He).
           exists (kv :: pre), kv', post. split; [done|]. split; [|done].
           constructor; [by rewrite Hkv | done].
        -- intros ([|kv' pre] & kv'' & post & Hd & Hpre & He); simplify_eq/=; [congruence|].
           inversion Hpre; subst. by exists pre, kv'', post.
    + split.
      * intros [= ->]. by exists [], kv, deps.
      * intros ([|kv' pre] & kv'' & post & Hd & Hpre & He); simplify_eq/=; [congruence|].
        inversion Hpre as [|? ? Hok]; subst. by rewrite Hkv in Hok.
Qed.

(** ** Witnesses *)

Lemma translate_range_refines_witness :
  translate_range "bar" "=v^1.0.0" = Ok "bar >= 1.0.0" /\
  translate_range "bar" "^v1.0.0" = Ok "bar >= v1.0.0".
Proof.
  split; apply translate_range_refines; eexists; (split; [eauto 6 with npm | reflexivity]).
Defined.

(** An exact pin [=1.0.0] is not translated: the code raises. *)
Lemma translate_range_unsupported_witness :
  (forall b, ~ range_form "=1.0.0" b) /\
  (translate_range "bar" "=1.0.0" = Err IndexError \/
   exists c, translate_range "bar" "=1.0.0"
             = Err (Exception ("unsupported version specification " +:+ String c EmptyString))).
Proof.
  assert (Hno : forall b, ~ range_form "=1.0.0" b).
  { intros b Hb. pose proof (translate_range_complete "bar" _ _ Hb) as H.
    vm_compute in H. discriminate. }
  split; [exact Hno | apply translate_range_unsupported, Hno].
Defined.

Lemma requires_loop_error_witness :
  requires_loop [("bar", JStr "^1.0.0"); ("qux", JStr ">=1.0.0 <2.0.0")]
    = Err (Exception "unsupported version specification >") /\
  exists pre kv post,
    [("bar", JStr "^1.0.0"); ("qux", JStr ">=1.0.0 <2.0.0")] = pre ++ kv :: post /\
    Forall (fun kv => is_ok (require_item kv) = true) pre /\
    require_item kv = Err (Exception "unsupported version specification >").
Proof.
  split; [reflexivity|]. apply requires_loop_error. reflexivity.
Defined.

End Range.
