(* ===== verification/Template.v ===== *)
(** * Template: the template data of a new spec file

    [get_templatedata] (lines 248-277) builds the jinja2 context from the
    registry entry of the latest version: name, version, tarball URL,
    description, license (["FIXME"] when absent), homepage, the first line
    of the description as summary, and the translated requirements
    (Range.v).  [genspec] and [genservice] (lines 279-289) render the
    templates [spec.template] and [service.template]; the templates and
    jinja2 are outside src/, so rendering is the [Renderer] interface. *)

From stdpp Require Import base list strings.
From Stdlib Require Import Ascii.
From S2P Require Import Prelude Json Range.
Import Json Range.

Module Template.

(** The [context] dict of [get_templatedata]. *)
Record context := mkContext {
  ctx_name : json;
  ctx_version : json;
  ctx_source : json;
  ctx_description : json;
  ctx_license : json;
  ctx_url : json;
  ctx_summary : string;
  ctx_requires : list string
}.

(** [if 'dependencies' in data: for ... ] with its result [requires]. *)
Definition get_requires (data : json) : result (list string) :=
  has_deps <- dict_has "dependencies" data ;;
  if has_deps then
    deps <- dict_get "dependencies" data ;;
    items <- dict_items deps ;;
    requires_loop items
  else Ok [].

(** [get_templatedata(data)]: the dict display is evaluated key by key,
    then the requirements. *)
Definition get_templatedata (data : json) : result context :=
  name <- dict_get "name" data ;;
  version <- dict_get "version" data ;;
  dist <- dict_get "dist" data ;;
  source <- dict_get "tarball" dist ;;
  description <- dict_get "description" data ;;
  has_license <- dict_has "license" data ;;
  license <- (if has_license then dict_get "license" data else Ok (JStr "FIXME")) ;;
  url <- dict_get "homepage" data ;;
  descr <- as_str description ;;
  requires <- get_requires data ;;
  Ok (mkContext name version source description license url (first_line descr) requires).

(** The template engine: [self.templates.get_template(name).render(ctx)]. *)
Class Renderer := {
  render : string -> context -> string
}.

Section Render.
Context `{Renderer}.

(** [genspec(context)] *)
Definition genspec (ctx : context) : string := render "spec.template" ctx.

(** [genservice(context)] *)
Definition genservice (ctx : context) : string := render "service.template" ctx.

End Render.

(** ** Lemmas *)

Lemma get_requires_deps (data : json) (deps : list (string * json)) :
  dict_get "dependencies" data = Ok (JObj deps) -> get_requires data = requires_loop deps.
Proof.
  intros Hd. unfold get_requires. rewrite (dict_get_has _ _ _ Hd). simpl.
  by rewrite Hd.
Qed.

Lemma get_templatedata_requires_step (data : json) (ctx : context) :
  get_templatedata data = Ok ctx -> get_requires data = Ok (ctx_requires ctx).
Proof. unfold get_templatedata. intros H. inv_ok H. by injection H as <-. Qed.

(** ** Properties of [get_templatedata] *)

(** C30: when [get_templatedata] succeeds on an entry with dependencies,
    its [requires] is the translation of every dependency, in order. *)
Theorem get_templatedata_requires (data : json) (ctx : context)
    (deps : list (string * json)) :
  get_templatedata data = Ok ctx ->
  dict_get "dependencies" data = Ok (JObj deps) ->
  Forall2 (fun kv r => exists s b, kv.2 = JStr s /\ range_form s b /\ r = kv.1 +:+ " >= " +:+ b)
    deps (ctx_requires ctx).
Proof.
  intros H Hd. apply get_templatedata_requires_step in H.
  rewrite (get_requires_deps _ _ Hd) in H. by apply requires_loop_ok_iff.
Qed.

(** C29: one dependency range that cannot be translated aborts
    [get_templatedata]: no context is built, so no spec is rendered. *)
Theorem get_templatedata_unsupported (data : json) (deps : list (string * json)) (e : exn) :
  dict_get "dependencies" data = Ok (JObj deps) ->
  requires_loop deps = Err e ->
  forall ctx, get_templatedata data <> Ok ctx.
Proof.
  intros Hd He ctx H. apply get_templatedata_requires_step in H.
  rewrite (get_requires_deps _ _ Hd), He in H. discriminate.
Qed.

(** ** Witnesses *)

(** The registry entry of the scenario "Create": [foo] 1.2.0 depending on
    [bar ^1.0.0]. *)
Definition ex_entry : json :=
  JObj [("name", JStr "foo"); ("version", JStr "1.2.0");
        ("description", JStr ("Foo does things" +:+ String newline "more"));
        ("homepage", JStr "https://example.org/foo");
        ("dependencies", JObj [("bar", JStr "^1.0.0")]);
        ("dist", JObj [("tarball", JStr "https://registry.npmjs.org/foo/-/foo-1.2.0.tgz")])].

Definition ex_entry_bad : json :=
  JObj [("name", JStr "foo"); ("version", JStr "1.2.0");
        ("description", JStr "Foo"); ("homepage", JStr "https://example.org/foo");
        ("dependencies", JObj [("bar", JStr ">=1.0.0 <2.0.0")]);
        ("dist", JObj [("tarball", JStr "https://registry.npmjs.org/foo/-/foo-1.2.0.tgz")])].

Lemma get_templatedata_requires_witness :
  exists ctx, get_templatedata ex_entry = Ok ctx /\
    ctx_license ctx = JStr "FIXME" /\ ctx_summary ctx = "Foo does things" /\
    dict_get "dependencies" ex_entry = Ok (JObj [("bar", JStr "^1.0.0")]) /\
    ctx_requires ctx = ["bar >= 1.0.0"] /\
    Forall2 (fun kv r => exists s b, kv.2 = JStr s /\ range_form s b /\ r = kv.1 +:+ " >= " +:+ b)
      [("bar", JStr "^1.0.0")] (ctx_requires ctx).
Proof.
  eexists. split; [reflexivity|]. do 4 (split; [reflexivity|]).
  apply (get_templatedata_requires ex_entry); reflexivity.
Defined.

Lemma get_templatedata_unsupported_witness :
  dict_get "dependencies" ex_entry_bad = Ok (JObj [("bar", JStr ">=1.0.0 <2.0.0")]) /\
  requires_loop [("bar", JStr ">=1.0.0 <2.0.0")]
    = Err (Exception "unsupported version specification >") /\
  forall ctx, get_templatedata ex_entry_bad <> Ok ctx.
Proof.
  split; [reflexivity|]. split; [reflexivity|].
  apply (get_templatedata_unsupported _ [("bar", JStr ">=1.0.0 <2.0.0")] (Exception "unsupported version specification >"));
    reflexivity.
Defined.

End Template.
