(* ===== verification/Clock.v ===== *)
(** * Clock: the timestamp of a changes entry

    [write_changes_file] writes
    [datetime.datetime.utcnow().strftime('%a %b %d %H:%M:%S UTC %Y')].
    The current time is part of the world (World.v); this file computes
    its text as Python's [datetime] does: the weekday from the proleptic
    Gregorian ordinal ([_ymd2ord], [weekday() = (toordinal() + 6) % 7]),
    English day and month abbreviations, two-digit day, hour, minute and
    second, and the decimal year. *)

From stdpp Require Import base list strings.
From Stdlib Require Import Ascii.
From S2P Require Import Prelude.

Module Clock.

(** A [datetime] in UTC; the fields are in range ([valid_datetime]). *)
Record datetime := mkDatetime {
  year : nat; month : nat; day : nat;
  hour : nat; minute : nat; second : nat
}.

Definition is_leap (y : nat) : bool :=
  (y mod 4 =? 0) && (negb (y mod 100 =? 0) || (y mod 400 =? 0)).

(** [_DAYS_IN_MONTH] *)
Definition days_in_month (y m : nat) : nat :=
  match m with
  | 1 => 31 | 2 => if is_leap y then 29 else 28 | 3 => 31 | 4 => 30
  | 5 => 31 | 6 => 30 | 7 => 31 | 8 => 31 | 9 => 30 | 10 => 31
  | 11 => 30 | 12 => 31 | _ => 0
  end.

Definition valid_datetime (t : datetime) : Prop :=
  1 <= year t /\ 1 <= month t <= 12 /\ 1 <= day t <= days_in_month (year t) (month t) /\
  hour t < 24 /\ minute t < 60 /\ second t < 60.

(** [_days_before_year(year)] *)
Definition days_before_year (y : nat) : nat :=
  let y' := y - 1 in y' * 365 + y' / 4 - y' / 100 + y' / 400.

(** [_days_before_month(year, month)] *)
Definition days_before_month (y m : nat) : nat :=
  foldr (fun k acc => days_in_month y k + acc) 0 (seq 1 (m - 1)).

(** [_ymd2ord(year, month, day)] *)
Definition toordinal (t : datetime) : nat :=
  days_before_year (year t) + days_before_month (year t) (month t) + day t.

(** [weekday()]: Monday is 0. *)
Definition weekday (t : datetime) : nat := (toordinal t + 6) mod 7.

Definition day_abbr (w : nat) : string :=
  match w with
  | 0 => "Mon" | 1 => "Tue" | 2 => "Wed" | 3 => "Thu" | 4 => "Fri" | 5 => "Sat"
  | _ => "Sun"
  end.

Definition month_abbr (m : nat) : string :=
  match m with
  | 1 => "Jan" | 2 => "Feb" | 3 => "Mar" | 4 => "Apr" | 5 => "May" | 6 => "Jun"
  | 7 => "Jul" | 8 => "Aug" | 9 => "Sep" | 10 => "Oct" | 11 => "Nov" | _ => "Dec"
  end.

Definition digit (n : nat) : ascii := ascii_of_nat (48 + n).

(** Decimal digits, most significant first; [fuel] bounds the number of
    digits ([n < 10 ^ fuel]). *)
Fixpoint decimal_aux (fuel n : nat) (acc : string) : string :=
  match fuel with
  | 0 => acc
  | S f => if n <? 10 then String (digit n) acc
           else decimal_aux f (n / 10) (String (digit (n mod 10)) acc)
  end.

(** [str(n)] *)
Definition decimal (n : nat) : string := decimal_aux (S n) n EmptyString.

(** [%02d] *)
Definition pad2 (n : nat) : string :=
  String (digit (n / 10 mod 10)) (String (digit (n mod 10)) EmptyString).

(** [strftime('%a %b %d %H:%M:%S UTC %Y')] *)
Definition strftime_changes (t : datetime) : string :=
  day_abbr (weekday t) +:+ " " +:+ month_abbr (month t) +:+ " " +:+ pad2 (day t) +:+ " " +:+
  pad2 (hour t) +:+ ":" +:+ pad2 (minute t) +:+ ":" +:+ pad2 (second t) +:+
  " UTC " +:+ decimal (year t).

(** ** Width of the timestamp *)

Lemma decimal_aux_ge (f n : nat) (acc : string) :
  10 <= n -> decimal_aux (S f) n acc = decimal_aux f (n / 10) (String (digit (n mod 10)) acc).
Proof. intros H. cbn [decimal_aux]. by replace (n <? 10) with false by (symmetry; apply Nat.ltb_ge; lia). Qed.

Lemma decimal_aux_lt (f n : nat) (acc : string) :
  n < 10 -> decimal_aux (S f) n acc = String (digit n) acc.
Proof. intros H. cbn [decimal_aux]. by replace (n <? 10) with true by (symmetry; apply Nat.ltb_lt; lia). Qed.

Lemma div10_ge (n : nat) : 1 <= n / 10 -> 10 <= n.
Proof. intros H. pose proof (Nat.div_mod_eq n 10). pose proof (Nat.mod_upper_bound n 10). lia. Qed.

(** A year of four digits ([1 <= n / 1000 < 10]) prints as four
    characters. *)
Lemma decimal_four (n : nat) : 1 <= n / 1000 < 10 -> String.length (decimal n) = 4.
Proof.
  intros Hn. replace (n / 1000) with (n / 10 / 10 / 10) in Hn
    by (rewrite !Nat.Div0.div_div; reflexivity).
  assert (H2 : 10 <= n / 10 / 10) by (apply div10_ge; lia).
  assert (H1 : 10 <= n / 10) by (apply div10_ge; lia).
  assert (H0 : 10 <= n) by (apply div10_ge; lia).
  unfold decimal. replace (S n) with (S (S (S (S (n - 3))))) by lia.
  rewrite decimal_aux_ge, decimal_aux_ge, decimal_aux_ge, decimal_aux_lt by lia. done.
Qed.

Lemma length_day_abbr (w : nat) : String.length (day_abbr w) = 3.
Proof. do 6 (destruct w as [|w]; [done|]). done. Qed.

Lemma length_month_abbr (m : nat) : String.length (month_abbr m) = 3.
Proof. do 12 (destruct m as [|m]; [done|]). done. Qed.

(** the timestamp of a changes entry has the fixed width of
    ['%a %b %d %H:%M:%S UTC %Y'], 28 characters, for every year of four
    digits, 1000 to 9999: the day, hour, minute and second are
    zero-padded to two digits whatever their value. *)
Theorem strftime_changes_length (t : datetime) :
  1 <= year t / 1000 < 10 -> String.length (strftime_changes t) = 28.
Proof.
  intros Hy. unfold strftime_changes.
  rewrite !string_length_append, length_day_abbr, length_month_abbr, decimal_four by done.
  done.
Qed.

Lemma strftime_changes_length_witness :
  1 <= year (mkDatetime 2026 11 9 12 0 0) / 1000 < 10 /\
  strftime_changes (mkDatetime 2026 11 9 12 0 0) = "Mon Nov 09 12:00:00 UTC 2026" /\
  String.length (strftime_changes (mkDatetime 2026 11 9 12 0 0)) = 28.
Proof.
  split; [vm_compute; lia|]. split; [vm_compute; reflexivity|].
  apply strftime_changes_length. vm_compute; lia.
Defined.

End Clock.
