(* ===== verification/World.v ===== *)
(** * World: files, cache, network and the IO monad

    The script's effects are file-system operations ([os.path.exists],
    [open(..., 'r')], [open(..., 'w')] and [fh.write], [os.rename],
    [os.mkdir], [os.makedirs]) and HTTP GET requests through [requests].
    A [world] holds the files (a text file or a saved JSON document per
    path), the directories, the home directory, the clock, and the trace
    of every operation performed, oldest first.  [IO A] is explicit state
    passing with Python exceptions: an exception keeps the world as it is
    at the point of the raise, so the writes done before it stay done, as
    on disk.  The network is the [Transport] interface: its instance
    answers a request; the requests are recorded in the trace in order.
    Opening a file for writing is modelled as succeeding (the code creates
    the directories first); [os.path] names are strings joined as
    [os.path.join] does, and resolved as the operating system resolves a
    relative path ([normpath] removes a leading ['./']): the primitives
    look up and change the file of the resolved path.  [keeps P m] states that [m] keeps a property
    [P] of the files whatever it returns or raises; its proof rules and
    the tactic [keeps_steps] let each component state its footprint. *)

From stdpp Require Import base list strings gmap.
From Stdlib Require Import Ascii.
From S2P Require Import Prelude Json Clock.
Import Json Clock.

Module World.

(** The contents of a path: a text file, or a document written by
    [json.dumps] and read back by [json.load]. *)
Inductive blob :=
| BText (s : string)
| BJson (j : json).

(** The file-system operations, as the code performs them. *)
Inductive fs_op :=
| OpOpenW (path : string)               (** [open(path, 'w')]: create or truncate *)
| OpWrite (path : string) (s : string)  (** [fh.write(s)] *)
| OpRename (src dst : string)           (** [os.rename(src, dst)] *)
| OpMkdir (path : string)               (** [os.mkdir], [os.makedirs], [createPackageDir] *)
| OpSaveJson (path : string) (j : json). (** [fh.write(json.dumps(j))] *)

(** An HTTP GET: the URL and the request headers. *)
Record request := mkRequest {
  req_url : string;
  req_headers : list (string * string)
}.

(** A parsed XML element ([xml.etree.ElementTree]): tag, text and
    children. *)
#[warnings="-register-all"]
Inductive xml :=
| XElem (tag : string) (text : option string) (children : list xml).

(** A response: status code, [ETag] header, the body as JSON when it is
    JSON ([r.json()]), as XML when it is XML ([ET.parse(r.raw)]), and the
    raw body ([r.iter_content]). *)
Record response := mkResponse {
  status : nat;
  resp_etag : option string;
  resp_json : option json;
  resp_xml : option xml;
  resp_content : string
}.

Inductive event :=
| EvFs (op : fs_op)
| EvGet (r : request).

Record world := mkWorld {
  w_files : gmap string blob;
  w_dirs : gset string;
  w_home : string;
  w_now : datetime;
  w_trace : list event
}.

(** The network: [requests.get]; [Err] is a [requests] exception. *)
Class Transport := {
  http_get : request -> result response
}.

(** [r.raise_for_status()]: 4xx and 5xx raise [HTTPError]. *)
Definition raise_for_status (r : response) : result unit :=
  if (400 <=? status r) && (status r <? 600) then Err (HTTPError (status r)) else Ok tt.

(** ** Paths *)

(** [os.path.join(a, b)] *)
Definition path_join (a b : string) : string :=
  if startswith "/" b then b
  else match a with
       | EmptyString => b
       | _ => if String.eqb (String.substring (String.length a - 1) 1 a) "/"
              then a +:+ b else a +:+ "/" +:+ b
       end.

(** The text after the last ['/']. *)
Fixpoint after_last_slash (s : string) (cur : string) : string :=
  match s with
  | EmptyString => cur
  | String c s' =>
      if Ascii.eqb c "/" then after_last_slash s' EmptyString
      else after_last_slash s' (cur +:+ String c EmptyString)
  end.

(** [os.path.basename(p)] *)
Definition basename (p : string) : string := after_last_slash p EmptyString.

Fixpoint has_slash (s : string) : bool :=
  match s with
  | EmptyString => false
  | String c s' => Ascii.eqb c "/" || has_slash s'
  end.

(** [p[:p.rfind('/') + 1]] *)
Fixpoint dir_head (s : string) : string :=
  match s with
  | EmptyString => EmptyString
  | String c s' =>
      if has_slash s' then String c (dir_head s')
      else if Ascii.eqb c "/" then String c EmptyString else EmptyString
  end.

(** [s.rstrip('/')] *)
Fixpoint rstrip_slash (s : string) : string :=
  match s with
  | EmptyString => EmptyString
  | String c s' =>
      match rstrip_slash s' with
      | EmptyString => if Ascii.eqb c "/" then EmptyString else String c EmptyString
      | r => String c r
      end
  end.

(** [os.path.dirname(p)]: the head, without its trailing slashes unless
    it is only slashes. *)
Definition dirname (p : string) : string :=
  let head := dir_head p in
  match rstrip_slash head with
  | EmptyString => head
  | h => h
  end.

(** [os.path.expanduser('~' + rest)] with [$HOME] = [home]. *)
Definition expanduser (home rest : string) : string :=
  match rstrip_slash home +:+ rest with
  | EmptyString => "/"
  | p => p
  end.

(** ** Effects of one operation *)

Definition apply_op (op : fs_op) (files : gmap string blob) (dirs : gset string)
  : gmap string blob * gset string :=
  match op with
  | OpOpenW p => (<[p := BText EmptyString]> files, dirs)
  | OpWrite p s =>
      match files !! p with
      | Some (BText t) => (<[p := BText (t +:+ s)]> files, dirs)
      | _ => (<[p := BText s]> files, dirs)
      end
  | OpRename src dst =>
      match files !! src with
      | Some b => (<[dst := b]> (delete src files), dirs)
      | None => (files, dirs)
      end
  | OpMkdir p => (files, {[p]} ∪ dirs)
  | OpSaveJson p j => (<[p := BJson j]> files, dirs)
  end.

Definition run_op (op : fs_op) (w : world) : world :=
  mkWorld (apply_op op (w_files w) (w_dirs w)).1 (apply_op op (w_files w) (w_dirs w)).2
    (w_home w) (w_now w) (w_trace w ++ [EvFs op]).

(** The world after the operations [ops], in order. *)
Definition run_ops (ops : list fs_op) (w : world) : world :=
  foldl (fun w op => run_op op w) w ops.

(** The paths an operation writes. *)
Definition op_touches (op : fs_op) (p : string) : Prop :=
  match op with
  | OpOpenW q | OpWrite q _ | OpSaveJson q _ => q = p
  | OpRename src dst => src = p \/ dst = p
  | OpMkdir _ => False
  end.

(** ** Paths as the operating system resolves them

    [open], [os.path.exists] and [os.rename] resolve a relative path
    against the current directory, so ['./x'] and ['x'] name the same
    file.  The file map is keyed by the path with its leading ['./']
    removed; the code builds no other aliases (no ['..'], no ['//']). *)
Fixpoint normpath (p : string) : string :=
  match p with
  | String c (String d r) =>
      if Ascii.eqb c "." && Ascii.eqb d "/" then normpath r else p
  | _ => p
  end.

(** A file operation on the files its paths name. *)
Definition norm_op (op : fs_op) : fs_op :=
  match op with
  | OpOpenW p => OpOpenW (normpath p)
  | OpWrite p s => OpWrite (normpath p) s
  | OpRename src dst => OpRename (normpath src) (normpath dst)
  | OpMkdir p => OpMkdir (normpath p)
  | OpSaveJson p j => OpSaveJson (normpath p) j
  end.

Lemma ends_with_cons (a : ascii) (s : string) (c : ascii) :
  ends_with (String a s) c -> s = EmptyString /\ a = c \/ ends_with s c.
Proof.
  intros [[|x q] Hq]; simpl in Hq; injection Hq as -> ->; [by left|].
  right. by exists q.
Qed.

(** Removing ['./'] keeps the last character of a path that does not end
    in ['/']: paths that end differently name different files. *)
Lemma normpath_ends_with (p : string) (c : ascii) :
  ends_with p c -> c <> "/"%char -> ends_with (normpath p) c.
Proof.
  intros Hp Hc. enough (H : forall q, (ends_with q c -> ends_with (normpath q) c) /\
    (forall a, ends_with (String a q) c -> ends_with (normpath (String a q)) c))
    by (destruct p; [apply H | apply (proj2 (H p))]; done).
  induction q as [|d r [IH1 IH2]]; [done|]. split; [apply IH2|].
  intros a Ha. simpl. destruct (Ascii.eqb a "." && Ascii.eqb d "/") eqn:E; [|done].
  apply andb_true_iff in E as [_ E]. apply Ascii.eqb_eq in E. subst d.
  destruct (ends_with_cons _ _ _ Ha) as [[? ?]|Hr]; [done|].
  destruct (ends_with_cons _ _ _ Hr) as [[_ Heq]|Hr']; [congruence | by apply IH1].
Qed.

Lemma normpath_ne (p q : string) (c d : ascii) :
  ends_with p c -> ends_with q d -> c <> d -> c <> "/"%char -> d <> "/"%char ->
  normpath p <> normpath q.
Proof. intros Hp Hq Hcd Hc Hd. by apply (ends_with_ne _ _ c d); [apply normpath_ends_with..|]. Qed.

(** A suffix that neither starts with ['/'] nor has a ['./'] to remove
    is kept as it is: [normpath (p + s) = normpath p + s]. *)
Lemma normpath_app (p s : string) :
  (forall r, s <> String "/" r) -> normpath s = s -> normpath (p +:+ s) = normpath p +:+ s.
Proof.
  intros Hs Hn. enough (H : forall q, normpath (q +:+ s) = normpath q +:+ s /\
    (forall a, normpath (String a q +:+ s) = normpath (String a q) +:+ s))
    by (destruct p; [apply H | apply (proj2 (H p))]; done).
  induction q as [|d r [IH1 IH2]]; [split; [done|] | split; [apply IH2|]].
  - intros a. simpl. destruct s as [|d r]; [done|].
    destruct (Ascii.eqb a "." && Ascii.eqb d "/") eqn:E; [|done].
    apply andb_true_iff in E as [_ E]. apply Ascii.eqb_eq in E. subst d. by destruct (Hs r).
  - intros a. simpl. by destruct (Ascii.eqb a "." && Ascii.eqb d "/").
Qed.

(** ** The IO monad *)

Definition IO (A : Type) : Type := world -> result A * world.

Definition io_ret {A} (a : A) : IO A := fun w => (Ok a, w).
Definition io_raise {A} (e : exn) : IO A := fun w => (Err e, w).
Definition io_lift {A} (r : result A) : IO A := fun w => (r, w).

Definition io_bind {A B} (c : IO A) (k : A -> IO B) : IO B :=
  fun w => match c w with
           | (Ok a, w') => k a w'
           | (Err e, w') => (Err e, w')
           end.

Declare Scope io_scope.
Delimit Scope io_scope with io.
Notation "'do' x <- c ; k" := (io_bind c (fun x => k))
  (at level 10, x name, c at level 100, k at level 200) : io_scope.
Notation "c ;; k" := (io_bind c (fun _ => k))
  (at level 100, right associativity) : io_scope.
Open Scope io_scope.

(** [os.path.exists(p)] *)
Definition path_exists (p : string) : IO bool :=
  fun w => (Ok (bool_decide (is_Some (w_files w !! normpath p) \/ normpath p ∈ w_dirs w)), w).

(** [open(p, 'r').read()] (and [readlines], whose lines join back to it) *)
Definition read_text (p : string) : IO string :=
  fun w => match w_files w !! normpath p with
           | Some (BText s) => (Ok s, w)
           | Some (BJson _) => (Err (ValueError "binary"), w)
           | None => (Err (IOError p), w)
           end.

(** [json.load(open(p, 'r'))] *)
Definition read_json (p : string) : IO json :=
  fun w => match w_files w !! normpath p with
           | Some (BJson j) => (Ok j, w)
           | Some (BText _) => (Err (ValueError "No JSON object could be decoded"), w)
           | None => (Err (IOError p), w)
           end.

Definition fs (op : fs_op) : IO unit := fun w => (Ok tt, run_op (norm_op op) w).

(** [with open(p, 'w') as fh: fh.write(s1); fh.write(s2); ...] *)
Definition write_file (p : string) (chunks : list string) : IO unit :=
  fs (OpOpenW p) ;; foldr (fun s k => fs (OpWrite p s) ;; k) (io_ret tt) chunks.

(** [os.rename(src, dst)]: [OSError] when [src] does not exist. *)
Definition rename (src dst : string) : IO unit :=
  fun w => match w_files w !! normpath src with
           | Some _ => (Ok tt, run_op (norm_op (OpRename src dst)) w)
           | None => (Err (OSError src), w)
           end.

(** The world after a request is sent: only the trace grows. *)
Definition log_get (r : request) (w : world) : world :=
  mkWorld (w_files w) (w_dirs w) (w_home w) (w_now w) (w_trace w ++ [EvGet r]).

Definition get_home : IO string := fun w => (Ok (w_home w), w).
Definition utcnow : IO datetime := fun w => (Ok (w_now w), w).

Section Net.
Context `{Transport}.

(** [requests.get(url, headers=headers)] *)
Definition http (r : request) : IO response :=
  fun w => (http_get r, log_get r w).
End Net.

(** ** Lemmas *)

Lemma run_ops_app (ops1 ops2 : list fs_op) (w : world) :
  run_ops (ops1 ++ ops2) w = run_ops ops2 (run_ops ops1 w).
Proof. unfold run_ops. by rewrite foldl_app. Qed.

Lemma run_ops_single (op : fs_op) (w : world) : run_ops [op] w = run_op op w.
Proof. done. Qed.

Lemma run_op_fields (op : fs_op) (w : world) :
  w_home (run_op op w) = w_home w /\ w_now (run_op op w) = w_now w /\
  w_trace (run_op op w) = w_trace w ++ [EvFs op].
Proof. done. Qed.

Lemma run_ops_trace (ops : list fs_op) (w : world) :
  w_trace (run_ops ops w) = w_trace w ++ map EvFs ops.
Proof.
  revert w. induction ops as [|op ops IH]; intros w; simpl; [by rewrite app_nil_r|].
  unfold run_ops in *; simpl. rewrite IH, (proj2 (proj2 (run_op_fields op w))).
  by rewrite <-app_assoc.
Qed.

Lemma run_ops_now (ops : list fs_op) (w : world) :
  w_now (run_ops ops w) = w_now w.
Proof.
  revert w. induction ops as [|op ops IH]; intros w; [done|].
  unfold run_ops in *; simpl. rewrite IH. apply run_op_fields.
Qed.

Lemma run_op_untouched (op : fs_op) (p : string) (w : world) :
  ~ op_touches op p -> w_files (run_op op w) !! p = w_files w !! p.
Proof.
  unfold run_op. intros Hp. destruct op as [q|q s|src dst|q|q j]; simpl in *.
  - by rewrite lookup_insert_ne.
  - destruct (w_files w !! q) as [[]|]; simpl; by rewrite lookup_insert_ne.
  - destruct (w_files w !! src); simpl; [|done].
    rewrite lookup_insert_ne by naive_solver. rewrite lookup_delete_ne by naive_solver. done.
  - done.
  - by rewrite lookup_insert_ne.
Qed.

Lemma run_ops_untouched (ops : list fs_op) (p : string) (w : world) :
  Forall (fun op => ~ op_touches op p) ops ->
  w_files (run_ops ops w) !! p = w_files w !! p.
Proof.
  intros Hops. revert w. induction Hops as [|op ops Hop _ IH]; intros w; [done|].
  unfold run_ops in *; simpl. by rewrite IH, run_op_untouched.
Qed.

Lemma run_ops_dirs_untouched (ops : list fs_op) (w : world) :
  Forall (fun op => match op with OpMkdir _ => False | _ => True end) ops ->
  w_dirs (run_ops ops w) = w_dirs w.
Proof.
  intros Hops. revert w. induction Hops as [|op ops Hop _ IH]; intros w; [done|].
  unfold run_ops in *; simpl. rewrite IH. unfold run_op.
  destruct op as [q|q s|src dst|q|q j]; simpl; try done.
  - by destruct (w_files w !! q) as [[]|].
  - by destruct (w_files w !! src).
Qed.

(** The IO steps as rewriting rules. *)
Lemma io_bind_fs {B} (op : fs_op) (k : unit -> IO B) (w : world) :
  io_bind (fs op) k w = k tt (run_op (norm_op op) w).
Proof. done. Qed.

Lemma io_bind_ret {A B} (a : A) (k : A -> IO B) (w : world) :
  io_bind (io_ret a) k w = k a w.
Proof. done. Qed.

Lemma io_bind_lift_ok {A B} (a : A) (k : A -> IO B) (w : world) :
  io_bind (io_lift (Ok a)) k w = k a w.
Proof. done. Qed.

Lemma io_bind_lift_err {A B} (e : exn) (k : A -> IO B) (w : world) :
  io_bind (io_lift (Err e)) k w = (Err e, w).
Proof. done. Qed.

Lemma io_bind_utcnow {B} (k : datetime -> IO B) (w : world) :
  io_bind utcnow k w = k (w_now w) w.
Proof. done. Qed.

Lemma io_bind_get_home {B} (k : string -> IO B) (w : world) :
  io_bind get_home k w = k (w_home w) w.
Proof. done. Qed.

Lemma io_bind_run {A B} (c : IO A) (k : A -> IO B) (w w' : world) (a : A) :
  c w = (Ok a, w') -> io_bind c k w = k a w'.
Proof. unfold io_bind. by intros ->. Qed.

Lemma io_bind_run_err {A B} (c : IO A) (k : A -> IO B) (w w' : world) (e : exn) :
  c w = (Err e, w') -> io_bind c k w = (Err e, w').
Proof. unfold io_bind. by intros ->. Qed.

Lemma io_bind_assoc {A B C} (c : IO A) (k1 : A -> IO B) (k2 : B -> IO C) (w : world) :
  io_bind (io_bind c k1) k2 w = io_bind c (fun a => io_bind (k1 a) k2) w.
Proof. unfold io_bind. by destruct (c w) as [[a|e] w']. Qed.

Lemma io_bind_exists {B} (p : string) (k : bool -> IO B) (w : world) :
  io_bind (path_exists p) k w
  = k (bool_decide (is_Some (w_files w !! normpath p) \/ normpath p ∈ w_dirs w)) w.
Proof. done. Qed.

Lemma io_bind_read_text {B} (p s : string) (k : string -> IO B) (w : world) :
  w_files w !! normpath p = Some (BText s) -> io_bind (read_text p) k w = k s w.
Proof. unfold io_bind, read_text. by intros ->. Qed.

Lemma io_bind_read_json {B} (p : string) (j : json) (k : json -> IO B) (w : world) :
  w_files w !! normpath p = Some (BJson j) -> io_bind (read_json p) k w = k j w.
Proof. unfold io_bind, read_json. by intros ->. Qed.

Lemma io_bind_read_json_fail {B} (p : string) (k : json -> IO B) (w : world) :
  (forall j, w_files w !! normpath p <> Some (BJson j)) ->
  exists e, io_bind (read_json p) k w = (Err e, w).
Proof.
  unfold io_bind, read_json. intros Hp.
  destruct (w_files w !! normpath p) as [[s|j]|]; [eauto | by destruct (Hp j) | eauto].
Qed.

Lemma rename_ok (src dst : string) (w : world) :
  is_Some (w_files w !! normpath src) ->
  rename src dst w = (Ok tt, run_op (OpRename (normpath src) (normpath dst)) w).
Proof. unfold rename. by intros [b ->]. Qed.

Lemma run_op_write_some (p s : string) (w : world) :
  is_Some (w_files (run_op (OpWrite p s) w) !! p).
Proof.
  unfold run_op; simpl. destruct (w_files w !! p) as [[]|]; simpl; by rewrite lookup_insert_eq.
Qed.

Lemma run_op_now (op : fs_op) (w : world) : w_now (run_op op w) = w_now w.
Proof. done. Qed.

Lemma run_op_home (op : fs_op) (w : world) : w_home (run_op op w) = w_home w.
Proof. done. Qed.

Lemma rbind_Ok_l {A B} (a : A) (k : A -> result B) : rbind (Ok a) k = k a.
Proof. done. Qed.

Lemma rbind_Err_l {A B} (e : exn) (k : A -> result B) : rbind (Err e) k = Err e.
Proof. done. Qed.

(** The contents written by a sequence of [fh.write] calls. *)
Fixpoint cat (l : list string) : string :=
  match l with
  | [] => EmptyString
  | s :: l' => s +:+ cat l'
  end.

Lemma run_ops_writes (p acc : string) (chunks : list string) (w : world) :
  w_files w !! p = Some (BText acc) ->
  w_files (run_ops (map (OpWrite p) chunks) w) = <[p := BText (acc +:+ cat chunks)]> (w_files w).
Proof.
  revert acc w. induction chunks as [|c chunks IH]; intros acc w Hp; simpl.
  - rewrite append_nil_r. by rewrite insert_id.
  - unfold run_ops in *; simpl. rewrite (IH (acc +:+ c)).
    + unfold run_op; simpl. rewrite Hp. simpl. by rewrite insert_insert_eq, append_assoc.
    + unfold run_op; simpl. rewrite Hp. simpl. apply lookup_insert_eq.
Qed.

Lemma run_ops_open_writes (p : string) (chunks : list string) (w : world) :
  w_files (run_ops (OpOpenW p :: map (OpWrite p) chunks) w)
  = <[p := BText (cat chunks)]> (w_files w).
Proof.
  unfold run_ops; simpl. fold (run_ops (map (OpWrite p) chunks) (run_op (OpOpenW p) w)).
  rewrite (run_ops_writes p EmptyString); simpl.
  - by rewrite insert_insert_eq.
  - apply lookup_insert_eq.
Qed.

Lemma write_file_run (p : string) (chunks : list string) (w : world) :
  write_file p chunks w
  = (Ok tt, run_ops (OpOpenW (normpath p) :: map (OpWrite (normpath p)) chunks) w).
Proof.
  unfold write_file. rewrite io_bind_fs. cbn [norm_op].
  change (run_ops (OpOpenW (normpath p) :: ?l) w) with (run_ops l (run_op (OpOpenW (normpath p)) w)).
  generalize (run_op (OpOpenW (normpath p)) w) as w'.
  induction chunks as [|c chunks IH]; intros w'; simpl; [done|].
  rewrite io_bind_fs. apply IH.
Qed.

Lemma io_bind_http_ok `{Transport} {B} (r : request) (resp : response)
    (k : response -> IO B) (w : world) :
  http_get r = Ok resp -> io_bind (http r) k w = k resp (log_get r w).
Proof. unfold io_bind, http. by intros ->. Qed.

Lemma io_bind_http_err `{Transport} {B} (r : request) (e : exn)
    (k : response -> IO B) (w : world) :
  http_get r = Err e -> io_bind (http r) k w = (Err e, log_get r w).
Proof. unfold io_bind, http. by intros ->. Qed.

Lemma log_get_fields (r : request) (w : world) :
  w_files (log_get r w) = w_files w /\ w_dirs (log_get r w) = w_dirs w /\
  w_home (log_get r w) = w_home w /\ w_now (log_get r w) = w_now w /\
  w_trace (log_get r w) = w_trace w ++ [EvGet r].
Proof. done. Qed.

Create Rewrite HintDb io.
#[export] Hint Rewrite @io_bind_fs @io_bind_ret @io_bind_lift_ok @io_bind_lift_err
  @io_bind_utcnow @io_bind_get_home @io_bind_assoc @io_bind_exists run_op_now run_op_home
  @rbind_Ok_l @rbind_Err_l : io.

(** Run the IO steps of a concrete program on a symbolic world. *)
Ltac io_steps := repeat (autorewrite with io; cbv beta; cbn [as_str py_str norm_op]).

(** Replace a computation whose run is known ([H : c w = (Ok a, w')]) by
    its result, and go on with the continuation. *)
Ltac io_run H := rewrite (io_bind_run _ _ _ _ _ H); cbv beta iota.

(** ** Invariants of the file system

    [keeps P m]: whatever [m] returns or raises, it takes a world whose
    files satisfy [P] to one whose files satisfy [P] (a postcondition on
    the state, in the manner of [has_post] for interaction trees).  A
    computation keeps [P] when every file operation it performs does
    ([op_keeps]); the lemmas below are the proof rules, one per
    primitive and one for the bind. *)
Definition keeps (P : gmap string blob -> Prop) {A} (m : IO A) : Prop :=
  forall w, P (w_files w) -> P (w_files (m w).2).

Definition op_keeps (P : gmap string blob -> Prop) (op : fs_op) : Prop :=
  forall files dirs, P files -> P (apply_op op files dirs).1.

(** The frame: the path [p] keeps its contents [b]. *)
Definition unchanged (p : string) (b : option blob) (files : gmap string blob) : Prop :=
  files !! p = b.

Section Keeps.
Context (P : gmap string blob -> Prop).

Lemma keeps_same {A} (m : IO A) : (forall w, w_files (m w).2 = w_files w) -> keeps P m.
Proof. intros Hm w. by rewrite Hm. Qed.

Lemma keeps_ret {A} (a : A) : keeps P (io_ret a).
Proof. by apply keeps_same. Qed.

Lemma keeps_raise {A} (e : exn) : keeps P (io_raise (A:=A) e).
Proof. by apply keeps_same. Qed.

Lemma keeps_lift {A} (r : result A) : keeps P (io_lift r).
Proof. by apply keeps_same. Qed.

Lemma keeps_exists (p : string) : keeps P (path_exists p).
Proof. by apply keeps_same. Qed.

Lemma keeps_read_text (p : string) : keeps P (read_text p).
Proof. apply keeps_same. intros w. unfold read_text. by destruct (w_files w !! normpath p) as [[]|]. Qed.

Lemma keeps_read_json (p : string) : keeps P (read_json p).
Proof. apply keeps_same. intros w. unfold read_json. by destruct (w_files w !! normpath p) as [[]|]. Qed.

Lemma keeps_get_home : keeps P get_home.
Proof. by apply keeps_same. Qed.

Lemma keeps_utcnow : keeps P utcnow.
Proof. by apply keeps_same. Qed.

Lemma keeps_http `{Transport} (r : request) : keeps P (http r).
Proof. by apply keeps_same. Qed.

Lemma keeps_bind {A B} (c : IO A) (k : A -> IO B) :
  keeps P c -> (forall a, keeps P (k a)) -> keeps P (io_bind c k).
Proof.
  intros Hc Hk w Hw. specialize (Hc w Hw). unfold io_bind.
  destruct (c w) as [[a|e] w']; simpl in *; [by apply Hk | done].
Qed.

(** The bind on a lifted result keeps what it returned. *)
Lemma keeps_bind_lift {A B} (r : result A) (k : A -> IO B) :
  (forall a, r = Ok a -> keeps P (k a)) -> keeps P (io_bind (io_lift r) k).
Proof. intros Hk w Hw. unfold io_bind, io_lift. destruct r as [a|e]; [by apply Hk | done]. Qed.

Lemma keeps_fs (op : fs_op) : op_keeps P (norm_op op) -> keeps P (fs op).
Proof. intros Hop w Hw. by apply Hop. Qed.

Lemma keeps_write_file (p : string) (chunks : list string) :
  op_keeps P (OpOpenW (normpath p)) -> (forall s, op_keeps P (OpWrite (normpath p) s)) ->
  keeps P (write_file p chunks).
Proof.
  intros Ho Hw. unfold write_file. apply keeps_bind; [by apply keeps_fs, Ho|]. intros _.
  induction chunks as [|c chunks IH]; simpl; [apply keeps_ret|].
  apply keeps_bind; [by apply keeps_fs, Hw | done].
Qed.

Lemma keeps_rename (src dst : string) :
  op_keeps P (OpRename (normpath src) (normpath dst)) -> keeps P (rename src dst).
Proof.
  intros Hop w Hw. unfold rename. destruct (w_files w !! normpath src); simpl; [by apply Hop | done].
Qed.

End Keeps.

Lemma op_keeps_unchanged (op : fs_op) (p : string) (b : option blob) :
  ~ op_touches op p -> op_keeps (unchanged p b) op.
Proof.
  intros Hp files dirs. pose proof (run_op_untouched op p (mkWorld files dirs EmptyString
    (mkDatetime 0 0 0 0 0 0) []) Hp) as H. unfold unchanged. simpl in H. by rewrite H.
Qed.

(** A file just written keeps its contents through a computation that
    leaves it unchanged. *)
Lemma write_file_then {B} (p : string) (chunks : list string) (k : IO B) (w : world) :
  keeps (unchanged (normpath p) (Some (BText (cat chunks)))) k ->
  w_files ((write_file p chunks ;; k) w).2 !! normpath p = Some (BText (cat chunks)).
Proof.
  intros Hk. unfold io_bind at 1. rewrite write_file_run. apply (Hk _).
  unfold unchanged. rewrite run_ops_open_writes. apply lookup_insert_eq.
Qed.

Lemma path_join_ends_with (a b : string) (c : ascii) :
  ends_with b c -> ends_with (path_join a b) c.
Proof.
  intros Hb. unfold path_join. destruct (startswith "/" b); [done|].
  destruct a; [done|]. destruct (String.eqb _ _); by repeat apply ends_with_app.
Qed.

Lemma expanduser_ends_with (home rest : string) (c : ascii) :
  ends_with rest c -> ends_with (expanduser home rest) c.
Proof.
  intros Hr. unfold expanduser. destruct (rstrip_slash home +:+ rest) eqn:E.
  - destruct Hr as [q ->]. by destruct (rstrip_slash home), q.
  - rewrite <-E. by apply ends_with_app.
Qed.

Create HintDb keeps discriminated.
#[export] Hint Resolve keeps_ret keeps_raise keeps_lift keeps_exists keeps_read_text
  keeps_read_json keeps_get_home keeps_utcnow keeps_http keeps_fs keeps_write_file
  keeps_rename : keeps.

(** Take a computation apart into the primitives it performs, with a
    case for each [if] and [match] on a value it computed; what is left
    are the [op_keeps] conditions of its file operations. *)
Ltac keeps_steps :=
  repeat first
    [ apply keeps_write_file | apply keeps_rename | apply keeps_fs
    | apply keeps_bind_lift; intros ? ?
    | apply keeps_bind; [|intros ?]
    | progress auto with keeps
    | match goal with
      | |- keeps _ (let _ := _ in _) => cbv zeta
      | |- keeps _ (if ?b then _ else _) => destruct b
      | |- keeps _ (match ?x with _ => _ end) => destruct x
      end ].

End World.
