(* ===== verification/Changes.v ===== *)
(** * Changes: [write_changes_file], the prepend-through-rename protocol

    [write_changes_file(dst, pkg, data)] (lines 168-184) reads the old
    [<dst>/<pkg>.changes] when it exists, writes to [<fn>.new] a new entry
    (a rule of 67 dashes, the UTC time and the author, a blank line, the
    line [- Update to version <v>:], a blank line) followed by the old
    contents, and renames [<fn>.new] over [<fn>].  The theorems give the
    exact files and trace after a run, show that the changes file holds
    the old or the new contents after every prefix of the writes (the
    rename is the only write to it), and that a missing version leaves it
    untouched. *)

From stdpp Require Import base list strings gmap.
From Stdlib Require Import Ascii.
From S2P Require Import Prelude Json Clock World.
Import Json Clock World.

Module Changes.

Definition author : string := "lnussel@suse.de".

Definition nl : string := String newline EmptyString.

(** [os.path.join(dst, "{}.changes".format(pkg))] *)
Definition changes_path (dst pkg : string) : string := path_join dst (pkg +:+ ".changes").

(** [fn+'.new'] *)
Definition tmp_path (fn : string) : string := fn +:+ ".new".

(** The text [write_changes_file] puts before the old contents. *)
Definition changes_entry (now : datetime) (version : string) : string :=
  str_repeat "-" 67 +:+ nl +:+
  strftime_changes now +:+ " - " +:+ author +:+ nl +:+
  nl +:+
  "- Update to version " +:+ version +:+ ":" +:+ nl +:+
  nl.

(** [write_changes_file(dst, pkg, data)] *)
Definition write_changes_file (dst pkg : string) (data : json) : IO unit :=
  let fn := changes_path dst pkg in
  do ex <- path_exists fn ;
  do lines <- (if ex then do s <- read_text fn ; io_ret (readlines s) else io_ret []) ;
  fs (OpOpenW (tmp_path fn)) ;;
  fs (OpWrite (tmp_path fn) (str_repeat "-" 67 +:+ nl)) ;;
  do now <- utcnow ;
  fs (OpWrite (tmp_path fn) (strftime_changes now +:+ " - " +:+ author +:+ nl)) ;;
  fs (OpWrite (tmp_path fn) nl) ;;
  do version <- io_lift (dict_get "version" data) ;
  fs (OpWrite (tmp_path fn) ("- Update to version " +:+ py_str version +:+ ":" +:+ nl)) ;;
  fs (OpWrite (tmp_path fn) nl) ;;
  fs (OpWrite (tmp_path fn) (str_concat lines)) ;;
  rename (tmp_path fn) fn.

(** The file-system operations of a successful run, in order: the old
    contents [old] are written back after the entry. *)
Definition changes_ops (fn old : string) (now : datetime) (version : string) : list fs_op :=
  [OpOpenW (tmp_path fn);
   OpWrite (tmp_path fn) (str_repeat "-" 67 +:+ nl);
   OpWrite (tmp_path fn) (strftime_changes now +:+ " - " +:+ author +:+ nl);
   OpWrite (tmp_path fn) nl;
   OpWrite (tmp_path fn) ("- Update to version " +:+ version +:+ ":" +:+ nl);
   OpWrite (tmp_path fn) nl;
   OpWrite (tmp_path fn) old;
   OpRename (tmp_path fn) fn].

(** The changes file before the run: a text file with contents [old], or
    nothing at all (then [old] is empty); [fn] is the path as the file
    system resolves it. *)
Definition changes_before (w : world) (fn old : string) : Prop :=
  w_files w !! fn = Some (BText old) \/
  (w_files w !! fn = None /\ (fn ∉ w_dirs w) /\ old = EmptyString).

(** The writes to [<fn>.new] of a successful run. *)
Definition changes_chunks (old : string) (now : datetime) (version : string) : list string :=
  [str_repeat "-" 67 +:+ nl; strftime_changes now +:+ " - " +:+ author +:+ nl; nl;
   "- Update to version " +:+ version +:+ ":" +:+ nl; nl; old].

(** ** Lemmas *)

Lemma tmp_path_ne (fn : string) : tmp_path fn <> fn.
Proof.
  unfold tmp_path. intros H. apply (f_equal String.length) in H.
  rewrite string_length_append in H. simpl in H. lia.
Qed.

(** The file [<fn>.new] resolves to is [<fn'>.new] for the file [fn']
    that [fn] resolves to. *)
Lemma normpath_tmp_path (fn : string) : normpath (tmp_path fn) = tmp_path (normpath fn).
Proof. apply normpath_app; done. Qed.

(** ** Properties of [write_changes_file] *)

(** The footprint of [write_changes_file]: it keeps every invariant that
    opening, writing and renaming [<fn>.new] onto [fn] keep, [fn] the
    changes file as the file system resolves it. *)
Lemma write_changes_file_keeps (P : gmap string blob -> Prop) (dst pkg : string) (data : json) :
  let fn := normpath (changes_path dst pkg) in
  op_keeps P (OpOpenW (tmp_path fn)) ->
  (forall s, op_keeps P (OpWrite (tmp_path fn) s)) ->
  op_keeps P (OpRename (tmp_path fn) fn) ->
  keeps P (write_changes_file dst pkg data).
Proof.
  intros fn Ho Hw Hr. unfold write_changes_file.
  keeps_steps; cbn [norm_op]; by rewrite ?normpath_tmp_path.
Qed.

(** Reading the old contents: [old] when the file exists, nothing
    otherwise. *)
Lemma changes_read_old {B} (fn old : string) (k : list string -> IO B) (w : world) :
  changes_before w (normpath fn) old ->
  (do ex <- path_exists fn ;
   do lines <- (if ex then do s <- read_text fn ; io_ret (readlines s) else io_ret []) ;
   k lines) w
  = k (readlines old) w.
Proof.
  intros [Hf | (Hf & Hd & ->)]; rewrite io_bind_exists.
  - rewrite bool_decide_true by (left; rewrite Hf; eauto).
    rewrite io_bind_assoc, (io_bind_read_text _ old) by done. by io_steps.
  - rewrite bool_decide_false by (rewrite Hf; intros [[? ?]|?]; done). by io_steps.
Qed.

Lemma changes_run (dst pkg : string) (data : json) (w : world)
    (version : json) (old : string) :
  dict_get "version" data = Ok version ->
  changes_before w (normpath (changes_path dst pkg)) old ->
  write_changes_file dst pkg data w
  = (Ok tt, run_ops (changes_ops (normpath (changes_path dst pkg)) old (w_now w) (py_str version)) w).
Proof.
  intros Hv Hb. unfold write_changes_file. cbv zeta. rewrite Hv, (changes_read_old _ old) by done.
  io_steps. rewrite str_concat_readlines, rename_ok, !normpath_tmp_path; [done|].
  rewrite normpath_tmp_path. apply run_op_write_some.
Qed.


(** a run with a string version performs exactly the operations
    [changes_ops] on the changes file [fn] as the file system resolves
    it: open [<fn>.new], write the entry and the old contents, rename it
    over [<fn>]. *)
Theorem write_changes_file_run (dst pkg : string) (data : json) (w : world)
    (version : json) (old : string) :
  dict_get "version" data = Ok version ->
  changes_before w (normpath (changes_path dst pkg)) old ->
  write_changes_file dst pkg data w
  = (Ok tt, run_ops (changes_ops (normpath (changes_path dst pkg)) old (w_now w) (py_str version)) w).
Proof. apply changes_run. Qed.

Lemma changes_ops_split (fn old : string) (now : datetime) (version : string) :
  changes_ops fn old now version
  = (OpOpenW (tmp_path fn) :: map (OpWrite (tmp_path fn)) (changes_chunks old now version))
    ++ [OpRename (tmp_path fn) fn].
Proof. done. Qed.

Lemma cat_changes_chunks (old : string) (now : datetime) (version : string) :
  cat (changes_chunks old now version) = changes_entry now version +:+ old.
Proof. unfold changes_entry, changes_chunks. cbn [cat]. by autorewrite with pystr. Qed.

Lemma changes_files (fn old : string) (now : datetime) (version : string) (w : world) :
  w_files (run_ops (changes_ops fn old now version) w)
  = <[fn := BText (changes_entry now version +:+ old)]> (delete (tmp_path fn) (w_files w)).
Proof.
  rewrite changes_ops_split, run_ops_app, run_ops_single.
  pose proof (run_ops_open_writes (tmp_path fn) (changes_chunks old now version) w) as H1.
  rewrite cat_changes_chunks in H1.
  set (w1 := run_ops _ w) in *. clearbody w1.
  unfold run_op; simpl. rewrite H1, lookup_insert_eq. simpl.
  by rewrite delete_insert_eq.
Qed.

(** C20: after a successful run the changes file holds the new entry
    followed by the old contents (newest first), [<fn>.new] is gone, and
    every other file and every directory is unchanged. *)
Theorem write_changes_file_effect (dst pkg : string) (data : json) (w : world)
    (version : json) (old : string) :
  dict_get "version" data = Ok version ->
  changes_before w (normpath (changes_path dst pkg)) old ->
  exists w', write_changes_file dst pkg data w = (Ok tt, w') /\
    w_files w' = <[normpath (changes_path dst pkg) :=
                     BText (changes_entry (w_now w) (py_str version) +:+ old)]>
                   (delete (tmp_path (normpath (changes_path dst pkg))) (w_files w)) /\
    w_dirs w' = w_dirs w.
Proof.
  intros Hv Hb. eexists. split; [by apply changes_run|].
  split; [apply changes_files|]. apply run_ops_dirs_untouched. repeat constructor.
Qed.

(** C19: crash consistency.  After any prefix of the operations of a run,
    the changes file holds either its old contents or the complete new
    contents: every write goes to [<fn>.new] and the rename replaces the
    file in one step. *)
Theorem write_changes_file_atomic (fn old : string) (now : datetime) (version : string)
    (w : world) (n : nat) :
  let w_n := run_ops (take n (changes_ops fn old now version)) w in
  w_files w_n !! fn = w_files w !! fn \/
  w_files w_n !! fn = Some (BText (changes_entry now version +:+ old)).
Proof.
  simpl. destruct (decide (n < 8)) as [Hn|Hn].
  - left. apply run_ops_untouched.
    replace n with (Nat.min n 7) by lia. rewrite <-take_take.
    apply Forall_take. pose proof (tmp_path_ne fn).
    repeat constructor; simpl; done.
  - right. rewrite take_ge by (simpl; lia). rewrite changes_files.
    apply lookup_insert_eq.
Qed.


(** ** Witnesses *)

Definition ex_world : world :=
  mkWorld (<["nodejs-foo/nodejs-foo.changes" := BText ("- old entry" +:+ nl)]>
           (<["nodejs-foo.changes" := BText ("- cwd entry" +:+ nl)]> ∅)) ∅
    "/home/u" (mkDatetime 2026 11 9 12 0 0) [].

Definition ex_data : json := JObj [("name", JStr "foo"); ("version", JStr "1.2.0")].

Lemma write_changes_file_run_witness :
  dict_get "version" ex_data = Ok (JStr "1.2.0") /\
  changes_before ex_world (normpath (changes_path "." "nodejs-foo")) ("- cwd entry" +:+ nl) /\
  write_changes_file "." "nodejs-foo" ex_data ex_world
  = (Ok tt, run_ops (changes_ops (normpath (changes_path "." "nodejs-foo")) ("- cwd entry" +:+ nl)
                       (w_now ex_world) "1.2.0") ex_world).
Proof.
  assert (Hb : changes_before ex_world (normpath (changes_path "." "nodejs-foo"))
                 ("- cwd entry" +:+ nl)) by (left; vm_compute; reflexivity).
  split; [reflexivity|]. split; [exact Hb|].
  apply (write_changes_file_run _ _ _ _ (JStr "1.2.0")); [reflexivity | exact Hb].
Defined.

(** A registry entry whose version is a number: ['%s'] prints it. *)
Definition ex_data_num : json := JObj [("name", JStr "foo"); ("version", JNum 2)].

Lemma write_changes_file_effect_witness :
  dict_get "version" ex_data_num = Ok (JNum 2) /\
  changes_before ex_world (normpath (changes_path "nodejs-foo" "nodejs-foo")) ("- old entry" +:+ nl) /\
  exists w', write_changes_file "nodejs-foo" "nodejs-foo" ex_data_num ex_world = (Ok tt, w') /\
    w_files w' = <[normpath (changes_path "nodejs-foo" "nodejs-foo") :=
                    BText (changes_entry (w_now ex_world) "2" +:+ ("- old entry" +:+ nl))]>
                   (delete (tmp_path (normpath (changes_path "nodejs-foo" "nodejs-foo"))) (w_files ex_world)) /\
    w_dirs w' = w_dirs ex_world.
Proof.
  assert (Hb : changes_before ex_world (normpath (changes_path "nodejs-foo" "nodejs-foo")) ("- old entry" +:+ nl))
    by (left; vm_compute; reflexivity).
  split; [reflexivity|]. split; [exact Hb|].
  apply (write_changes_file_effect _ _ _ _ (JNum 2)); [reflexivity | exact Hb].
Defined.


End Changes.
