(* ===== verification/Download.v ===== *)
(** * Download: [download], the idempotent tarball fetch

    [download(url, dst)] (lines 205-215) does nothing when
    [os.path.join(dst, os.path.basename(url))] exists; otherwise it GETs
    the URL, raises on an HTTP error status ([raise_for_status]) and
    writes the body in the chunks of [r.iter_content(4096)].  The
    theorems: the chunks cover the body exactly and each has between 1
    and 4096 bytes; an existing file (complete or not) means no request
    and no write; otherwise the file ends up with the body; an error
    status writes nothing. *)

From stdpp Require Import base list strings gmap.
From Stdlib Require Import Ascii.
From S2P Require Import Prelude Json Clock World.
Import Json Clock World.

Module Download.

(** The chunks of [iter_content(n)]; [fuel] bounds the number of chunks. *)
Fixpoint chunks_fuel (fuel n : nat) (s : string) : list string :=
  match fuel with
  | 0 => []
  | S f =>
      match s with
      | EmptyString => []
      | _ => String.substring 0 n s :: chunks_fuel f n (str_drop n s)
      end
  end.

(** [r.iter_content(n)]: one chunk per [n] bytes, so [String.length s]
    chunks are always enough fuel for [n >= 1]. *)
Definition iter_content (n : nat) (s : string) : list string :=
  chunks_fuel (String.length s) n s.

Definition chunk_size : nat := 4096.

(** [os.path.join(dst, os.path.basename(url))] *)
Definition download_path (url dst : string) : string := path_join dst (basename url).

(** ** Lemmas on the chunks *)

Lemma length_str_drop (n : nat) (s : string) :
  String.length (str_drop n s) = String.length s - n.
Proof. revert s. induction n as [|n IH]; intros [|c s]; simpl; auto; lia. Qed.

Lemma substring_str_drop (n : nat) (s : string) :
  String.substring 0 n s +:+ str_drop n s = s.
Proof. revert s. induction n as [|n IH]; intros [|c s]; simpl; auto. by rewrite IH. Qed.

Lemma length_substring (n : nat) (s : string) :
  String.length (String.substring 0 n s) = Nat.min n (String.length s).
Proof. revert s. induction n as [|n IH]; intros [|c s]; simpl; auto. Qed.

Lemma chunks_fuel_cat (fuel n : nat) (s : string) :
  0 < n -> String.length s <= fuel -> cat (chunks_fuel fuel n s) = s.
Proof.
  revert s. induction fuel as [|f IH]; intros s Hn Hs.
  - by destruct s; simpl in *; [|lia].
  - destruct s as [|c s']; [done|]. cbn [chunks_fuel cat].
    rewrite IH; [apply substring_str_drop | done |].
    rewrite length_str_drop. simpl in *. lia.
Qed.

Lemma chunks_fuel_bounds (fuel n : nat) (s : string) :
  0 < n -> Forall (fun c => 0 < String.length c <= n) (chunks_fuel fuel n s).
Proof.
  revert s. induction fuel as [|f IH]; intros s Hn; [constructor|].
  destruct s as [|c s']; [constructor|]. cbn [chunks_fuel].
  constructor; [|by apply IH]. rewrite length_substring. simpl. lia.
Qed.

Section Download.
Context {transport : Transport}.

(** [download(url, dst)] *)
Definition download (url dst : string) : IO unit :=
  let fn := download_path url dst in
  do ex <- path_exists fn ;
  if ex then io_ret tt
  else
    do r <- http (mkRequest url []) ;
    io_lift (raise_for_status r) ;;
    write_file fn (iter_content chunk_size (resp_content r)).

(** The footprint of [download]: it keeps every invariant that opening
    and writing the tarball's file keep. *)
Lemma download_keeps (P : gmap string blob -> Prop) (url dst : string) :
  op_keeps P (OpOpenW (normpath (download_path url dst))) ->
  (forall s, op_keeps P (OpWrite (normpath (download_path url dst)) s)) ->
  keeps P (download url dst).
Proof. intros Ho Hw. unfold download. by keeps_steps. Qed.

(** ** Properties of [download] *)

(** C26: an existing file of the tarball's name, complete or not, means
    no request and no write: the world is unchanged. *)
Theorem download_skips_existing (url dst : string) (w : world) :
  is_Some (w_files w !! normpath (download_path url dst)) \/ normpath (download_path url dst) ∈ w_dirs w ->
  download url dst w = (Ok tt, w).
Proof.
  intros Hex. unfold download. rewrite io_bind_exists, bool_decide_true by done. done.
Qed.

(** C27: otherwise, on a successful response, the request is sent, the
    file is created and written in the [iter_content] chunks, and it ends
    up holding exactly the response body. *)
Theorem download_writes_body (url dst : string) (w : world) (r : response) :
  w_files w !! normpath (download_path url dst) = None -> normpath (download_path url dst) ∉ w_dirs w ->
  http_get (mkRequest url []) = Ok r -> raise_for_status r = Ok tt ->
  exists w', download url dst w = (Ok tt, w') /\
    w_trace w' = w_trace w ++ [EvGet (mkRequest url [])] ++
                 map EvFs (OpOpenW (normpath (download_path url dst)) ::
                           map (OpWrite (normpath (download_path url dst)))
                               (iter_content chunk_size (resp_content r))) /\
    w_files w' = <[normpath (download_path url dst) := BText (resp_content r)]> (w_files w).
Proof.
  intros Hf Hd Hget Hst. unfold download.
  rewrite io_bind_exists, bool_decide_false by (rewrite Hf; intros [[? ?]|?]; done).
  rewrite (io_bind_http_ok _ r) by done. rewrite Hst. io_steps.
  rewrite write_file_run. eexists. split; [done|]. split.
  - rewrite run_ops_trace. cbn [w_trace log_get]. by rewrite <-app_assoc.
  - rewrite run_ops_open_writes. unfold iter_content.
    rewrite chunks_fuel_cat; [done | unfold chunk_size; lia | done].
Qed.

(** C38: an HTTP error status raises [HTTPError] after the request and
    before any file is opened. *)
Theorem download_http_error (url dst : string) (w : world) (r : response) :
  w_files w !! normpath (download_path url dst) = None -> normpath (download_path url dst) ∉ w_dirs w ->
  http_get (mkRequest url []) = Ok r -> 400 <= status r < 600 ->
  download url dst w = (Err (HTTPError (status r)), log_get (mkRequest url []) w).
Proof.
  intros Hf Hd Hget Hst. unfold download.
  rewrite io_bind_exists, bool_decide_false by (rewrite Hf; intros [[? ?]|?]; done).
  rewrite (io_bind_http_ok _ r) by done. unfold raise_for_status.
  replace ((400 <=? status r) && (status r <? 600)) with true
    by (symmetry; apply andb_true_iff; split; [apply Nat.leb_le | apply Nat.ltb_lt]; lia).
  done.
Qed.

End Download.

(** [iter_content] terminates within its fuel and its chunks put
    back together give the whole body. *)
Theorem iter_content_cat (n : nat) (s : string) :
  0 < n -> cat (iter_content n s) = s.
Proof. intros Hn. by apply chunks_fuel_cat. Qed.

(** every chunk of [iter_content n] has between 1 and [n] bytes. *)
Theorem iter_content_bounds (n : nat) (s : string) :
  0 < n -> Forall (fun c => 0 < String.length c <= n) (iter_content n s).
Proof. apply chunks_fuel_bounds. Qed.

(** ** Witnesses *)

Definition ex_url : string := "https://registry.npmjs.org/foo/-/foo-1.2.0.tgz".

Definition ex_resp (st : nat) : response :=
  mkResponse st None None None "tarball-bytes".

(** A registry that serves the tarball with status [st]. *)
Definition ex_transport (st : nat) : Transport :=
  {| http_get := fun r => if String.eqb (req_url r) ex_url then Ok (ex_resp st)
                          else Err (ConnectionError (req_url r)) |}.

Definition ex_world : world := mkWorld ∅ ∅ "/home/u" (mkDatetime 2026 11 9 12 0 0) [].

Definition ex_world_with_file : world :=
  mkWorld (<["nodejs-foo/foo-1.2.0.tgz" := BText "partial"]> ∅) ∅ "/home/u"
    (mkDatetime 2026 11 9 12 0 0) [].

Lemma download_skips_existing_witness :
  (is_Some (w_files ex_world_with_file !! normpath (download_path ex_url "nodejs-foo")) \/
   normpath (download_path ex_url "nodejs-foo") ∈ w_dirs ex_world_with_file) /\
  @download (ex_transport 200) ex_url "nodejs-foo" ex_world_with_file = (Ok tt, ex_world_with_file).
Proof.
  assert (Hex : is_Some (w_files ex_world_with_file !! normpath (download_path ex_url "nodejs-foo")) \/
                normpath (download_path ex_url "nodejs-foo") ∈ w_dirs ex_world_with_file)
    by (left; vm_compute; eauto).
  split; [exact Hex | by apply (@download_skips_existing (ex_transport 200))].
Defined.

Lemma download_writes_body_witness :
  w_files ex_world !! normpath (download_path ex_url "nodejs-foo") = None /\
  (normpath (download_path ex_url "nodejs-foo") ∉ w_dirs ex_world) /\
  exists w', @download (ex_transport 200) ex_url "nodejs-foo" ex_world = (Ok tt, w') /\
    w_trace w' = w_trace ex_world ++ [EvGet (mkRequest ex_url [])] ++
                 map EvFs (OpOpenW (normpath (download_path ex_url "nodejs-foo")) ::
                           map (OpWrite (normpath (download_path ex_url "nodejs-foo")))
                               (iter_content chunk_size (resp_content (ex_resp 200)))) /\
    w_files w' = <[normpath (download_path ex_url "nodejs-foo") := BText (resp_content (ex_resp 200))]>
                   (w_files ex_world).
Proof.
  split; [reflexivity|]. split; [apply not_elem_of_empty|].
  apply (@download_writes_body (ex_transport 200)); [reflexivity | apply not_elem_of_empty
    | reflexivity | reflexivity].
Defined.

Lemma download_http_error_witness :
  w_files ex_world !! normpath (download_path ex_url "nodejs-foo") = None /\
  (normpath (download_path ex_url "nodejs-foo") ∉ w_dirs ex_world) /\ 400 <= status (ex_resp 404) < 600 /\
  @download (ex_transport 404) ex_url "nodejs-foo" ex_world
  = (Err (HTTPError 404), log_get (mkRequest ex_url []) ex_world).
Proof.
  split; [reflexivity|]. split; [apply not_elem_of_empty|]. split; [simpl; lia|].
  apply (@download_http_error (ex_transport 404) _ _ _ (ex_resp 404));
    [reflexivity | apply not_elem_of_empty | reflexivity | simpl; lia].
Defined.

Lemma iter_content_cat_witness :
  0 < 4 /\ iter_content 4 "tarball-bytes" = ["tarb"; "all-"; "byte"; "s"] /\
  cat (iter_content 4 "tarball-bytes") = "tarball-bytes".
Proof. split; [lia|]. split; [reflexivity|]. apply iter_content_cat. lia. Defined.

Lemma iter_content_bounds_witness :
  0 < 4 /\ Forall (fun c => 0 < String.length c <= 4) (iter_content 4 "tarball-bytes").
Proof. split; [lia|]. apply iter_content_bounds. lia. Defined.

End Download.
