(* ===== verification/Obs.v ===== *)
(** * Obs: [check_dln_exists], the build-service probe

    [check_dln_exists(name)] (lines 186-203) asks the openSUSE build
    service whether [devel:languages:nodejs] has the package: [None] when
    the source probe does not answer 200; otherwise it asks for the file
    info of the Tumbleweed x86_64 build and returns the text of its
    [version] element, or [''] when that request fails or has no such
    element.  [v.text] of an empty element is [None], which the caller
    reads as "not tracked". *)

From stdpp Require Import base list strings gmap.
From Stdlib Require Import Ascii.
From S2P Require Import Prelude Json Clock World.
Import Json Clock World.

Module Obs.

Definition apiurl : string := "https://build.opensuse.org".

Definition source_url (name : string) : string :=
  apiurl +:+ "/source/devel:languages:nodejs/" +:+ name.

Definition fileinfo_url (name : string) : string :=
  apiurl +:+ "/build/devel:languages:nodejs/Tumbleweed/x86_64/_repository/" +:+ name
  +:+ "?view=fileinfo".

Definition elem_tag (e : xml) : string := match e with XElem t _ _ => t end.
Definition elem_text (e : xml) : option string := match e with XElem _ t _ => t end.
Definition elem_children (e : xml) : list xml := match e with XElem _ _ c => c end.

(** [root.find(tag)]: the first child with that tag. *)
Definition xml_find (tag : string) (root : xml) : option xml :=
  find (fun c => String.eqb (elem_tag c) tag) (elem_children root).

Section Obs.
Context {transport : Transport}.

(** [check_dln_exists(name)] *)
Definition check_dln_exists (name : string) : IO (option string) :=
  do r <- http (mkRequest (source_url name) []) ;
  if status r =? 200 then
    do r2 <- http (mkRequest (fileinfo_url name) []) ;
    if status r2 =? 200 then
      match resp_xml r2 with
      | None => io_raise ParseError
      | Some root =>
          match xml_find "version" root with
          | Some v => io_ret (elem_text v)
          | None => io_ret (Some EmptyString)
          end
      end
    else io_ret (Some EmptyString)
  else io_ret None.

(** The probe only sends requests: no file or directory changes. *)
Lemma check_dln_exists_files (name : string) (w : world) :
  w_files (check_dln_exists name w).2 = w_files w /\
  w_dirs (check_dln_exists name w).2 = w_dirs w.
Proof.
  unfold check_dln_exists, io_bind, http.
  destruct (http_get (mkRequest (source_url name) [])) as [r1|e]; [|done].
  destruct (status r1 =? 200); [|done].
  destruct (http_get (mkRequest (fileinfo_url name) [])) as [r2|e]; [|done].
  destruct (status r2 =? 200); [|done].
  destruct (resp_xml r2) as [root|]; [|done]. by destruct (xml_find "version" root).
Qed.

Lemma check_dln_exists_keeps (P : gmap string blob -> Prop) (name : string) :
  keeps P (check_dln_exists name).
Proof. apply keeps_same. intros w. apply check_dln_exists_files. Qed.

(** ** Properties of [check_dln_exists] *)

(** C35: when both requests reach the service (and a 200 file-info answer
    is XML), [check_dln_exists] answers [None] ("not tracked") exactly
    when the source probe is not 200, or when the file info has a
    [version] element with no text. *)
Theorem check_dln_untracked_iff (name : string) (w : world) (r1 r2 : response) :
  http_get (mkRequest (source_url name) []) = Ok r1 ->
  http_get (mkRequest (fileinfo_url name) []) = Ok r2 ->
  (status r2 = 200 -> resp_xml r2 <> None) ->
  (check_dln_exists name w).1 = Ok None <->
  status r1 <> 200 \/
  (status r2 = 200 /\ exists root v, resp_xml r2 = Some root /\
     xml_find "version" root = Some v /\ elem_text v = None).
Proof.
  intros H1 H2 Hxml. unfold check_dln_exists.
  rewrite (io_bind_http_ok _ r1) by done.
  destruct (Nat.eqb_spec (status r1) 200) as [E1|E1]; simpl; [|split; [by left | done]].
  rewrite (io_bind_http_ok _ r2) by done.
  destruct (Nat.eqb_spec (status r2) 200) as [E2|E2]; simpl;
    [|split; [discriminate | intros [?|[? _]]; congruence]].
  destruct (resp_xml r2) as [root|] eqn:Ex; [|by destruct (Hxml E2)].
  destruct (xml_find "version" root) as [v|] eqn:Ev; simpl.
  - split; [intros [= Hv]; right; eauto 7|].
    intros [?|(_ & root' & v' & [= <-] & Hv' & Ht)]; congruence.
  - split; [discriminate|].
    intros [?|(_ & root' & v' & [= <-] & Hv' & _)]; congruence.
Qed.

(** C36: a [version] element with text [t] in a 200 file-info answer
    makes [check_dln_exists] return [t], after exactly the two requests. *)
Theorem check_dln_version (name t : string) (w : world) (r1 r2 : response) (root v : xml) :
  http_get (mkRequest (source_url name) []) = Ok r1 -> status r1 = 200 ->
  http_get (mkRequest (fileinfo_url name) []) = Ok r2 -> status r2 = 200 ->
  resp_xml r2 = Some root -> xml_find "version" root = Some v -> elem_text v = Some t ->
  check_dln_exists name w
  = (Ok (Some t), log_get (mkRequest (fileinfo_url name) []) (log_get (mkRequest (source_url name) []) w)).
Proof.
  intros H1 E1 H2 E2 Hx Hv Ht. unfold check_dln_exists.
  rewrite (io_bind_http_ok _ r1) by done. rewrite E1. simpl.
  rewrite (io_bind_http_ok _ r2) by done. rewrite E2. simpl.
  by rewrite Hx, Hv, Ht.
Qed.

End Obs.

(** ** Witnesses *)

Definition ex_fileinfo (version : option string) : xml :=
  XElem "fileinfo" None [XElem "name" (Some "nodejs-foo") []; XElem "version" version []].

(** The service tracks [nodejs-foo]; its file info has a [version]
    element with text [version]. *)
Definition ex_obs (version : option string) : Transport :=
  {| http_get := fun r =>
       if String.eqb (req_url r) (source_url "nodejs-foo")
       then Ok (mkResponse 200 None None None EmptyString)
       else if String.eqb (req_url r) (fileinfo_url "nodejs-foo")
       then Ok (mkResponse 200 None None (Some (ex_fileinfo version)) EmptyString)
       else Ok (mkResponse 404 None None None EmptyString) |}.

Definition ex_world : world := mkWorld ∅ ∅ "/home/u" (mkDatetime 2026 11 9 12 0 0) [].

(** An empty [<version/>] element reads as "not tracked". *)
Lemma check_dln_untracked_iff_witness :
  (@check_dln_exists (ex_obs None) "nodejs-foo" ex_world).1 = Ok None /\
  (status (mkResponse 200 None None None EmptyString) <> 200 \/
   (status (mkResponse 200 None None (Some (ex_fileinfo None)) EmptyString) = 200 /\
    exists root v, resp_xml (mkResponse 200 None None (Some (ex_fileinfo None)) EmptyString) = Some root /\
      xml_find "version" root = Some v /\ elem_text v = None)).
Proof.
  split; [reflexivity|].
  apply (@check_dln_untracked_iff (ex_obs None) "nodejs-foo" ex_world); try reflexivity.
  discriminate.
Defined.

Lemma check_dln_version_witness :
  @check_dln_exists (ex_obs (Some "1.1.0")) "nodejs-foo" ex_world
  = (Ok (Some "1.1.0"), log_get (mkRequest (fileinfo_url "nodejs-foo") [])
                          (log_get (mkRequest (source_url "nodejs-foo") []) ex_world)).
Proof.
  apply (@check_dln_version (ex_obs (Some "1.1.0")) _ _ _
           (mkResponse 200 None None None EmptyString)
           (mkResponse 200 None None (Some (ex_fileinfo (Some "1.1.0"))) EmptyString)
           (ex_fileinfo (Some "1.1.0")) (XElem "version" (Some "1.1.0") []));
    reflexivity.
Defined.

End Obs.
