(* ===== verification/Registry.v ===== *)
(** * Registry: [fetch_registry], the conditional fetch through the cache

    [fetch_registry(pkg)] (lines 217-246) keeps the last registry document
    of [pkg] in [~/.npm/registry.npmjs.org/<pkg>/.cache.json], with the
    response's ETag under the key [_etag].  When the cache file exists the
    GET carries [etag] and [if-none-match] headers with that tag; a [304]
    answer reuses the cached document, any other answer must pass
    [raise_for_status] and replaces the cache file with the new body and
    its tag.  The result is [data['versions'][data['dist-tags']['latest']]].
    The theorems: the result is that selection; a 304 writes nothing; a
    fresh answer, with or without a cache, stores the body with its tag
    under [_etag] and every other key as served; against a registry whose
    document does not change, a second fetch returns the same entry and
    writes nothing; an error status with no cache writes nothing.  The
    footprint [fetch_registry_keeps]: it saves JSON only to the cache
    file, and only a [cache_doc] (a dict with a string ['_etag']). *)

From stdpp Require Import base list strings gmap.
From Stdlib Require Import Ascii.
From S2P Require Import Prelude Json Clock World.
Import Json Clock World.

Module Registry.

Definition registry_url (pkg : string) : string := "https://registry.npmjs.org/" +:+ pkg.

(** [os.path.expanduser('~/.npm/registry.npmjs.org/{}/.cache.json'.format(pkg))] *)
Definition cache_path (home pkg : string) : string :=
  expanduser home ("/.npm/registry.npmjs.org/" +:+ pkg +:+ "/.cache.json").

(** The headers dict, in insertion order. *)
Definition base_headers : list (string * string) :=
  [("accept-encoding", "gzip"); ("accept", "application/json")].

Definition cond_headers (etag : string) : list (string * string) :=
  base_headers ++ [("etag", etag); ("if-none-match", etag)].

(** [version = data['dist-tags']['latest']; return data['versions'][version]] *)
Definition latest_entry (data : json) : result json :=
  tags <- dict_get "dist-tags" data ;;
  latest <- dict_get "latest" tags ;;
  version <- as_str latest ;;
  versions <- dict_get "versions" data ;;
  dict_get version versions.

(** [r.json()] *)
Definition resp_body (r : response) : result json :=
  match resp_json r with
  | Some j => Ok j
  | None => Err (ValueError "No JSON object could be decoded")
  end.

(** [r.headers['etag']] *)
Definition resp_etag_header (r : response) : result string :=
  match resp_etag r with
  | Some e => Ok e
  | None => Err (KeyError "etag")
  end.

(** The document a fresh answer stores: [data = r.json(); data['_etag'] = ...]. *)
Definition fresh_data (r : response) : result json :=
  body <- resp_body r ;;
  etag <- resp_etag_header r ;;
  dict_set "_etag" (JStr etag) body.

(** The branch [if data is None or r.status_code != 304:] of the fetch. *)
Definition store_fresh (fn : string) (r : response) : IO json :=
  io_lift (raise_for_status r) ;;
  do data <- io_lift (fresh_data r) ;
  do dex <- path_exists (dirname fn) ;
  (if dex then io_ret tt else fs (OpMkdir (dirname fn))) ;;
  fs (OpOpenW fn) ;;
  fs (OpSaveJson fn data) ;;
  io_ret data.

(** A cache document: what [fetch_registry] stores, a registry document
    with the string ['_etag'] it was served with. *)
Definition cache_doc (j : json) : Prop := exists e, dict_get "_etag" j = Ok (JStr e).

Section Fetch.
Context {transport : Transport}.

(** [fetch_registry(pkg)] *)
Definition fetch_registry (pkg : string) : IO json :=
  do home <- get_home ;
  let fn := cache_path home pkg in
  do ex <- path_exists fn ;
  do cached <- (if ex then do j <- read_json fn ; io_ret (Some j) else io_ret None) ;
  do headers <- (match cached with
                 | None => io_ret base_headers
                 | Some data => do etag <- io_lift (e <- dict_get "_etag" data ;; as_str e) ;
                                io_ret (cond_headers etag)
                 end) ;
  do r <- http (mkRequest (registry_url pkg) headers) ;
  do data <- (match cached with
              | Some d => if status r =? 304 then io_ret d else store_fresh fn r
              | None => store_fresh fn r
              end) ;
  io_lift (latest_entry data).

(** ** Lemmas *)

Lemma store_fresh_run (fn : string) (r : response) (d : json) (w : world) :
  raise_for_status r = Ok tt -> fresh_data r = Ok d ->
  exists w1, store_fresh fn r w = (Ok d, w1) /\
    w_files w1 = <[normpath fn := BJson d]> (w_files w) /\ w_home w1 = w_home w.
Proof.
  intros Hr Hd. unfold store_fresh. rewrite Hr, Hd. io_steps.
  destruct (bool_decide _); io_steps; eexists; (split; [done|]); simpl;
    (split; [by rewrite insert_insert_eq | done]).
Qed.

Lemma read_json_some {B} (p : string) (j : json) (k : option json -> IO B) (w : world) :
  w_files w !! normpath p = Some (BJson j) ->
  io_bind (io_bind (read_json p) (fun j => io_ret (Some j))) k w = k (Some j) w.
Proof. intros Hp. by rewrite io_bind_assoc, (io_bind_read_json _ j). Qed.

(** A fetch from a world whose cache file holds [data] with tag [etag]
    sends [cond_headers etag] and continues with the cached document. *)
Lemma fetch_registry_cached (pkg etag : string) (data : json) (w : world) :
  w_files w !! normpath (cache_path (w_home w) pkg) = Some (BJson data) ->
  dict_get "_etag" data = Ok (JStr etag) ->
  fetch_registry pkg w =
  io_bind (http (mkRequest (registry_url pkg) (cond_headers etag)))
    (fun r => io_bind (if status r =? 304 then io_ret data
                       else store_fresh (cache_path (w_home w) pkg) r)
                      (fun d => io_lift (latest_entry d))) w.
Proof.
  intros Hf He. unfold fetch_registry. rewrite io_bind_get_home, io_bind_exists.
  rewrite bool_decide_true by (left; rewrite Hf; eauto).
  rewrite (read_json_some _ data) by done. cbv beta iota. rewrite He. by io_steps.
Qed.

Lemma fetch_registry_uncached (pkg : string) (w : world) :
  w_files w !! normpath (cache_path (w_home w) pkg) = None -> normpath (cache_path (w_home w) pkg) ∉ w_dirs w ->
  fetch_registry pkg w =
  io_bind (http (mkRequest (registry_url pkg) base_headers))
    (fun r => io_bind (store_fresh (cache_path (w_home w) pkg) r)
                      (fun d => io_lift (latest_entry d))) w.
Proof.
  intros Hf Hd. unfold fetch_registry. rewrite io_bind_get_home, io_bind_exists.
  rewrite bool_decide_false by (rewrite Hf; intros [[? ?]|?]; done). by io_steps.
Qed.

(** A fetch that succeeds starts from a cache file holding a document
    with a string tag, or from no cache file at all. *)
Lemma fetch_registry_ok_cases (pkg : string) (w w1 : world) (x : json) :
  fetch_registry pkg w = (Ok x, w1) ->
  (exists data etag, w_files w !! normpath (cache_path (w_home w) pkg) = Some (BJson data) /\
                     dict_get "_etag" data = Ok (JStr etag)) \/
  (w_files w !! normpath (cache_path (w_home w) pkg) = None /\ normpath (cache_path (w_home w) pkg) ∉ w_dirs w).
Proof.
  unfold fetch_registry. rewrite io_bind_get_home, io_bind_exists.
  set (fn := normpath (cache_path (w_home w) pkg)).
  destruct (w_files w !! fn) as [[s|data]|] eqn:Hf.
  - rewrite bool_decide_true by (left; eauto). rewrite !io_bind_assoc.
    match goal with
    | |- io_bind (read_json ?p) ?k ?w = _ -> _ =>
        destruct (io_bind_read_json_fail p k w) as [e ->]; [by subst fn; rewrite Hf | done]
    end.
  - rewrite bool_decide_true by (left; eauto).
    rewrite (read_json_some _ data) by done. cbv beta iota.
    destruct (dict_get "_etag" data) as [[| | |etag| |]|e] eqn:He; simpl; try done.
    intros _. left. eauto.
  - destruct (decide (fn ∈ w_dirs w)) as [Hd|Hd]; [|by right].
    rewrite bool_decide_true by (by right). rewrite !io_bind_assoc.
    match goal with
    | |- io_bind (read_json ?p) ?k ?w = _ -> _ =>
        destruct (io_bind_read_json_fail p k w) as [e ->]; [by subst fn; rewrite Hf | done]
    end.
Qed.

Lemma fresh_data_etag (r : response) (d : json) (etag : string) :
  fresh_data r = Ok d -> resp_etag r = Some etag -> dict_get "_etag" d = Ok (JStr etag).
Proof.
  unfold fresh_data, resp_etag_header. intros H He. rewrite He in H. inv_ok H.
  match goal with Hs : Ok etag = Ok _ |- _ => injection Hs as <- end.
  by apply (dict_set_get_eq "_etag" (JStr etag) x d).
Qed.

Lemma fresh_data_cache_doc (r : response) (d : json) : fresh_data r = Ok d -> cache_doc d.
Proof.
  intros H. destruct (resp_etag r) as [etag|] eqn:He.
  - exists etag. by apply (fresh_data_etag r).
  - unfold fresh_data, resp_etag_header in H. rewrite He in H. by destruct (resp_body r).
Qed.

(** The document a fresh answer stores: the body (a dict) with the
    response's tag under [_etag], every other key as in the body. *)
Lemma fresh_data_dict (r : response) (etag : string) (kvs : list (string * json)) :
  resp_json r = Some (JObj kvs) -> resp_etag r = Some etag ->
  exists d, fresh_data r = Ok d /\ dict_get "_etag" d = Ok (JStr etag) /\
    (forall k, k <> "_etag" -> dict_get k d = dict_get k (JObj kvs)).
Proof.
  intros Hj He. exists (JObj (assoc_set "_etag" (JStr etag) kvs)).
  split; [unfold fresh_data, resp_body, resp_etag_header; by rewrite Hj, He|].
  split; [by apply (dict_set_get_eq _ _ (JObj kvs))|].
  intros k Hk. rewrite (dict_get_set "_etag" k (JStr etag) (JObj kvs)) by done.
  by destruct (String.eqb_spec k "_etag").
Qed.

(** The footprint of [fetch_registry]: it keeps every invariant that
    creating a directory, opening the cache file and saving a cache
    document to it keep. *)
Lemma fetch_registry_keeps (P : gmap string blob -> Prop) (pkg : string) :
  (forall d, op_keeps P (OpMkdir d)) ->
  (forall home, op_keeps P (OpOpenW (normpath (cache_path home pkg)))) ->
  (forall home j, cache_doc j -> op_keeps P (OpSaveJson (normpath (cache_path home pkg)) j)) ->
  keeps P (fetch_registry pkg).
Proof.
  intros Hd Ho Hs. unfold fetch_registry, store_fresh. keeps_steps; eauto using fresh_data_cache_doc.
Qed.

(** ** Properties of [fetch_registry] *)

Lemma fetch_registry_hit (pkg etag : string) (data : json) (w : world)
    (r : response) :
  w_files w !! normpath (cache_path (w_home w) pkg) = Some (BJson data) ->
  dict_get "_etag" data = Ok (JStr etag) ->
  http_get (mkRequest (registry_url pkg) (cond_headers etag)) = Ok r ->
  status r = 304 ->
  fetch_registry pkg w = (latest_entry data, log_get (mkRequest (registry_url pkg) (cond_headers etag)) w).
Proof.
  intros Hf He Hr Hs. rewrite (fetch_registry_cached _ etag data) by done.
  rewrite (io_bind_http_ok _ r) by done. rewrite Hs. simpl. done.
Qed.


(** C22: with a cached document, a [304] answer to the conditional request
    returns the entry of the cached document's latest version, and the
    only effect is the request itself: nothing is written. *)
Theorem fetch_registry_not_modified (pkg etag : string) (data : json) (w : world)
    (r : response) :
  w_files w !! normpath (cache_path (w_home w) pkg) = Some (BJson data) ->
  dict_get "_etag" data = Ok (JStr etag) ->
  http_get (mkRequest (registry_url pkg) (cond_headers etag)) = Ok r ->
  status r = 304 ->
  fetch_registry pkg w = (latest_entry data, log_get (mkRequest (registry_url pkg) (cond_headers etag)) w).
Proof. apply fetch_registry_hit. Qed.

(** C23: with no cache, a successful answer whose body is a dict and
    which carries an ETag replaces the cache file by the body with that
    tag stored under [_etag]: the stored document answers [_etag] with
    the tag and every other key as the body does.  The result is the
    latest entry of the stored document, and no other file changes. *)
Theorem fetch_registry_fresh (pkg etag : string) (w : world) (r : response)
    (kvs : list (string * json)) :
  w_files w !! normpath (cache_path (w_home w) pkg) = None ->
  normpath (cache_path (w_home w) pkg) ∉ w_dirs w ->
  http_get (mkRequest (registry_url pkg) base_headers) = Ok r ->
  raise_for_status r = Ok tt -> resp_json r = Some (JObj kvs) -> resp_etag r = Some etag ->
  exists d w1, fetch_registry pkg w = (latest_entry d, w1) /\
    w_files w1 = <[normpath (cache_path (w_home w) pkg) := BJson d]> (w_files w) /\
    w_home w1 = w_home w /\
    dict_get "_etag" d = Ok (JStr etag) /\
    (forall k, k <> "_etag" -> dict_get k d = dict_get k (JObj kvs)).
Proof.
  intros Hf Hd Hr Hok Hj He.
  destruct (fresh_data_dict r etag kvs Hj He) as (d & Hfresh & Hetag & Hkeys).
  rewrite fetch_registry_uncached by done. rewrite (io_bind_http_ok _ r) by done.
  destruct (store_fresh_run (cache_path (w_home w) pkg) r d
              (log_get (mkRequest (registry_url pkg) base_headers) w) Hok Hfresh)
    as (w1 & Hrun & Hw1 & Hh).
  exists d, w1. unfold io_bind at 1. rewrite Hrun. done.
Qed.

(** C24: with a cached document tagged [etag], an answer to the
    conditional request other than [304] that passes [raise_for_status]
    replaces the cached document by the new body with the new tag under
    [_etag]; the result is the latest entry of the new document. *)
Theorem fetch_registry_refresh (pkg etag etag' : string) (data : json) (w : world)
    (r : response) (kvs : list (string * json)) :
  w_files w !! normpath (cache_path (w_home w) pkg) = Some (BJson data) ->
  dict_get "_etag" data = Ok (JStr etag) ->
  http_get (mkRequest (registry_url pkg) (cond_headers etag)) = Ok r ->
  status r <> 304 -> raise_for_status r = Ok tt ->
  resp_json r = Some (JObj kvs) -> resp_etag r = Some etag' ->
  exists d w1, fetch_registry pkg w = (latest_entry d, w1) /\
    w_files w1 = <[normpath (cache_path (w_home w) pkg) := BJson d]> (w_files w) /\
    w_home w1 = w_home w /\
    dict_get "_etag" d = Ok (JStr etag') /\
    (forall k, k <> "_etag" -> dict_get k d = dict_get k (JObj kvs)).
Proof.
  intros Hf He Hr Hs Hok Hj He'.
  destruct (fresh_data_dict r etag' kvs Hj He') as (d & Hfresh & Hetag & Hkeys).
  rewrite (fetch_registry_cached _ etag data) by done. rewrite (io_bind_http_ok _ r) by done.
  replace (status r =? 304) with false by (symmetry; by apply Nat.eqb_neq).
  destruct (store_fresh_run (cache_path (w_home w) pkg) r d
              (log_get (mkRequest (registry_url pkg) (cond_headers etag)) w) Hok Hfresh)
    as (w1 & Hrun & Hw1 & Hh).
  exists d, w1. unfold io_bind at 1. rewrite Hrun. done.
Qed.

(** C37: an error status with no cache raises [HTTPError] and writes
    nothing. *)
Theorem fetch_registry_error (pkg : string) (w : world) (r : response) :
  w_files w !! normpath (cache_path (w_home w) pkg) = None -> normpath (cache_path (w_home w) pkg) ∉ w_dirs w ->
  http_get (mkRequest (registry_url pkg) base_headers) = Ok r -> 400 <= status r < 600 ->
  fetch_registry pkg w = (Err (HTTPError (status r)), log_get (mkRequest (registry_url pkg) base_headers) w).
Proof.
  intros Hf Hd Hr Hs. rewrite fetch_registry_uncached by done.
  rewrite (io_bind_http_ok _ r) by done. unfold store_fresh, raise_for_status.
  replace ((400 <=? status r) && (status r <? 600)) with true
    by (symmetry; apply andb_true_iff; split; [apply Nat.leb_le | apply Nat.ltb_lt]; lia).
  done.
Qed.

End Fetch.

(** ** A registry whose document does not change *)

Section Unchanged.
Context {transport : Transport}.
Variables (pkg etag : string) (r304 r200 : response) (d200 : json).

(** The registry answers [304] to the conditional request for its current
    tag, and otherwise serves its document with that tag. *)
Hypothesis server : forall hs, http_get (mkRequest (registry_url pkg) hs)
  = Ok (if decide (hs = cond_headers etag) then r304 else r200).
Hypothesis status_304 : status r304 = 304.
Hypothesis status_200 : status r200 = 200.
Hypothesis etag_200 : resp_etag r200 = Some etag.
Hypothesis fresh_200 : fresh_data r200 = Ok d200.

Lemma cond_headers_inj (e1 e2 : string) : cond_headers e1 = cond_headers e2 -> e1 = e2.
Proof. unfold cond_headers. simpl. by intros [= ->]. Qed.

(** After a successful fetch, the cache file holds a document [d] tagged
    with the registry's tag, and the result is the latest entry of [d]. *)
Lemma fetch_registry_post (w w1 : world) (x : json) :
  fetch_registry pkg w = (Ok x, w1) ->
  w_home w1 = w_home w /\
  exists d, w_files w1 !! normpath (cache_path (w_home w) pkg) = Some (BJson d) /\
    dict_get "_etag" d = Ok (JStr etag) /\ latest_entry d = Ok x.
Proof.
  intros Hrun. pose proof Hrun as Hcases. apply fetch_registry_ok_cases in Hcases.
  assert (Hok : raise_for_status r200 = Ok tt) by (unfold raise_for_status; by rewrite status_200).
  destruct Hcases as [(data & e & Hf & He) | (Hf & Hd)].
  - rewrite (fetch_registry_cached _ e data), (io_bind_http_ok _ _ _ _ (server _)) in Hrun by done.
    destruct (decide (cond_headers e = cond_headers etag)) as [Heq|Hne].
    + apply cond_headers_inj in Heq as ->. rewrite status_304 in Hrun. simpl in Hrun.
      injection Hrun as Hx <-. split; [done|]. eauto.
    + rewrite status_200 in Hrun. simpl in Hrun.
      destruct (store_fresh_run (cache_path (w_home w) pkg) r200 d200
                  (log_get (mkRequest (registry_url pkg) (cond_headers e)) w))
        as (w2 & Hs & Hw2 & Hh); [done|done|].
      unfold io_bind at 1 in Hrun. rewrite Hs in Hrun. injection Hrun as Hx <-.
      split; [done|]. exists d200. rewrite Hw2, lookup_insert_eq.
      split; [done|]. split; [by apply (fresh_data_etag r200) | done].
  - rewrite fetch_registry_uncached, (io_bind_http_ok _ _ _ _ (server _)) in Hrun by done.
    rewrite decide_False in Hrun by (unfold cond_headers, base_headers; simpl; congruence).
    destruct (store_fresh_run (cache_path (w_home w) pkg) r200 d200
                (log_get (mkRequest (registry_url pkg) base_headers) w))
      as (w2 & Hs & Hw2 & Hh); [done|done|].
    unfold io_bind at 1 in Hrun. rewrite Hs in Hrun. injection Hrun as Hx <-.
    split; [done|]. exists d200. rewrite Hw2, lookup_insert_eq.
    split; [done|]. split; [by apply (fresh_data_etag r200) | done].
Qed.

(** C21: cache idempotence.  After a successful fetch from an unchanged
    registry, a second fetch sends the conditional request, gets [304],
    returns the same entry and writes nothing. *)
Theorem fetch_registry_idempotent (w w1 : world) (x : json) :
  fetch_registry pkg w = (Ok x, w1) ->
  fetch_registry pkg w1 = (Ok x, log_get (mkRequest (registry_url pkg) (cond_headers etag)) w1).
Proof.
  intros Hrun. destruct (fetch_registry_post w w1 x Hrun) as (Hh & d & Hf & He & Hx).
  rewrite <-Hh in Hf. rewrite (fetch_registry_hit pkg etag d w1 r304); try done.
  - by rewrite Hx.
  - rewrite server. by rewrite decide_True.
Qed.

End Unchanged.

(** ** Witnesses *)

Definition ex_entry : json := JObj [("name", JStr "foo"); ("version", JStr "1.2.0")].

Definition ex_doc : json :=
  JObj [("name", JStr "foo"); ("dist-tags", JObj [("latest", JStr "1.2.0")]);
        ("versions", JObj [("1.0.0", JObj []); ("1.2.0", ex_entry)])].

Definition ex_doc_tagged : json :=
  JObj [("name", JStr "foo"); ("dist-tags", JObj [("latest", JStr "1.2.0")]);
        ("versions", JObj [("1.0.0", JObj []); ("1.2.0", ex_entry)]); ("_etag", JStr "abc123")].

Definition ex_r200 : response := mkResponse 200 (Some "abc123") (Some ex_doc) None EmptyString.
Definition ex_r304 : response := mkResponse 304 None None None EmptyString.
Definition ex_r404 : response := mkResponse 404 None None None EmptyString.

(** npm serving [ex_doc] under the tag [abc123]. *)
Definition ex_registry : Transport :=
  {| http_get := fun r =>
       if String.eqb (req_url r) (registry_url "foo")
       then Ok (if decide (req_headers r = cond_headers "abc123") then ex_r304 else ex_r200)
       else Err (ConnectionError (req_url r)) |}.

Definition ex_down : Transport := {| http_get := fun r => Ok ex_r404 |}.

Definition ex_world : world := mkWorld ∅ ∅ "/home/u" (mkDatetime 2026 11 9 12 0 0) [].

Definition ex_world_cached : world :=
  mkWorld (<["/home/u/.npm/registry.npmjs.org/foo/.cache.json" := BJson ex_doc_tagged]> ∅)
    ∅ "/home/u" (mkDatetime 2026 11 9 12 0 0) [].

Lemma fetch_registry_not_modified_witness :
  w_files ex_world_cached !! normpath (cache_path (w_home ex_world_cached) "foo") = Some (BJson ex_doc_tagged) /\
  dict_get "_etag" ex_doc_tagged = Ok (JStr "abc123") /\
  @http_get ex_registry (mkRequest (registry_url "foo") (cond_headers "abc123")) = Ok ex_r304 /\
  status ex_r304 = 304 /\
  @fetch_registry ex_registry "foo" ex_world_cached
  = (Ok ex_entry, log_get (mkRequest (registry_url "foo") (cond_headers "abc123")) ex_world_cached).
Proof.
  assert (Hf : w_files ex_world_cached !! normpath (cache_path (w_home ex_world_cached) "foo")
               = Some (BJson ex_doc_tagged)) by (vm_compute; reflexivity).
  do 4 (split; [first [exact Hf | reflexivity]|]).
  apply (@fetch_registry_not_modified ex_registry "foo" "abc123" ex_doc_tagged ex_world_cached ex_r304);
    first [exact Hf | reflexivity].
Defined.

Lemma fetch_registry_fresh_witness :
  w_files ex_world !! normpath (cache_path (w_home ex_world) "foo") = None /\
  (normpath (cache_path (w_home ex_world) "foo") ∉ w_dirs ex_world) /\
  @http_get ex_registry (mkRequest (registry_url "foo") base_headers) = Ok ex_r200 /\
  raise_for_status ex_r200 = Ok tt /\
  exists d w1, @fetch_registry ex_registry "foo" ex_world = (latest_entry d, w1) /\
    w_files w1 = <[normpath (cache_path (w_home ex_world) "foo") := BJson d]> (w_files ex_world) /\
    w_home w1 = w_home ex_world /\
    dict_get "_etag" d = Ok (JStr "abc123") /\
    (forall k, k <> "_etag" -> dict_get k d = dict_get k ex_doc).
Proof.
  split; [reflexivity|]. split; [apply not_elem_of_empty|].
  do 2 (split; [reflexivity|]).
  apply (@fetch_registry_fresh ex_registry _ _ _ ex_r200);
    first [reflexivity | apply not_elem_of_empty].
Defined.

(** npm now serves [ex_doc] under the tag [def456]. *)
Definition ex_r200' : response := mkResponse 200 (Some "def456") (Some ex_doc) None EmptyString.

Definition ex_registry' : Transport :=
  {| http_get := fun r =>
       if String.eqb (req_url r) (registry_url "foo")
       then Ok (if decide (req_headers r = cond_headers "def456") then ex_r304 else ex_r200')
       else Err (ConnectionError (req_url r)) |}.

Lemma fetch_registry_refresh_witness :
  w_files ex_world_cached !! normpath (cache_path (w_home ex_world_cached) "foo")
    = Some (BJson ex_doc_tagged) /\
  dict_get "_etag" ex_doc_tagged = Ok (JStr "abc123") /\
  @http_get ex_registry' (mkRequest (registry_url "foo") (cond_headers "abc123")) = Ok ex_r200' /\
  status ex_r200' <> 304 /\ raise_for_status ex_r200' = Ok tt /\
  exists d w1, @fetch_registry ex_registry' "foo" ex_world_cached = (latest_entry d, w1) /\
    w_files w1 = <[normpath (cache_path (w_home ex_world_cached) "foo") := BJson d]>
                   (w_files ex_world_cached) /\
    w_home w1 = w_home ex_world_cached /\
    dict_get "_etag" d = Ok (JStr "def456") /\
    (forall k, k <> "_etag" -> dict_get k d = dict_get k ex_doc).
Proof.
  assert (Hf : w_files ex_world_cached !! normpath (cache_path (w_home ex_world_cached) "foo")
               = Some (BJson ex_doc_tagged)) by (vm_compute; reflexivity).
  split; [exact Hf|]. do 2 (split; [reflexivity|]). split; [discriminate|]. split; [reflexivity|].
  apply (@fetch_registry_refresh ex_registry' "foo" "abc123" "def456" ex_doc_tagged ex_world_cached
           ex_r200'); first [exact Hf | reflexivity | discriminate].
Defined.

Lemma fetch_registry_error_witness :
  w_files ex_world !! normpath (cache_path (w_home ex_world) "foo") = None /\
  (normpath (cache_path (w_home ex_world) "foo") ∉ w_dirs ex_world) /\
  @http_get ex_down (mkRequest (registry_url "foo") base_headers) = Ok ex_r404 /\
  400 <= status ex_r404 < 600 /\
  @fetch_registry ex_down "foo" ex_world
  = (Err (HTTPError 404), log_get (mkRequest (registry_url "foo") base_headers) ex_world).
Proof.
  split; [reflexivity|]. split; [apply not_elem_of_empty|]. split; [reflexivity|].
  split; [simpl; lia|].
  apply (@fetch_registry_error ex_down _ _ ex_r404);
    first [reflexivity | apply not_elem_of_empty | simpl; lia].
Defined.

Lemma fetch_registry_idempotent_witness :
  @fetch_registry ex_registry "foo" ex_world
    = (Ok ex_entry, (@fetch_registry ex_registry "foo" ex_world).2) /\
  @fetch_registry ex_registry "foo" (@fetch_registry ex_registry "foo" ex_world).2
    = (Ok ex_entry, log_get (mkRequest (registry_url "foo") (cond_headers "abc123"))
                      (@fetch_registry ex_registry "foo" ex_world).2).
Proof.
  assert (H1 : @fetch_registry ex_registry "foo" ex_world
               = (Ok ex_entry, (@fetch_registry ex_registry "foo" ex_world).2))
    by (vm_compute; reflexivity).
  split; [exact H1|].
  eapply (@fetch_registry_idempotent ex_registry "foo" "abc123" ex_r304 ex_r200 ex_doc_tagged);
    first [exact H1 | reflexivity | intros hs; reflexivity].
Defined.

End Registry.
