(* ===== verification/GenPkg.v ===== *)
(** * GenPkg: [do_genpkg], the create / no-op / update workflow

    [do_genpkg(name)] (lines 107-166) locates [nodejs-<name>.spec] in the
    current directory or in [nodejs-<name>/], fetches the registry entry
    (Registry.v), and then
    - without a spec: asks the build service (Obs.v) and stops with a
      warning when the package is tracked there; otherwise creates the
      directory, renders the spec and the [_service] file (Template.v),
      writes the changes entry (Changes.v) and downloads the tarball
      (Download.v);
    - with a spec whose [Version] equals the registry's: stops;
    - with a different version: stops unless [--update] is given; with it,
      rewrites the [Version] line (SpecFile.v), writes the changes entry
      and downloads the tarball.
    [decide_sync] is the abstract decision of the spec (create, no-op,
    update) and the theorems show that the code follows it, with the
    files each branch writes; [do_genpkg_keeps] is the footprint of a
    whole run. *)

From stdpp Require Import base list strings gmap.
From Stdlib Require Import Ascii.
From S2P Require Import Prelude SpecFile Json Range Template Clock World Changes Download Obs Registry.
Import SpecFile Json Template Clock World Changes Download Obs Registry.

Module GenPkg.

(** ['nodejs-{}'.format(name)] *)
Definition pkg_name (name : string) : string := "nodejs-" +:+ name.

(** [oldver == data['version']] for a [str] and a JSON value. *)
Definition json_eq_str (j : json) (s : string) : bool :=
  match j with
  | JStr t => String.eqb t s
  | _ => false
  end.

(** [data['dist']['tarball']] used as a URL *)
Definition tarball_url (data : json) : result string :=
  dist <- dict_get "dist" data ;;
  t <- dict_get "tarball" dist ;;
  as_str t.

(** ['{}/_service'.format(dst)] *)
Definition service_path (dst : string) : string := dst +:+ "/_service".

Section GenPkg.
Context {transport : Transport} {renderer : Renderer}.

(** Lines 114-124: the destination directory, the spec path and whether
    the spec exists. *)
Definition locate_spec (name : string) : IO (string * string * bool) :=
  let pkg := pkg_name name in
  let specfn := pkg +:+ ".spec" in
  do e1 <- path_exists specfn ;
  if e1 then io_ret (".", path_join "." specfn, true)
  else
    do e2 <- path_exists (path_join pkg specfn) ;
    io_ret (pkg, path_join pkg specfn, e2).

(** Lines 135-139: create the package directory when needed
    ([osc.core.createPackageDir] inside a checkout, [os.mkdir] outside). *)
Definition make_dst (dst : string) : IO unit :=
  do dex <- path_exists dst ;
  if dex then io_ret tt
  else
    do osc <- path_exists ".osc" ;
    fs (OpMkdir dst).

(** Lines 141-156: the branch for an existing spec. *)
Definition update_branch (update : bool) (dst pkg specfn : string) (data : json) : IO unit :=
  do text <- read_text specfn ;
  let spec := spec_of_file text in
  match gettag "Version" spec with
  | None => io_raise (Exception "old version not defined?")
  | Some oldver =>
      do newver <- io_lift (dict_get "version" data) ;
      if json_eq_str newver oldver then io_ret tt
      else
        do _ <- io_lift (dict_has "dependencies" data) ;
        if update then
          write_file specfn [spec_str (settag "Version" (py_str newver) spec)] ;;
          write_changes_file dst pkg data ;;
          do url <- io_lift (tarball_url data) ;
          download url dst
        else io_ret tt
  end.

(** Lines 157-166: the branch for a new package. *)
Definition create_branch (dst pkg specfn : string) (data : json) : IO unit :=
  do ctx <- io_lift (get_templatedata data) ;
  write_file specfn [genspec ctx] ;;
  write_file (service_path dst) [genservice ctx] ;;
  write_changes_file dst pkg data ;;
  do url <- io_lift (tarball_url data) ;
  download url dst.

(** [do_genpkg(subcmd, opts, name)] with [opts.update = update]. *)
Definition do_genpkg (name : string) (update : bool) : IO unit :=
  let pkg := pkg_name name in
  do loc <- locate_spec name ;
  let '(dst, specfn, spec_exists) := loc in
  do data <- fetch_registry name ;
  do tracked <- (if spec_exists then io_ret None else check_dln_exists pkg) ;
  match tracked with
  | Some _ =>
      do _ <- io_lift (dict_get "version" data) ;
      io_ret tt
  | None =>
      (if negb spec_exists && negb (String.eqb dst ".") then make_dst dst else io_ret tt) ;;
      if spec_exists then update_branch update dst pkg specfn data
      else create_branch dst pkg specfn data
  end.

End GenPkg.

(** ** The decision of the spec *)

Inductive decision := Create | NoOp | Update.

(** What the spec prescribes for a package: create it when there is no
    spec, nothing when the versions agree, an update otherwise. *)
Definition decide_sync (spec_exists : bool) (oldver newver : string) : decision :=
  if negb spec_exists then Create
  else if String.eqb newver oldver then NoOp else Update.

Section Properties.
Context {transport : Transport} {renderer : Renderer}.

(** The start of a run on an existing spec: the spec is found, the
    registry entry [data] fetched (world [w1]), and [oldver] read from the
    spec, while the registry has [newver]. *)
Definition existing_run (name dst specfn text oldver newver : string) (data : json)
    (w w1 : world) : Prop :=
  locate_spec name w = (Ok (dst, specfn, true), w) /\
  fetch_registry name w = (Ok data, w1) /\
  w_files w1 !! normpath specfn = Some (BText text) /\
  gettag "Version" (spec_of_file text) = Some oldver /\
  dict_get "version" data = Ok (JStr newver).

Lemma do_genpkg_existing (name dst specfn text oldver newver : string) (data : json)
    (w w1 : world) (update : bool) :
  existing_run name dst specfn text oldver newver data w w1 ->
  do_genpkg name update w =
  (if String.eqb newver oldver then io_ret tt
   else io_bind (io_lift (dict_has "dependencies" data)) (fun _ =>
        if update then
          write_file specfn [spec_str (settag "Version" newver (spec_of_file text))] ;;
          write_changes_file dst (pkg_name name) data ;;
          do url <- io_lift (tarball_url data) ;
          download url dst
        else io_ret tt)) w1.
Proof.
  intros (Hloc & Hf & Hs & Hv & Hd). unfold do_genpkg.
  io_run Hloc.
  io_run Hf. io_steps. unfold update_branch.
  cbn [negb andb]. io_steps. rewrite (io_bind_read_text _ text) by done. cbv beta zeta. rewrite Hv, Hd. io_steps.
  cbn [json_eq_str]. destruct (String.eqb newver oldver); [done|]. by destruct update.
Qed.

(** C10: a spec with no [Version] line in its preamble stops the run
    with [Exception("old version not defined?")] right after the fetch:
    nothing is written, whatever [--update] says. *)
Theorem do_genpkg_no_version_tag (name dst specfn text : string) (data : json)
    (w w1 : world) (update : bool) :
  locate_spec name w = (Ok (dst, specfn, true), w) ->
  fetch_registry name w = (Ok data, w1) ->
  w_files w1 !! normpath specfn = Some (BText text) ->
  gettag "Version" (spec_of_file text) = None ->
  do_genpkg name update w = (Err (Exception "old version not defined?"), w1).
Proof.
  intros Hloc Hf Hs Hv. unfold do_genpkg.
  io_run Hloc.
  io_run Hf. io_steps. unfold update_branch.
  cbn [negb andb]. io_steps. rewrite (io_bind_read_text _ text) by done. cbv beta zeta.
  by rewrite Hv.
Qed.

(** The footprint of [do_genpkg]: it creates directories, opens, writes
    and renames files anywhere, and saves JSON only to the registry cache
    of the package and only cache documents. *)
Lemma do_genpkg_keeps (P : gmap string blob -> Prop) (name : string) (update : bool) :
  (forall d, op_keeps P (OpMkdir d)) -> (forall p, op_keeps P (OpOpenW p)) ->
  (forall p s, op_keeps P (OpWrite p s)) -> (forall p q, op_keeps P (OpRename p q)) ->
  (forall home j, cache_doc j -> op_keeps P (OpSaveJson (normpath (cache_path home name)) j)) ->
  keeps P (do_genpkg name update).
Proof.
  intros Hd Ho Hw Hr Hs. unfold do_genpkg, locate_spec, make_dst, update_branch, create_branch.
  keeps_steps; eauto using fresh_data_cache_doc.
Qed.

(** C1: no-op.  When the spec's [Version] equals the registry's, the run
    ends right after the fetch: no file is written and nothing is
    downloaded, whatever [--update] says. *)
Theorem do_genpkg_noop (name dst specfn text oldver newver : string) (data : json)
    (w w1 : world) (update : bool) :
  existing_run name dst specfn text oldver newver data w w1 ->
  decide_sync true oldver newver = NoOp ->
  do_genpkg name update w = (Ok tt, w1).
Proof.
  intros Hrun Hd. rewrite (do_genpkg_existing _ _ _ _ _ _ _ _ _ _ Hrun).
  unfold decide_sync in Hd. simpl in Hd. by destruct (String.eqb newver oldver).
Qed.

(** C3: detection without [--update].  When the versions differ and no
    update is requested, the run also ends after the fetch. *)
Theorem do_genpkg_detect_only (name dst specfn text oldver newver : string) (data : json)
    (w w1 : world) :
  existing_run name dst specfn text oldver newver data w w1 ->
  decide_sync true oldver newver = Update ->
  do_genpkg name false w = (Ok tt, w1).
Proof.
  intros Hrun Hd. rewrite (do_genpkg_existing _ _ _ _ _ _ _ _ _ _ Hrun).
  unfold decide_sync in Hd. simpl in Hd. destruct (String.eqb newver oldver); [done|].
  destruct Hrun as (_ & _ & _ & _ & Hdv).
  destruct (dict_get_is_dict _ "dependencies" _ _ Hdv) as [b Hb].
  unfold io_bind, io_lift. by rewrite Hb.
Qed.

(** C2: update.  With [--update] and differing versions, the run rewrites
    the spec with the [Version] line set to the registry's version (the
    rest of the spec as [settag] leaves it), then writes the changes entry,
    then downloads the tarball, in this order. *)
Theorem do_genpkg_update (name dst specfn text oldver newver : string) (data : json)
    (w w1 : world) :
  existing_run name dst specfn text oldver newver data w w1 ->
  decide_sync true oldver newver = Update ->
  do_genpkg name true w =
  (write_changes_file dst (pkg_name name) data ;;
   do url <- io_lift (tarball_url data) ;
   download url dst)
    (run_ops [OpOpenW (normpath specfn);
              OpWrite (normpath specfn) (spec_str (settag "Version" newver (spec_of_file text)))] w1).
Proof.
  intros Hrun Hd. rewrite (do_genpkg_existing _ _ _ _ _ _ _ _ _ _ Hrun).
  unfold decide_sync in Hd. simpl in Hd. destruct (String.eqb newver oldver); [done|].
  destruct Hrun as (_ & _ & _ & _ & Hdv).
  destruct (dict_get_is_dict _ "dependencies" _ _ Hdv) as [b Hb].
  unfold io_bind at 1, io_lift. rewrite Hb.
  unfold io_bind at 1. rewrite write_file_run. done.
Qed.

(** The start of a run on a new package: no spec is found and the
    registry entry [data] is fetched (world [w1]). *)
Definition new_run (name dst specfn : string) (data : json) (w w1 : world) : Prop :=
  locate_spec name w = (Ok (dst, specfn, false), w) /\
  fetch_registry name w = (Ok data, w1).

Lemma make_dst_files (dst : string) (w : world) :
  exists w', make_dst dst w = (Ok tt, w') /\ w_files w' = w_files w.
Proof.
  unfold make_dst. io_steps. destruct (bool_decide _); io_steps; eauto.
Qed.

(** A spec not found means the package directory is the destination:
    ["."] comes only with a spec in the current directory. *)
Lemma locate_spec_new (name dst specfn : string) (w w' : world) :
  locate_spec name w = (Ok (dst, specfn, false), w') -> dst = pkg_name name.
Proof. unfold locate_spec. io_steps. destruct (bool_decide _); io_steps; by intros [= <- _]. Qed.

(** C9: the existence flag of [locate_spec] is the truth about the spec
    path it returns: [locate_spec] reads nothing and changes nothing, the
    path is [os.path.join(dst, 'nodejs-<name>.spec')], and the flag says
    whether that path, as the file system resolves it, exists.  In the
    first branch the file tested is [nodejs-<name>.spec] and the path
    returned is [./nodejs-<name>.spec]: the same file. *)
Theorem locate_spec_checked (name dst specfn : string) (e : bool) (w w' : world) :
  locate_spec name w = (Ok (dst, specfn, e), w') ->
  w' = w /\ specfn = path_join dst (pkg_name name +:+ ".spec") /\
  e = bool_decide (is_Some (w_files w !! normpath specfn) \/ normpath specfn ∈ w_dirs w).
Proof.
  unfold locate_spec. io_steps. destruct (bool_decide _) eqn:E1; io_steps;
    intros [= <- <- <- <-]; (split; [done|]); (split; [done|]).
  - (* [normpath ("./" + f) = normpath f]: the same file *)
    symmetry. etransitivity; [|exact E1]. reflexivity.
  - done.
Qed.

Lemma do_genpkg_new (name dst specfn : string) (data : json) (w w1 w2 : world)
    (update : bool) :
  new_run name dst specfn data w w1 ->
  check_dln_exists (pkg_name name) w1 = (Ok None, w2) ->
  exists w3, w_files w3 = w_files w2 /\
    do_genpkg name update w = create_branch dst (pkg_name name) specfn data w3.
Proof.
  intros (Hloc & Hf) Hc. pose proof (locate_spec_new _ _ _ _ _ Hloc) as Hdst. unfold do_genpkg.
  io_run Hloc.
  io_run Hf.
  io_run Hc.
  destruct (String.eqb_spec dst ".") as [Heq|_]; [by rewrite Hdst in Heq|]. cbn [negb andb].
  destruct (make_dst_files dst w2) as (w3 & Hm & Hw3).
  exists w3. split; [done|]. by rewrite (io_bind_run _ _ _ _ _ Hm).
Qed.

(** The probe of the build service writes no file. *)
Lemma check_dln_probe_files (pkg : string) (r : option string) (w1 w2 : world) :
  check_dln_exists pkg w1 = (Ok r, w2) -> w_files w2 = w_files w1.
Proof.
  intros Hc. pose proof (check_dln_exists_files pkg w1) as [Hfiles _]. by rewrite Hc in Hfiles.
Qed.

(** A tracked package: after the probe, the run only evaluates
    [data['version']] for the warning. *)
Lemma do_genpkg_tracked_run (name dst specfn v : string) (data : json) (w w1 w2 : world)
    (update : bool) :
  new_run name dst specfn data w w1 ->
  check_dln_exists (pkg_name name) w1 = (Ok (Some v), w2) ->
  do_genpkg name update w = (x <- dict_get "version" data ;; Ok tt, w2).
Proof.
  intros (Hloc & Hf) Hc. unfold do_genpkg. io_run Hloc. io_run Hf. io_run Hc.
  by destruct (dict_get "version" data); io_steps.
Qed.

(** C5: a new package that the build service already tracks is not
    created: the run ends after the probe, and no file is written beyond
    the fetch. *)
Theorem do_genpkg_tracked (name dst specfn v : string) (data x : json) (w w1 w2 : world)
    (update : bool) :
  new_run name dst specfn data w w1 ->
  check_dln_exists (pkg_name name) w1 = (Ok (Some v), w2) ->
  dict_get "version" data = Ok x ->
  do_genpkg name update w = (Ok tt, w2) /\ w_files w2 = w_files w1.
Proof.
  intros Hrun Hc Hx. rewrite (do_genpkg_tracked_run _ _ _ _ _ _ _ _ update Hrun Hc), Hx.
  split; [done|]. by apply (check_dln_probe_files _ _ _ _ Hc).
Qed.

(** C11: the warning for a package the build service tracks formats
    [data['version']] (line 132): when the registry entry has no
    version, the run raises [KeyError] after the probe instead of
    returning, and still writes nothing beyond the fetch. *)
Theorem do_genpkg_tracked_no_version (name dst specfn v : string) (data : json) (e : exn)
    (w w1 w2 : world) (update : bool) :
  new_run name dst specfn data w w1 ->
  check_dln_exists (pkg_name name) w1 = (Ok (Some v), w2) ->
  dict_get "version" data = Err e ->
  do_genpkg name update w = (Err e, w2) /\ w_files w2 = w_files w1.
Proof.
  intros Hrun Hc Hx. rewrite (do_genpkg_tracked_run _ _ _ _ _ _ _ _ update Hrun Hc), Hx.
  split; [done|]. by apply (check_dln_probe_files _ _ _ _ Hc).
Qed.

(** C4: creation.  For a new untracked package whose template data can be
    built, the run writes the rendered spec and [_service] files, then
    writes the changes entry and downloads the tarball, in this order. *)
Theorem do_genpkg_create (name dst specfn : string) (data : json) (ctx : context)
    (w w1 w2 : world) (update : bool) :
  new_run name dst specfn data w w1 ->
  check_dln_exists (pkg_name name) w1 = (Ok None, w2) ->
  get_templatedata data = Ok ctx ->
  exists w3, w_files w3 = w_files w2 /\
    do_genpkg name update w =
    (write_changes_file dst (pkg_name name) data ;;
     do url <- io_lift (tarball_url data) ;
     download url dst)
      (run_ops [OpOpenW (normpath specfn); OpWrite (normpath specfn) (genspec ctx);
                OpOpenW (normpath (service_path dst));
                OpWrite (normpath (service_path dst)) (genservice ctx)] w3).
Proof.
  intros Hrun Hc Hctx.
  destruct (do_genpkg_new _ _ _ _ _ _ _ update Hrun Hc) as (w3 & Hw3 & ->).
  exists w3. split; [done|]. unfold create_branch. rewrite Hctx. io_steps.
  unfold io_bind at 1. rewrite write_file_run. cbv beta iota.
  unfold io_bind at 1. rewrite write_file_run. done.
Qed.

(** C6: a dependency range that cannot be translated aborts the creation
    with the translation's exception before any file is written (only the
    package directory may have been created). *)
Theorem do_genpkg_create_unsupported (name dst specfn : string) (data : json) (e : exn)
    (w w1 w2 : world) (update : bool) :
  new_run name dst specfn data w w1 ->
  check_dln_exists (pkg_name name) w1 = (Ok None, w2) ->
  get_templatedata data = Err e ->
  (do_genpkg name update w).1 = Err e /\ w_files (do_genpkg name update w).2 = w_files w2.
Proof.
  intros Hrun Hc Hctx.
  destruct (do_genpkg_new _ _ _ _ _ _ _ update Hrun Hc) as (w3 & Hw3 & ->).
  unfold create_branch. rewrite Hctx. by io_steps.
Qed.

End Properties.

(** ** Witnesses: the scenarios of the spec *)

Definition ex_tarball (v : string) : string :=
  "https://registry.npmjs.org/foo/-/foo-" +:+ v +:+ ".tgz".

Definition ex_entry (v : string) (deps : list (string * json)) : json :=
  JObj [("name", JStr "foo"); ("version", JStr v); ("description", JStr "Foo does things");
        ("homepage", JStr "https://example.org/foo"); ("dependencies", JObj deps);
        ("dist", JObj [("tarball", JStr (ex_tarball v))])].

Definition ex_doc (v : string) (deps : list (string * json)) : json :=
  JObj [("dist-tags", JObj [("latest", JStr v)]); ("versions", JObj [(v, ex_entry v deps)])].

(** npm with [foo] at version [v], the build service (tracking
    [nodejs-foo] or not), and the tarball. *)
Definition ex_net (v : string) (deps : list (string * json)) (tracked : bool) : Transport :=
  {| http_get := fun r =>
       let u := req_url r in
       if String.eqb u (registry_url "foo")
       then Ok (mkResponse 200 (Some "e1") (Some (ex_doc v deps)) None EmptyString)
       else if String.eqb u (source_url "nodejs-foo")
       then Ok (mkResponse (if tracked then 200 else 404) None None None EmptyString)
       else if String.eqb u (fileinfo_url "nodejs-foo")
       then Ok (mkResponse 200 None None
                  (Some (XElem "fileinfo" None [XElem "version" (Some "1.0.0") []])) EmptyString)
       else if String.eqb u (ex_tarball v)
       then Ok (mkResponse 200 None None None "TARBALL")
       else Err (ConnectionError u) |}.

Definition ex_renderer : Renderer := {| render := fun t ctx => t +:+ ": " +:+ ctx_summary ctx |}.

Definition ex_spec_text (v : string) : string :=
  SpecFile.unlines ["Name:           nodejs-foo"; "Version:        " +:+ v; "%description"; "Foo."].

Definition ex_world_spec (v : string) : world :=
  mkWorld (<["nodejs-foo/nodejs-foo.spec" := BText (ex_spec_text v)]> ∅) {["nodejs-foo"]}
    "/home/u" (mkDatetime 2026 11 9 12 0 0) [].

Definition ex_world_empty : world := mkWorld ∅ ∅ "/home/u" (mkDatetime 2026 11 9 12 0 0) [].

Definition ex_w1 (net : Transport) (w : world) : world := (@fetch_registry net "foo" w).2.

Ltac run_hyps := repeat split; vm_compute; first [reflexivity | discriminate].

Lemma do_genpkg_noop_witness :
  @existing_run (ex_net "2.0.0" [] false) "foo" "nodejs-foo" "nodejs-foo/nodejs-foo.spec"
    (ex_spec_text "2.0.0") "2.0.0" "2.0.0" (ex_entry "2.0.0" []) (ex_world_spec "2.0.0")
    (ex_w1 (ex_net "2.0.0" [] false) (ex_world_spec "2.0.0")) /\
  decide_sync true "2.0.0" "2.0.0" = NoOp /\
  @do_genpkg (ex_net "2.0.0" [] false) ex_renderer "foo" true (ex_world_spec "2.0.0")
  = (Ok tt, ex_w1 (ex_net "2.0.0" [] false) (ex_world_spec "2.0.0")).
Proof.
  assert (H : @existing_run (ex_net "2.0.0" [] false) "foo" "nodejs-foo" "nodejs-foo/nodejs-foo.spec"
    (ex_spec_text "2.0.0") "2.0.0" "2.0.0" (ex_entry "2.0.0" []) (ex_world_spec "2.0.0")
    (ex_w1 (ex_net "2.0.0" [] false) (ex_world_spec "2.0.0"))) by run_hyps.
  split; [exact H|]. split; [reflexivity|]. eapply do_genpkg_noop; [exact H | reflexivity].
Defined.

Lemma do_genpkg_detect_only_witness :
  @existing_run (ex_net "1.1.0" [] false) "foo" "nodejs-foo" "nodejs-foo/nodejs-foo.spec"
    (ex_spec_text "1.0.0") "1.0.0" "1.1.0" (ex_entry "1.1.0" []) (ex_world_spec "1.0.0")
    (ex_w1 (ex_net "1.1.0" [] false) (ex_world_spec "1.0.0")) /\
  decide_sync true "1.0.0" "1.1.0" = Update /\
  @do_genpkg (ex_net "1.1.0" [] false) ex_renderer "foo" false (ex_world_spec "1.0.0")
  = (Ok tt, ex_w1 (ex_net "1.1.0" [] false) (ex_world_spec "1.0.0")).
Proof.
  assert (H : @existing_run (ex_net "1.1.0" [] false) "foo" "nodejs-foo" "nodejs-foo/nodejs-foo.spec"
    (ex_spec_text "1.0.0") "1.0.0" "1.1.0" (ex_entry "1.1.0" []) (ex_world_spec "1.0.0")
    (ex_w1 (ex_net "1.1.0" [] false) (ex_world_spec "1.0.0"))) by run_hyps.
  split; [exact H|]. split; [reflexivity|]. eapply do_genpkg_detect_only; [exact H | reflexivity].
Defined.

(** The spec in the current directory: [locate_spec] answers [dst = "."]
    and [specfn = "./nodejs-foo.spec"], the file [nodejs-foo.spec]. *)
Definition ex_world_cwd (v : string) : world :=
  mkWorld (<["nodejs-foo.spec" := BText (ex_spec_text v)]> ∅) ∅
    "/home/u" (mkDatetime 2026 11 9 12 0 0) [].

Lemma locate_spec_checked_witness :
  locate_spec "foo" (ex_world_cwd "1.0.0")
    = (Ok (".", "./nodejs-foo.spec", true), ex_world_cwd "1.0.0") /\
  true = bool_decide (is_Some (w_files (ex_world_cwd "1.0.0") !! normpath "./nodejs-foo.spec") \/
                      normpath "./nodejs-foo.spec" ∈ w_dirs (ex_world_cwd "1.0.0")).
Proof.
  assert (H : locate_spec "foo" (ex_world_cwd "1.0.0")
    = (Ok (".", "./nodejs-foo.spec", true), ex_world_cwd "1.0.0")) by (vm_compute; reflexivity).
  split; [exact H|]. apply (locate_spec_checked _ _ _ _ _ _ H).
Defined.

Lemma do_genpkg_update_witness :
  @existing_run (ex_net "1.1.0" [] false) "foo" "." "./nodejs-foo.spec"
    (ex_spec_text "1.0.0") "1.0.0" "1.1.0" (ex_entry "1.1.0" []) (ex_world_cwd "1.0.0")
    (ex_w1 (ex_net "1.1.0" [] false) (ex_world_cwd "1.0.0")) /\
  decide_sync true "1.0.0" "1.1.0" = Update /\
  spec_str (settag "Version" "1.1.0" (spec_of_file (ex_spec_text "1.0.0")))
    = join_lines ["Name:           nodejs-foo"; "Version:        1.1.0"; "%description"; "Foo."] /\
  @do_genpkg (ex_net "1.1.0" [] false) ex_renderer "foo" true (ex_world_cwd "1.0.0")
  = (@write_changes_file "." (pkg_name "foo") (ex_entry "1.1.0" []) ;;
     do url <- io_lift (tarball_url (ex_entry "1.1.0" [])) ;
     @download (ex_net "1.1.0" [] false) url ".")
      (run_ops [OpOpenW (normpath "./nodejs-foo.spec");
                OpWrite (normpath "./nodejs-foo.spec")
                  (spec_str (settag "Version" "1.1.0" (spec_of_file (ex_spec_text "1.0.0"))))]
               (ex_w1 (ex_net "1.1.0" [] false) (ex_world_cwd "1.0.0"))).
Proof.
  assert (H : @existing_run (ex_net "1.1.0" [] false) "foo" "." "./nodejs-foo.spec"
    (ex_spec_text "1.0.0") "1.0.0" "1.1.0" (ex_entry "1.1.0" []) (ex_world_cwd "1.0.0")
    (ex_w1 (ex_net "1.1.0" [] false) (ex_world_cwd "1.0.0"))) by run_hyps.
  split; [exact H|]. split; [reflexivity|]. split; [vm_compute; reflexivity|].
  exact (do_genpkg_update _ _ _ _ _ _ _ _ _ H eq_refl).
Defined.

Definition ex_w2 (net : Transport) : world :=
  (@check_dln_exists net (pkg_name "foo") (ex_w1 net ex_world_empty)).2.

Lemma do_genpkg_tracked_witness :
  @new_run (ex_net "1.2.0" [] true) "foo" "nodejs-foo" "nodejs-foo/nodejs-foo.spec"
    (ex_entry "1.2.0" []) ex_world_empty (ex_w1 (ex_net "1.2.0" [] true) ex_world_empty) /\
  @check_dln_exists (ex_net "1.2.0" [] true) (pkg_name "foo")
    (ex_w1 (ex_net "1.2.0" [] true) ex_world_empty)
    = (Ok (Some "1.0.0"), ex_w2 (ex_net "1.2.0" [] true)) /\
  dict_get "version" (ex_entry "1.2.0" []) = Ok (JStr "1.2.0") /\
  @do_genpkg (ex_net "1.2.0" [] true) ex_renderer "foo" false ex_world_empty
    = (Ok tt, ex_w2 (ex_net "1.2.0" [] true)) /\
  w_files (ex_w2 (ex_net "1.2.0" [] true)) = w_files (ex_w1 (ex_net "1.2.0" [] true) ex_world_empty).
Proof.
  assert (H : @new_run (ex_net "1.2.0" [] true) "foo" "nodejs-foo" "nodejs-foo/nodejs-foo.spec"
    (ex_entry "1.2.0" []) ex_world_empty (ex_w1 (ex_net "1.2.0" [] true) ex_world_empty))
    by run_hyps.
  assert (Hc : @check_dln_exists (ex_net "1.2.0" [] true) (pkg_name "foo")
    (ex_w1 (ex_net "1.2.0" [] true) ex_world_empty)
    = (Ok (Some "1.0.0"), ex_w2 (ex_net "1.2.0" [] true))) by (vm_compute; reflexivity).
  split; [exact H|]. split; [exact Hc|]. split; [reflexivity|].
  eapply do_genpkg_tracked; [exact H | exact Hc | reflexivity].
Defined.

Definition ex_ctx : context :=
  mkContext (JStr "foo") (JStr "1.2.0") (JStr (ex_tarball "1.2.0")) (JStr "Foo does things")
    (JStr "FIXME") (JStr "https://example.org/foo") "Foo does things" ["bar >= 1.0.0"].

Lemma do_genpkg_create_witness :
  @new_run (ex_net "1.2.0" [("bar", JStr "^1.0.0")] false) "foo" "nodejs-foo"
    "nodejs-foo/nodejs-foo.spec" (ex_entry "1.2.0" [("bar", JStr "^1.0.0")]) ex_world_empty
    (ex_w1 (ex_net "1.2.0" [("bar", JStr "^1.0.0")] false) ex_world_empty) /\
  @check_dln_exists (ex_net "1.2.0" [("bar", JStr "^1.0.0")] false) (pkg_name "foo")
    (ex_w1 (ex_net "1.2.0" [("bar", JStr "^1.0.0")] false) ex_world_empty)
    = (Ok None, ex_w2 (ex_net "1.2.0" [("bar", JStr "^1.0.0")] false)) /\
  get_templatedata (ex_entry "1.2.0" [("bar", JStr "^1.0.0")]) = Ok ex_ctx /\
  exists w3, w_files w3 = w_files (ex_w2 (ex_net "1.2.0" [("bar", JStr "^1.0.0")] false)) /\
    @do_genpkg (ex_net "1.2.0" [("bar", JStr "^1.0.0")] false) ex_renderer "foo" false ex_world_empty =
    (write_changes_file "nodejs-foo" (pkg_name "foo") (ex_entry "1.2.0" [("bar", JStr "^1.0.0")]) ;;
     do url <- io_lift (tarball_url (ex_entry "1.2.0" [("bar", JStr "^1.0.0")])) ;
     @download (ex_net "1.2.0" [("bar", JStr "^1.0.0")] false) url "nodejs-foo")
      (run_ops [OpOpenW (normpath "nodejs-foo/nodejs-foo.spec");
                OpWrite (normpath "nodejs-foo/nodejs-foo.spec") (@genspec ex_renderer ex_ctx);
                OpOpenW (normpath (service_path "nodejs-foo"));
                OpWrite (normpath (service_path "nodejs-foo")) (@genservice ex_renderer ex_ctx)] w3).
Proof.
  assert (H : @new_run (ex_net "1.2.0" [("bar", JStr "^1.0.0")] false) "foo" "nodejs-foo"
    "nodejs-foo/nodejs-foo.spec" (ex_entry "1.2.0" [("bar", JStr "^1.0.0")]) ex_world_empty
    (ex_w1 (ex_net "1.2.0" [("bar", JStr "^1.0.0")] false) ex_world_empty)) by run_hyps.
  assert (Hc : @check_dln_exists (ex_net "1.2.0" [("bar", JStr "^1.0.0")] false) (pkg_name "foo")
    (ex_w1 (ex_net "1.2.0" [("bar", JStr "^1.0.0")] false) ex_world_empty)
    = (Ok None, ex_w2 (ex_net "1.2.0" [("bar", JStr "^1.0.0")] false))) by (vm_compute; reflexivity).
  split; [exact H|]. split; [exact Hc|]. split; [reflexivity|].
  eapply do_genpkg_create; [exact H | exact Hc | reflexivity].
Defined.

Lemma do_genpkg_create_unsupported_witness :
  @new_run (ex_net "1.2.0" [("bar", JStr ">=1.0.0 <2.0.0")] false) "foo" "nodejs-foo"
    "nodejs-foo/nodejs-foo.spec" (ex_entry "1.2.0" [("bar", JStr ">=1.0.0 <2.0.0")]) ex_world_empty
    (ex_w1 (ex_net "1.2.0" [("bar", JStr ">=1.0.0 <2.0.0")] false) ex_world_empty) /\
  @check_dln_exists (ex_net "1.2.0" [("bar", JStr ">=1.0.0 <2.0.0")] false) (pkg_name "foo")
    (ex_w1 (ex_net "1.2.0" [("bar", JStr ">=1.0.0 <2.0.0")] false) ex_world_empty)
    = (Ok None, ex_w2 (ex_net "1.2.0" [("bar", JStr ">=1.0.0 <2.0.0")] false)) /\
  get_templatedata (ex_entry "1.2.0" [("bar", JStr ">=1.0.0 <2.0.0")])
    = Err (Exception "unsupported version specification >") /\
  (@do_genpkg (ex_net "1.2.0" [("bar", JStr ">=1.0.0 <2.0.0")] false) ex_renderer "foo" false
     ex_world_empty).1 = Err (Exception "unsupported version specification >") /\
  w_files (@do_genpkg (ex_net "1.2.0" [("bar", JStr ">=1.0.0 <2.0.0")] false) ex_renderer "foo" false
     ex_world_empty).2 = w_files (ex_w2 (ex_net "1.2.0" [("bar", JStr ">=1.0.0 <2.0.0")] false)).
Proof.
  assert (H : @new_run (ex_net "1.2.0" [("bar", JStr ">=1.0.0 <2.0.0")] false) "foo" "nodejs-foo"
    "nodejs-foo/nodejs-foo.spec" (ex_entry "1.2.0" [("bar", JStr ">=1.0.0 <2.0.0")]) ex_world_empty
    (ex_w1 (ex_net "1.2.0" [("bar", JStr ">=1.0.0 <2.0.0")] false) ex_world_empty)) by run_hyps.
  assert (Hc : @check_dln_exists (ex_net "1.2.0" [("bar", JStr ">=1.0.0 <2.0.0")] false)
    (pkg_name "foo") (ex_w1 (ex_net "1.2.0" [("bar", JStr ">=1.0.0 <2.0.0")] false) ex_world_empty)
    = (Ok None, ex_w2 (ex_net "1.2.0" [("bar", JStr ">=1.0.0 <2.0.0")] false)))
    by (vm_compute; reflexivity).
  split; [exact H|]. split; [exact Hc|]. split; [reflexivity|].
  eapply do_genpkg_create_unsupported; [exact H | exact Hc | reflexivity].
Defined.

(** A spec whose preamble has no [Version] line. *)
Definition ex_world_nover : world :=
  mkWorld (<["nodejs-foo/nodejs-foo.spec" :=
              BText (SpecFile.unlines ["Name:           nodejs-foo"; "%description"; "Foo."])]> ∅)
    {["nodejs-foo"]} "/home/u" (mkDatetime 2026 11 9 12 0 0) [].

Lemma do_genpkg_no_version_tag_witness :
  locate_spec "foo" ex_world_nover = (Ok ("nodejs-foo", "nodejs-foo/nodejs-foo.spec", true), ex_world_nover) /\
  @fetch_registry (ex_net "1.1.0" [] false) "foo" ex_world_nover
    = (Ok (ex_entry "1.1.0" []), ex_w1 (ex_net "1.1.0" [] false) ex_world_nover) /\
  w_files (ex_w1 (ex_net "1.1.0" [] false) ex_world_nover) !! normpath "nodejs-foo/nodejs-foo.spec"
    = Some (BText (SpecFile.unlines ["Name:           nodejs-foo"; "%description"; "Foo."])) /\
  gettag "Version" (spec_of_file (SpecFile.unlines ["Name:           nodejs-foo"; "%description"; "Foo."]))
    = None /\
  @do_genpkg (ex_net "1.1.0" [] false) ex_renderer "foo" true ex_world_nover
    = (Err (Exception "old version not defined?"), ex_w1 (ex_net "1.1.0" [] false) ex_world_nover).
Proof.
  assert (H1 : locate_spec "foo" ex_world_nover
               = (Ok ("nodejs-foo", "nodejs-foo/nodejs-foo.spec", true), ex_world_nover))
    by (vm_compute; reflexivity).
  assert (H2 : @fetch_registry (ex_net "1.1.0" [] false) "foo" ex_world_nover
               = (Ok (ex_entry "1.1.0" []), ex_w1 (ex_net "1.1.0" [] false) ex_world_nover))
    by (vm_compute; reflexivity).
  assert (H3 : w_files (ex_w1 (ex_net "1.1.0" [] false) ex_world_nover) !! normpath "nodejs-foo/nodejs-foo.spec"
    = Some (BText (SpecFile.unlines ["Name:           nodejs-foo"; "%description"; "Foo."])))
    by (vm_compute; reflexivity).
  assert (H4 : gettag "Version" (spec_of_file
                 (SpecFile.unlines ["Name:           nodejs-foo"; "%description"; "Foo."])) = None)
    by (vm_compute; reflexivity).
  split; [exact H1|]. split; [exact H2|]. split; [exact H3|]. split; [exact H4|].
  exact (do_genpkg_no_version_tag _ _ _ _ _ _ _ true H1 H2 H3 H4).
Defined.

(** npm serves [foo] with a latest entry that has no [version]; the build
    service tracks [nodejs-foo]. *)
Definition ex_net_nover : Transport :=
  {| http_get := fun r =>
       if String.eqb (req_url r) (registry_url "foo")
       then Ok (mkResponse 200 (Some "e1")
                  (Some (JObj [("dist-tags", JObj [("latest", JStr "1.2.0")]);
                               ("versions", JObj [("1.2.0", JObj [("name", JStr "foo")])])]))
                  None EmptyString)
       else @http_get (ex_net "1.2.0" [] true) r |}.

Lemma do_genpkg_tracked_no_version_witness :
  @new_run ex_net_nover "foo" "nodejs-foo" "nodejs-foo/nodejs-foo.spec"
    (JObj [("name", JStr "foo")]) ex_world_empty (ex_w1 ex_net_nover ex_world_empty) /\
  @check_dln_exists ex_net_nover (pkg_name "foo") (ex_w1 ex_net_nover ex_world_empty)
    = (Ok (Some "1.0.0"), ex_w2 ex_net_nover) /\
  dict_get "version" (JObj [("name", JStr "foo")]) = Err (KeyError "version") /\
  @do_genpkg ex_net_nover ex_renderer "foo" false ex_world_empty
    = (Err (KeyError "version"), ex_w2 ex_net_nover) /\
  w_files (ex_w2 ex_net_nover) = w_files (ex_w1 ex_net_nover ex_world_empty).
Proof.
  assert (H : @new_run ex_net_nover "foo" "nodejs-foo" "nodejs-foo/nodejs-foo.spec"
    (JObj [("name", JStr "foo")]) ex_world_empty (ex_w1 ex_net_nover ex_world_empty)) by run_hyps.
  assert (Hc : @check_dln_exists ex_net_nover (pkg_name "foo") (ex_w1 ex_net_nover ex_world_empty)
    = (Ok (Some "1.0.0"), ex_w2 ex_net_nover)) by (vm_compute; reflexivity).
  split; [exact H|]. split; [exact Hc|]. split; [reflexivity|].
  exact (do_genpkg_tracked_no_version _ _ _ _ _ _ _ _ _ false H Hc eq_refl).
Defined.

End GenPkg.
