(* ===== verification/Invariants.v ===== *)
(** * Invariants: what holds across the components and across runs

    Two properties of the program as a whole, proved from the footprints
    of its components (the [keeps] lemmas of Changes.v, Download.v,
    Obs.v, Registry.v and GenPkg.v) rather than by running them:
    - the cache invariant [json_wf]: every JSON document in the file
      system is a cache document, a dict with a string ['_etag'].  The
      only JSON the program writes is the registry cache (line 241), and
      line 230 reads [data['_etag']] from it on the next run; every run of
      [do_genpkg], whatever it returns or raises, keeps the invariant;
    - the settling of an update: once a run has rewritten the spec, the
      next run against the same registry entry finds the new version and
      does nothing, whatever became of the rest of the first run. *)

From stdpp Require Import base list strings gmap.
From Stdlib Require Import Ascii.
From S2P Require Import Prelude SpecFile Json Range Template Clock World Changes Download Obs Registry GenPkg.
Import SpecFile Json Template Clock World Changes Download Obs Registry GenPkg.

Module Invariants.

(** Every JSON document of the file system is a cache document. *)
Definition json_wf (files : gmap string blob) : Prop :=
  forall p j, files !! p = Some (BJson j) -> cache_doc j.

(** The operations that keep [json_wf]: all but saving another JSON. *)
Definition save_ok (op : fs_op) : Prop :=
  match op with
  | OpSaveJson _ j => cache_doc j
  | _ => True
  end.

Lemma op_keeps_json_wf (op : fs_op) : save_ok op -> op_keeps json_wf op.
Proof.
  intros Hop files dirs Hf p j. destruct op as [q|q s|src dst|q|q j']; simpl in *.
  - rewrite lookup_insert_Some. intros [[_ [=]]|[_ H]]; eauto.
  - destruct (files !! q) as [[t|j0]|]; simpl;
      rewrite lookup_insert_Some; intros [[_ [=]]|[_ H]]; eauto.
  - destruct (files !! src) as [b|] eqn:E; simpl; [|eauto].
    rewrite lookup_insert_Some, lookup_delete_Some. intros [[_ ->]|[_ [_ H]]]; eauto.
  - eauto.
  - rewrite lookup_insert_Some. intros [[_ [= <-]]|[_ H]]; eauto.
Qed.

(** ** Paths *)

Lemma locate_spec_specfn `{Transport} (name dst specfn : string) (e : bool) (w w' : world) :
  locate_spec name w = (Ok (dst, specfn, e), w') ->
  specfn = path_join dst (pkg_name name +:+ ".spec").
Proof. unfold locate_spec. io_steps. destruct (bool_decide _); io_steps; by intros [= <- <- _]. Qed.

(** The spec, the changes file, its temporary file, the registry cache
    and [_service] end in different characters, so they are different
    files. *)
Lemma specfn_ends (dst name : string) :
  ends_with (path_join dst (pkg_name name +:+ ".spec")) "c".
Proof. apply path_join_ends_with, ends_with_app. by exists ".spe". Qed.

Lemma changes_path_ends (dst pkg : string) : ends_with (changes_path dst pkg) "s".
Proof. apply path_join_ends_with, ends_with_app. by exists ".change". Qed.

Lemma tmp_path_ends (fn : string) : ends_with (tmp_path fn) "w".
Proof. apply ends_with_app. by exists ".ne". Qed.

Lemma cache_path_ends (home pkg : string) : ends_with (cache_path home pkg) "n".
Proof. apply expanduser_ends_with, ends_with_app, ends_with_app. by exists "/.cache.jso". Qed.

Lemma service_path_ends (dst : string) : ends_with (service_path dst) "e".
Proof. apply ends_with_app. by exists "/_servic". Qed.

Ltac path_ends :=
  first [apply specfn_ends | apply changes_path_ends | apply tmp_path_ends
        | apply cache_path_ends | apply service_path_ends
        | apply normpath_ends_with; [path_ends | discriminate]].

(** Close [p <> q] (or [~ (p = q \/ ...)]) for two of the paths above,
    as given or as the file system resolves them ([normpath]). *)
Ltac paths_differ :=
  simpl; intros ?; repeat match goal with H : _ \/ _ |- _ => destruct H end;
  match goal with
  | H : False |- _ => destruct H
  | H : ?a = ?b |- False =>
      refine (ends_with_ne a b _ _ _ _ _ H); [path_ends | path_ends | discriminate]
  end.

Section Runs.
Context {transport : Transport} {renderer : Renderer}.

(** The first run's spec write survives what follows it: the changes
    entry and the download touch other files. *)
Lemma update_rest_keeps_spec (name dst url : string) (data : json) (b : option blob) :
  tarball_url data = Ok url ->
  normpath (download_path url dst) <> normpath (path_join dst (pkg_name name +:+ ".spec")) ->
  keeps (unchanged (normpath (path_join dst (pkg_name name +:+ ".spec"))) b)
    (write_changes_file dst (pkg_name name) data ;;
     do url <- io_lift (tarball_url data) ;
     download url dst).
Proof.
  intros Hurl Hdl. apply keeps_bind.
  - apply write_changes_file_keeps; intros; apply op_keeps_unchanged; paths_differ.
  - intros _. apply keeps_bind_lift. intros u Hu. rewrite Hu in Hurl. injection Hurl as ->.
    apply download_keeps; intros; by apply op_keeps_unchanged.
Qed.

Lemma fetch_registry_keeps_spec (name dst : string) (b : option blob) :
  keeps (unchanged (normpath (path_join dst (pkg_name name +:+ ".spec"))) b) (fetch_registry name).
Proof.
  apply fetch_registry_keeps; intros; apply op_keeps_unchanged; paths_differ.
Qed.

(** C8: every run of [do_genpkg], whatever it returns or raises,
    keeps the cache invariant: if every JSON document of the file system
    was a cache document (a dict with a string ['_etag']) before the run,
    so is every one after it.  The only JSON the program saves is the
    registry's answer with ['_etag'] set (lines 236-241), which is what
    makes [data['_etag']] at line 230 safe on the next run. *)
Theorem do_genpkg_json_wf (name : string) (update : bool) (w : world) :
  json_wf (w_files w) -> json_wf (w_files (do_genpkg name update w).2).
Proof. revert w. apply do_genpkg_keeps; intros; by apply op_keeps_json_wf. Qed.

(** C7: an update settles.  Once a run with [--update] has
    rewritten the spec (whatever became of the changes entry and the
    download after it: they may have raised), the next run that finds the
    spec at the same place and the same registry entry reads back the new
    version and ends after the fetch, writing and downloading nothing.
    It needs the Version line in the preamble, a [%package ] or
    [%description] line after it, a version without whitespace in front
    or newline, and the tarball not stored under the spec's name.  So a
    failed download is never retried. *)
Theorem do_genpkg_update_settles (name dst specfn text oldver newver b url : string)
    (pre post : list string) (data : json) (update : bool) (w w1 w3 : world) :
  existing_run name dst specfn text oldver newver data w w1 ->
  decide_sync true oldver newver = Update ->
  lines (spec_of_file text) = pre ++ b :: post ->
  Forall (fun l => is_boundary l = false) pre -> is_boundary b = true ->
  Forall no_newline pre -> no_newline newver -> starts_nonspace newver = true ->
  tarball_url data = Ok url -> normpath (download_path url dst) <> normpath specfn ->
  locate_spec name (do_genpkg name true w).2 = (Ok (dst, specfn, true), (do_genpkg name true w).2) ->
  fetch_registry name (do_genpkg name true w).2 = (Ok data, w3) ->
  do_genpkg name update (do_genpkg name true w).2 = (Ok tt, w3).
Proof.
  intros Hrun Hd Hl Hpre Hb Hnl Hv Hs Hurl Hdl Hloc2 Hf2.
  pose proof Hrun as (Hloc & _ & _ & Hold & Hnew).
  pose proof (locate_spec_specfn _ _ _ _ _ _ Hloc) as ->.
  assert (H2 : w_files (do_genpkg name true w).2 !! normpath (path_join dst (pkg_name name +:+ ".spec"))
               = Some (BText (spec_str (settag "Version" newver (spec_of_file text))))).
  { rewrite (do_genpkg_existing _ _ _ _ _ _ _ _ _ _ Hrun).
    unfold decide_sync in Hd. simpl in Hd. destruct (String.eqb newver oldver); [done|].
    destruct (dict_get_is_dict _ "dependencies" _ _ Hnew) as [d Hdep].
    unfold io_bind at 1, io_lift. rewrite Hdep. cbv beta iota.
    pose proof (write_file_then (path_join dst (pkg_name name +:+ ".spec"))
      [spec_str (settag "Version" newver (spec_of_file text))]
      (write_changes_file dst (pkg_name name) data ;;
       do url <- io_lift (tarball_url data) ; download url dst) w1) as HW.
    cbn [cat] in HW. rewrite append_nil_r in HW. apply HW. by apply (update_rest_keeps_spec _ _ url). }
  assert (Hrun2 : existing_run name dst (path_join dst (pkg_name name +:+ ".spec"))
    (spec_str (settag "Version" newver (spec_of_file text))) newver newver data
    (do_genpkg name true w).2 w3).
  { split; [done|]. split; [done|]. split.
    - pose proof (fetch_registry_keeps_spec name dst _ _ H2) as H3.
      unfold unchanged in H3. by rewrite Hf2 in H3.
    - split; [|done]. destruct (spec_of_file text) as [ls]. simpl in Hl. subst ls.
      apply gettag_reread_settag; try done.
      unfold gettag in Hold |- *. cbn [lines] in Hold |- *. rewrite gettag_loop_boundary in Hold by done.
      by rewrite Hold. }
  rewrite (do_genpkg_existing _ _ _ _ _ _ _ _ _ _ Hrun2). by rewrite String.eqb_refl.
Qed.

End Runs.

(** ** Witnesses *)

(** npm serves [foo] 1.1.0 as [ex_net] does, but its tarball answers 404. *)
Definition ex_net_notar : Transport :=
  {| http_get := fun r => if String.eqb (req_url r) (ex_tarball "1.1.0")
                          then Ok (mkResponse 404 None None None EmptyString)
                          else @http_get (ex_net "1.1.0" [] false) r |}.

(** The world after a first update run, and after the second run's fetch. *)
Definition ex_run1 : world :=
  (@do_genpkg ex_net_notar ex_renderer "foo" true (ex_world_spec "1.0.0")).2.
Definition ex_run2 : world := (@fetch_registry ex_net_notar "foo" ex_run1).2.

Lemma json_wf_ex_world_spec : json_wf (w_files (ex_world_spec "1.0.0")).
Proof. intros p j. simpl. rewrite lookup_insert_Some, lookup_empty. by intros [[_ [=]]|[_ [=]]]. Qed.

Lemma do_genpkg_json_wf_witness :
  json_wf (w_files (ex_world_spec "1.0.0")) /\
  json_wf (w_files ex_run1) /\
  exists j, w_files ex_run1 !! cache_path "/home/u" "foo" = Some (BJson j).
Proof.
  split; [exact json_wf_ex_world_spec|]. split.
  - apply do_genpkg_json_wf, json_wf_ex_world_spec.
  - eexists. vm_compute. reflexivity.
Defined.

Lemma do_genpkg_update_settles_witness :
  @existing_run ex_net_notar "foo" "nodejs-foo" "nodejs-foo/nodejs-foo.spec"
    (ex_spec_text "1.0.0") "1.0.0" "1.1.0" (ex_entry "1.1.0" []) (ex_world_spec "1.0.0")
    (ex_w1 ex_net_notar (ex_world_spec "1.0.0")) /\
  (@do_genpkg ex_net_notar ex_renderer "foo" true (ex_world_spec "1.0.0")).1
    = Err (HTTPError 404) /\
  @do_genpkg ex_net_notar ex_renderer "foo" true ex_run1 = (Ok tt, ex_run2).
Proof.
  assert (H : @existing_run ex_net_notar "foo" "nodejs-foo" "nodejs-foo/nodejs-foo.spec"
    (ex_spec_text "1.0.0") "1.0.0" "1.1.0" (ex_entry "1.1.0" []) (ex_world_spec "1.0.0")
    (ex_w1 ex_net_notar (ex_world_spec "1.0.0"))) by run_hyps.
  split; [exact H|]. split; [vm_compute; reflexivity|].
  apply (@do_genpkg_update_settles ex_net_notar ex_renderer "foo" "nodejs-foo"
    "nodejs-foo/nodejs-foo.spec" (ex_spec_text "1.0.0") "1.0.0" "1.1.0" "%description"
    (ex_tarball "1.1.0") ["Name:           nodejs-foo"; "Version:        1.0.0"] ["Foo."]
    (ex_entry "1.1.0" []) true (ex_world_spec "1.0.0") (ex_w1 ex_net_notar (ex_world_spec "1.0.0"))
    ex_run2);
  first [ exact H | vm_compute; reflexivity | intros Heq; vm_compute in Heq; discriminate
        | repeat constructor ].
Defined.

End Invariants.
