(* ===== verification/Cli.v ===== *)
(** * Cli: the command line of [BoilderPlate] (lines 66-107)

    [cmdln] dispatches [npmspec genspec PKG] to [do_genspec] (lines
    92-101) and [npmspec genpkg [-u] [-f] NAME] to [do_genpkg] (lines
    103-107); [get_optparser] declares the global options [--dry],
    [--debug] and [--verbose] (lines 74-79), and [postoptparse] sets the
    logging level from them (lines 81-90).  [--dry] and [-f] are
    declared but never read.  The model returns what [do_genspec]
    prints; the theorem shows that it is the spec file that [genpkg]
    creates for the same package. *)

From stdpp Require Import base list strings gmap.
From Stdlib Require Import Ascii.
From S2P Require Import Prelude SpecFile Json Range Template Clock World Changes Download Obs Registry GenPkg Invariants.
Import Json Template World Changes Download Obs Registry GenPkg Invariants.

Module Cli.

(** The global options of [get_optparser]. *)
Record options := mkOptions { opt_dry : bool; opt_debug : bool; opt_verbose : bool }.

(** The [logging] levels the options select. *)
Inductive log_level := DEBUG | INFO | WARNING.

(** [postoptparse]: [level] is [logging.DEBUG] with [--debug], else
    [logging.INFO] with [--verbose], else [None]; [logging.basicConfig]
    with [level=None] leaves the root logger at its default, [WARNING]. *)
Definition postoptparse (o : options) : log_level :=
  if opt_debug o then DEBUG else if opt_verbose o then INFO else WARNING.

(** The subcommands, with the options their decorators declare. *)
Inductive command :=
| Genspec (force : bool) (pkg : string)
| Genpkg (update force : bool) (name : string).

Section Cli.
Context {transport : Transport} {renderer : Renderer}.

(** [do_genspec(subcmd, opts, pkg)]: the text it prints. *)
Definition do_genspec (pkg : string) : IO string :=
  do data <- fetch_registry pkg ;
  do ctx <- io_lift (get_templatedata data) ;
  io_ret (genspec ctx).

(** The dispatch of [cmdln]: what the subcommand prints, if anything. *)
Definition run_command (c : command) : IO (option string) :=
  match c with
  | Genspec _ pkg => do s <- do_genspec pkg ; io_ret (Some s)
  | Genpkg update _ name => do_genpkg name update ;; io_ret None
  end.

(** C31: for a new package that the build service does not track,
    the text [npmspec genspec NAME] prints is exactly the spec file that
    [npmspec genpkg NAME] creates from the same registry answer, whatever
    becomes of the steps after the spec is written. *)
Theorem genspec_is_created_spec (name dst specfn s url : string) (data : json) (update : bool)
    (w w1 w2 : world) :
  new_run name dst specfn data w w1 ->
  check_dln_exists (pkg_name name) w1 = (Ok None, w2) ->
  tarball_url data = Ok url -> normpath (download_path url dst) <> normpath specfn ->
  do_genspec name w = (Ok s, w1) ->
  w_files (do_genpkg name update w).2 !! normpath specfn = Some (BText s).
Proof.
  intros Hrun Hc Hurl Hdl Hgs.
  pose proof Hrun as [Hloc Hf]. pose proof (locate_spec_specfn _ _ _ _ _ _ Hloc) as ->.
  unfold do_genspec in Hgs. rewrite (io_bind_run _ _ _ _ _ Hf) in Hgs.
  destruct (get_templatedata data) as [ctx|e] eqn:Hctx; [|done].
  rewrite io_bind_lift_ok in Hgs. injection Hgs as <-.
  destruct (do_genpkg_new _ _ _ _ _ _ _ update Hrun Hc) as (w3 & _ & ->).
  unfold create_branch. rewrite Hctx, io_bind_lift_ok.
  pose proof (write_file_then (path_join dst (pkg_name name +:+ ".spec")) [genspec ctx]
    (write_file (service_path dst) [genservice ctx] ;;
     write_changes_file dst (pkg_name name) data ;;
     do url <- io_lift (tarball_url data) ; download url dst) w3) as HW.
  cbn [cat] in HW. rewrite append_nil_r in HW. apply HW, keeps_bind.
  - apply keeps_write_file; intros; apply op_keeps_unchanged; paths_differ.
  - intros _. by apply (update_rest_keeps_spec _ _ url).
Qed.

End Cli.

(** ** Witness *)

Definition ex_cli_net : Transport := ex_net "1.2.0" [("bar", JStr "^1.0.0")] false.

Lemma genspec_is_created_spec_witness :
  @new_run ex_cli_net "foo" "nodejs-foo" "nodejs-foo/nodejs-foo.spec"
    (ex_entry "1.2.0" [("bar", JStr "^1.0.0")]) ex_world_empty (ex_w1 ex_cli_net ex_world_empty) /\
  @check_dln_exists ex_cli_net (pkg_name "foo") (ex_w1 ex_cli_net ex_world_empty)
    = (Ok None, ex_w2 ex_cli_net) /\
  @do_genspec ex_cli_net ex_renderer "foo" ex_world_empty
    = (Ok (@genspec ex_renderer ex_ctx), ex_w1 ex_cli_net ex_world_empty) /\
  w_files (@do_genpkg ex_cli_net ex_renderer "foo" false ex_world_empty).2
    !! normpath "nodejs-foo/nodejs-foo.spec" = Some (BText (@genspec ex_renderer ex_ctx)).
Proof.
  assert (H : @new_run ex_cli_net "foo" "nodejs-foo" "nodejs-foo/nodejs-foo.spec"
    (ex_entry "1.2.0" [("bar", JStr "^1.0.0")]) ex_world_empty (ex_w1 ex_cli_net ex_world_empty))
    by run_hyps.
  assert (Hc : @check_dln_exists ex_cli_net (pkg_name "foo") (ex_w1 ex_cli_net ex_world_empty)
    = (Ok None, ex_w2 ex_cli_net)) by (vm_compute; reflexivity).
  assert (Hg : @do_genspec ex_cli_net ex_renderer "foo" ex_world_empty
    = (Ok (@genspec ex_renderer ex_ctx), ex_w1 ex_cli_net ex_world_empty))
    by (vm_compute; reflexivity).
  split; [exact H|]. split; [exact Hc|]. split; [exact Hg|].
  apply (@genspec_is_created_spec ex_cli_net ex_renderer "foo" "nodejs-foo"
    "nodejs-foo/nodejs-foo.spec" (@genspec ex_renderer ex_ctx) (ex_tarball "1.2.0")
    (ex_entry "1.2.0" [("bar", JStr "^1.0.0")]) false ex_world_empty
    (ex_w1 ex_cli_net ex_world_empty) (ex_w2 ex_cli_net));
    [exact H | exact Hc | reflexivity | intros Heq; vm_compute in Heq; discriminate
    | exact Hg].
Defined.

End Cli.
